(** * AutiCare behavioural screening model: a shallow embedding

    The development follows [cv/AutiCare/autism_screening_model.py].
    Python floats are IEEE 754 binary64 numbers and are modelled by Rocq's
    primitive floats, which are the same format with the same
    round-to-nearest-even arithmetic; Python integers are [Z]; exceptions are
    values of a small error monad; [np.random] is an explicit stream of draws
    that is threaded through the code as state. *)

From Stdlib Require Import ZArith List Bool String Ascii Lia Floats Uint63.
Import ListNotations.

Set Warnings "-inexact-float,-register-all".
Local Open Scope Z_scope.

(** ** Python primitives used by the model *)

Module Py.

(** Exceptions the modelled code can raise. *)
Inductive exn : Type :=
| ValueError (msg : string)
| ZeroDivisionError
| OverflowError
| IndexError.

Inductive result (A : Type) : Type :=
| Ok (a : A)
| Raise (e : exn).
Arguments Ok {A} a.
Arguments Raise {A} e.

(** [sys.maxsize]: the largest length of a list and the range of the
    integers that index one. *)
Definition maxsize : Z := 2 ^ 63 - 1.

(** Conversion of an integer to a float, as done by [int / int],
    [int / float] and [float * int].  Faithful (correctly rounded) for
    [|z| <= maxsize], which covers every length, index and counter. *)
Definition float_of_int (z : Z) : float :=
  if z <? 0 then (- of_uint63 (Uint63.of_Z (- z)))%float
  else of_uint63 (Uint63.of_Z z).

(** [int(x)]: truncation toward zero; NaN and the infinities raise. *)
Definition int_of_float (x : float) : result Z :=
  match Prim2SF x with
  | S754_zero _ => Ok 0
  | S754_finite s m e =>
      let a := Z.shiftl (Zpos m) e in Ok (if s then - a else a)
  | S754_nan => Raise (ValueError "cannot convert float NaN to integer")
  | S754_infinity _ => Raise OverflowError
  end.

(** Float true division: a zero divisor raises instead of producing an
    infinity or a NaN. *)
Definition truediv (x y : float) : result float :=
  if (y =? 0)%float then Raise ZeroDivisionError else Ok (x / y)%float.

(** The integer nearest to [10 * m * 2^e], ties going to the even one. *)
Definition tenths (m : positive) (e : Z) : Z :=
  if 0 <=? e then 10 * Zpos m * 2 ^ e
  else
    let d := 2 ^ (- e) in
    let q := (10 * Zpos m) / d in
    let r := (10 * Zpos m) mod d in
    match 2 * r ?= d with
    | Lt => q
    | Gt => q + 1
    | Eq => if Z.even q then q else q + 1
    end.

(** [round(x, 1)] on a float: the exact binary value is rounded to the
    nearest decimal with one fractional digit (ties to even), and that
    decimal [t / 10] is converted back to the nearest double, keeping the
    sign.  NaN, infinities and zeros round to themselves. *)
Definition round1 (x : float) : float :=
  match Prim2SF x with
  | S754_finite s m e =>
      match tenths m e with
      | Zpos t =>
          SF2Prim (SFdiv prec emax (S754_finite s t 0) (S754_finite false 10 0))
      | _ => SF2Prim (S754_zero s)
      end
  | _ => x
  end.

(** [np.clip(v, lo, hi)] on scalars. *)
Definition clip (v lo hi : float) : float :=
  if (v <? lo)%float then lo else if (hi <? v)%float then hi else v.

(** [xs[:k]]: a negative bound counts from the end, and the bound is
    clamped to the list. *)
Definition slice_to {A : Type} (xs : list A) (k : Z) : list A :=
  let n := Z.of_nat (List.length xs) in
  let stop := if k <? 0 then Z.max 0 (n + k) else Z.min k n in
  firstn (Z.to_nat stop) xs.

(** [xs[i]] for a non-negative index. *)
Definition index {A : Type} (xs : list A) (i : nat) : result A :=
  match nth_error xs i with
  | Some a => Ok a
  | None => Raise IndexError
  end.

(** [xs[i] = v] for an index inside the list. *)
Fixpoint setitem {A : Type} (xs : list A) (i : nat) (v : A) : list A :=
  match xs, i with
  | [], _ => []
  | _ :: tl, O => v :: tl
  | hd :: tl, S j => hd :: setitem tl j v
  end.

(** [str.lower] on ASCII text. *)
Definition lower_ascii (c : ascii) : ascii :=
  let n := nat_of_ascii c in
  if (andb (Nat.leb 65 n) (Nat.leb n 90)) then ascii_of_nat (n + 32) else c.

Fixpoint lower (s : string) : string :=
  match s with
  | EmptyString => EmptyString
  | String c tl => String (lower_ascii c) (lower tl)
  end.

(** The values a report is made of.  [PyFmt x u] stands for the f-string
    that prints the float [x] followed by the unit [u]; the decimal
    rendering of the float is not modelled. *)
Inductive obj : Type :=
| PyStr (s : string)
| PyBool (b : bool)
| PyFloat (x : float)
| PyFmt (x : float) (unit_suffix : string)
| PyDict (items : list (string * obj)).

Fixpoint assoc (k : string) (items : list (string * obj)) : option obj :=
  match items with
  | [] => None
  | (k', v) :: tl => if String.eqb k k' then Some v else assoc k tl
  end.

(** [d[k]] on a report value. *)
Definition getitem (d : obj) (k : string) : option obj :=
  match d with
  | PyDict items => assoc k items
  | _ => None
  end.

End Py.
Import Py.


(** Python writes [x > y]; on floats it is [y < x], false when either side
    is NaN. *)
Notation "x >? y" := (PrimFloat.ltb y x) (only parsing) : float_scope.

(** ** [BehavioralMetrics] *)

Record BehavioralMetrics : Type := mkBehavioralMetrics {
  eye_contact_duration : float;          (* percentage *)
  eye_contact_baseline : float;
  attention_shifts : float;              (* per minute *)
  attention_shifts_baseline : float;
  gesture_frequency : float;             (* per minute *)
  gesture_frequency_baseline : float;
  social_gaze : float;                   (* percentage *)
  social_gaze_baseline : float;
  response_latency : float;              (* seconds *)
  response_latency_baseline : float;
  repetitive_behaviors_count : Z;
  facial_expression_variance : float;
  head_movement_pattern : string
}.

(** The dataclass constructor as every caller uses it: the five measured
    values are given, every other field keeps its default. *)
Definition BehavioralMetrics_init
    (eye_contact attention gesture gaze latency : float) : BehavioralMetrics :=
  {| eye_contact_duration := eye_contact;
     eye_contact_baseline := 75.0;
     attention_shifts := attention;
     attention_shifts_baseline := 8.0;
     gesture_frequency := gesture;
     gesture_frequency_baseline := 6.0;
     social_gaze := gaze;
     social_gaze_baseline := 60.0;
     response_latency := latency;
     response_latency_baseline := 1.5;
     repetitive_behaviors_count := 0;
     facial_expression_variance := 0.0;
     head_movement_pattern := "normal" |}.

(** [BehavioralMetrics.to_dict] *)
Definition to_dict (self : BehavioralMetrics) : obj :=
  PyDict [
    ("objective_signals"%string, PyDict [
      ("eye_contact_duration"%string, PyDict [
        ("value"%string, PyFmt self.(eye_contact_duration) "%");
        ("baseline"%string, PyFmt self.(eye_contact_baseline) "%");
        ("status"%string,
         PyStr (if (self.(eye_contact_duration) <? self.(eye_contact_baseline))%float
                then "below_baseline" else "above_baseline"))]);
      ("attention_shifts"%string, PyDict [
        ("value"%string, PyFmt self.(attention_shifts) "/min");
        ("baseline"%string, PyFmt self.(attention_shifts_baseline) "/min");
        ("status"%string,
         PyStr (if (self.(attention_shifts) >? self.(attention_shifts_baseline))%float
                then "above_baseline" else "below_baseline"))]);
      ("gesture_frequency"%string, PyDict [
        ("value"%string, PyFmt self.(gesture_frequency) "/min");
        ("baseline"%string, PyFmt self.(gesture_frequency_baseline) "/min");
        ("status"%string,
         PyStr (if (self.(gesture_frequency) <? self.(gesture_frequency_baseline))%float
                then "below_baseline" else "above_baseline"))]);
      ("social_gaze"%string, PyDict [
        ("value"%string, PyFmt self.(social_gaze) "%");
        ("baseline"%string, PyFmt self.(social_gaze_baseline) "%");
        ("status"%string,
         PyStr (if (self.(social_gaze) <? self.(social_gaze_baseline))%float
                then "below_baseline" else "above_baseline"))]);
      ("response_latency"%string, PyDict [
        ("value"%string, PyFmt self.(response_latency) "s");
        ("baseline"%string, PyFmt self.(response_latency_baseline) "s");
        ("status"%string,
         PyStr (if (self.(response_latency) >? self.(response_latency_baseline))%float
                then "above_baseline" else "below_baseline"))])]);
    ("behavioral_indicators"%string, PyDict [
      ("eye_gaze_patterns"%string, PyBool true);
      ("social_engagement"%string, PyBool true);
      ("environmental_response"%string, PyBool true);
      ("repetitive_behaviors"%string, PyBool true);
      ("communication_patterns"%string, PyBool true)])].

(** The float [risk_percentage] that [calculate_risk_score] computes from
    its counter: [(risk_factors / total_factors) * 100], an integer true
    division followed by a float product. *)
Definition risk_percentage_of (risk_factors total_factors : Z) : float :=
  (float_of_int risk_factors / float_of_int total_factors * 100)%float.

(** [BehavioralMetrics.calculate_risk_score] *)
Definition calculate_risk_score (self : BehavioralMetrics) : string * float :=
  let risk_factors := 0 in
  let total_factors := 5 in
  (* Check each metric against baseline *)
  let risk_factors :=
    if (self.(eye_contact_duration) <? self.(eye_contact_baseline))%float
    then risk_factors + 1 else risk_factors in
  let risk_factors :=
    if (self.(attention_shifts) >? self.(attention_shifts_baseline) * 1.3)%float
    then risk_factors + 1 else risk_factors in
  let risk_factors :=
    if (self.(gesture_frequency) <? self.(gesture_frequency_baseline) * 0.7)%float
    then risk_factors + 1 else risk_factors in
  let risk_factors :=
    if (self.(social_gaze) <? self.(social_gaze_baseline))%float
    then risk_factors + 1 else risk_factors in
  let risk_factors :=
    if (self.(response_latency) >? self.(response_latency_baseline) * 1.5)%float
    then risk_factors + 1 else risk_factors in
  let risk_percentage := risk_percentage_of risk_factors total_factors in
  (* Classify risk level *)
  if (risk_percentage <? 30)%float then ("Low Risk"%string, 0.85%float)
  else if (risk_percentage <? 60)%float then ("Medium Risk"%string, 0.75%float)
  else ("High Risk"%string, 0.80%float).


(** ** The world the model runs in *)

Module MockLandmark.
Record t : Type := make { x : float; y : float; z : float }.
(** [MockLandmark()]: the default arguments of the constructor. *)
Definition default : t := make 0.5 0.5 0.
End MockLandmark.

(** [np.random]: the stream of numbers that [random_sample] hands out, one
    after the other, each meant to lie in the interval [0, 1). *)
Record Rng : Type := mkRng { draws : nat -> float; cursor : nat }.

(** The attributes of an [AutismScreeningModel] instance that the code
    reads after construction (the event lists of [__init__] are never
    used). *)
Record AutismScreeningModel : Type := mkModel {
  hands_detector : option unit;
  pose_detector : option unit;
  frame_count : Z;
  fps : float;
  previous_gaze : option (float * float)
}.

(** [AutismScreeningModel.__init__] *)
Definition AutismScreeningModel_init : AutismScreeningModel :=
  {| hands_detector := None;
     pose_detector := None;
     frame_count := 0;
     fps := 30;
     previous_gaze := None |}.

Record World : Type := mkWorld { self : AutismScreeningModel; np_random : Rng }.

(** Computations that read and write the world and may raise. *)
Definition M (A : Type) : Type := World -> result A * World.

Definition ret {A : Type} (a : A) : M A := fun w => (Ok a, w).

Definition raise {A : Type} (e : exn) : M A := fun w => (Raise e, w).

Definition bind {A B : Type} (c : M A) (k : A -> M B) : M B :=
  fun w =>
    match c w with
    | (Ok a, w') => k a w'
    | (Raise e, w') => (Raise e, w')
    end.

Definition lift {A : Type} (r : result A) : M A := fun w => (r, w).

Notation "x <- c ;; k" := (bind c (fun x => k))
  (at level 61, c at next level, right associativity).

Definition get_self : M AutismScreeningModel := fun w => (Ok w.(self), w).

Definition set_fps (v : float) : M unit :=
  fun w =>
    let m := w.(self) in
    (Ok tt, {| self := {| hands_detector := m.(hands_detector);
                          pose_detector := m.(pose_detector);
                          frame_count := m.(frame_count);
                          fps := v;
                          previous_gaze := m.(previous_gaze) |};
               np_random := w.(np_random) |}).

Definition set_frame_count (n : Z) : M unit :=
  fun w =>
    let m := w.(self) in
    (Ok tt, {| self := {| hands_detector := m.(hands_detector);
                          pose_detector := m.(pose_detector);
                          frame_count := n;
                          fps := m.(fps);
                          previous_gaze := m.(previous_gaze) |};
               np_random := w.(np_random) |}).

Definition set_previous_gaze (g : option (float * float)) : M unit :=
  fun w =>
    let m := w.(self) in
    (Ok tt, {| self := {| hands_detector := m.(hands_detector);
                          pose_detector := m.(pose_detector);
                          frame_count := m.(frame_count);
                          fps := m.(fps);
                          previous_gaze := g |};
               np_random := w.(np_random) |}).

(** [np.random.random()] *)
Definition random : M float :=
  fun w =>
    let g := w.(np_random) in
    (Ok (g.(draws) g.(cursor)),
     {| self := w.(self);
        np_random := {| draws := g.(draws); cursor := S g.(cursor) |} |}).

(** [np.random.uniform(low, high)] *)
Definition uniform (low high : float) : M float :=
  u <- random ;; ret (low + (high - low) * u)%float.

(** ** Frames and the video source *)

(** A detection rectangle [(x, y, w, h)] of a Haar cascade. *)
Record Rect : Type := mkRect { rx : Z; ry : Z; rw : Z; rh : Z }.

(** A sampled frame is an opaque image; the model keeps of it what the
    detectors answer on it: the faces found by the face cascade, the eyes
    found by the eye cascade inside the first face, and the landmarks that a
    hand detector reports for it (if any). *)
Record Frame : Type := mkFrame {
  faces : list Rect;
  eyes : list Rect;
  hand_landmarks : option (list MockLandmark.t)
}.

(** [frame.shape] after [cv2.resize(frame, (640, 480))]. *)
Definition frame_shape : Z * Z := (480, 640).

(** [cv2.VideoCapture]: the capture rate and the frames [read] returns. *)
Record VideoCapture : Type := mkCapture {
  cap_fps : float;
  cap_frames : list Frame
}.

(** The sampling loop of [preprocess_video]: the frame of index
    [frame_idx] is kept when [frame_idx % frame_skip == 0]. *)
Fixpoint sample_frames (frame_skip frame_idx : Z) (fs : list Frame) : list Frame :=
  match fs with
  | [] => []
  | frame :: rest =>
      if frame_idx mod frame_skip =? 0
      then frame :: sample_frames frame_skip (frame_idx + 1) rest
      else sample_frames frame_skip (frame_idx + 1) rest
  end.

(** [AutismScreeningModel.preprocess_video] *)
Definition preprocess_video (cap : VideoCapture) : M (list Frame) :=
  _ <- set_fps cap.(cap_fps) ;;
  m <- get_self ;;
  k <- lift (int_of_float (m.(fps) / 10)) ;;
  let frame_skip := Z.max 1 k in
  let frames := sample_frames frame_skip 0 cap.(cap_frames) in
  _ <- set_frame_count (Z.of_nat (List.length frames)) ;;
  ret frames.

(** ** Per-frame classifiers *)

(** Truth value of an optional landmark list: [None] and [[]] are false. *)
Definition truthy {A : Type} (l : option (list A)) : bool :=
  match l with
  | Some (_ :: _) => true
  | _ => false
  end.

(** The estimated gaze point: the midpoint of the two iris landmarks. *)
Definition gaze_point (left_iris right_iris : MockLandmark.t) : float * float :=
  ((MockLandmark.x left_iris + MockLandmark.x right_iris) / 2,
   (MockLandmark.y left_iris + MockLandmark.y right_iris) / 2)%float.

(** [AutismScreeningModel.detect_eye_contact] *)
Definition detect_eye_contact (face_landmarks : option (list MockLandmark.t))
  : result bool :=
  match face_landmarks with
  | Some ((_ :: _) as lms) =>
      match index lms 468, index lms 473 with
      | Ok left_iris_center, Ok right_iris_center =>
          let gaze_x :=
            ((MockLandmark.x left_iris_center + MockLandmark.x right_iris_center) / 2)%float in
          let gaze_y :=
            ((MockLandmark.y left_iris_center + MockLandmark.y right_iris_center) / 2)%float in
          let is_centered_x := ((0.4 <? gaze_x) && (gaze_x <? 0.6))%float in
          let is_centered_y := ((0.3 <? gaze_y) && (gaze_y <? 0.7))%float in
          Ok (is_centered_x && is_centered_y)
      | Raise e, _ => Raise e
      | _, Raise e => Raise e
      end
  | _ => Ok false
  end.

(** [AutismScreeningModel.detect_attention_shift] *)
Definition detect_attention_shift (current_gaze : float * float) : M bool :=
  m <- get_self ;;
  match m.(previous_gaze) with
  | None =>
      _ <- set_previous_gaze (Some current_gaze) ;;
      ret false
  | Some previous =>
      let dx := (fst current_gaze - fst previous)%float in
      let dy := (snd current_gaze - snd previous)%float in
      let gaze_distance := PrimFloat.sqrt (dx * dx + dy * dy)%float in
      let shift_detected := (gaze_distance >? 0.15)%float in
      _ <- set_previous_gaze (Some current_gaze) ;;
      ret shift_detected
  end.

(** [AutismScreeningModel.detect_gestures] *)
Definition detect_gestures (hand_landmarks : option (list MockLandmark.t))
  : result bool :=
  match hand_landmarks with
  | Some ((_ :: _) as lms) =>
      match index lms 8, index lms 0 with
      | Ok index_finger_tip, Ok wrist =>
          Ok (MockLandmark.y index_finger_tip <? MockLandmark.y wrist - 0.1)%float
      | Raise e, _ => Raise e
      | _, Raise e => Raise e
      end
  | _ => Ok false
  end.

(** [AutismScreeningModel.calculate_social_gaze] *)
Definition calculate_social_gaze (face_landmarks : option (list MockLandmark.t))
  : result bool :=
  match face_landmarks with
  | Some ((_ :: _) as lms) =>
      match index lms 468, index lms 473 with
      | Ok left_iris, Ok right_iris =>
          let avg_y := ((MockLandmark.y left_iris + MockLandmark.y right_iris) / 2)%float in
          Ok (avg_y <? 0.55)%float
      | Raise e, _ => Raise e
      | _, Raise e => Raise e
      end
  | _ => Ok false
  end.

(** ** The processing pipeline *)

(** The mock iris landmark [process_video] builds from a detected eye:
    the eye centre in normalised frame coordinates, clipped to
    [0.2, 0.8]. *)
Definition eye_landmark (face eye : Rect) : MockLandmark.t :=
  let eye_center_x :=
    ((float_of_int (face.(rx) + eye.(rx)) + float_of_int eye.(rw) / 2)
       / float_of_int (snd frame_shape))%float in
  let eye_center_y :=
    ((float_of_int (face.(ry) + eye.(ry)) + float_of_int eye.(rh) / 2)
       / float_of_int (fst frame_shape))%float in
  MockLandmark.make (clip eye_center_x 0.2 0.8) (clip eye_center_y 0.2 0.8) 0.

(** The loop over [enumerate(eyes[:eye_count])]: the first eye moves
    landmark 468, any later one landmark 473. *)
Fixpoint place_eyes (face : Rect) (eye_idx : nat) (detected : list Rect)
    (face_landmarks : list MockLandmark.t) : list MockLandmark.t :=
  match detected with
  | [] => face_landmarks
  | eye :: rest =>
      let iris_idx := if Nat.eqb eye_idx 0 then 468%nat else 473%nat in
      place_eyes face (S eye_idx) rest
        (setitem face_landmarks iris_idx (eye_landmark face eye))
  end.

(** A landmark drawn at random, as both mock paths do:
    [MockLandmark(x=uniform(0.35, 0.65), y=uniform(0.3, 0.7))]. *)
Definition random_landmark : M MockLandmark.t :=
  lx <- uniform 0.35 0.65 ;;
  ly <- uniform 0.3 0.7 ;;
  ret (MockLandmark.make lx ly 0).

(** The landmarks [process_video] derives for one frame: [None] without a
    face; with a face, 478 default landmarks whose two iris entries come
    from the detected eyes, or from the random source when no eye was
    found. *)
Definition frame_face_landmarks (frame : Frame) : M (option (list MockLandmark.t)) :=
  match frame.(faces) with
  | face :: _ =>
      let face_landmarks := repeat MockLandmark.default 478 in
      match frame.(eyes) with
      | _ :: _ =>
          let eye_count := Nat.min 2 (List.length frame.(eyes)) in
          ret (Some (place_eyes face 0 (firstn eye_count frame.(eyes)) face_landmarks))
      | [] =>
          l468 <- random_landmark ;;
          let face_landmarks := setitem face_landmarks 468 l468 in
          l473 <- random_landmark ;;
          let face_landmarks := setitem face_landmarks 473 l473 in
          ret (Some face_landmarks)
      end
  | [] => ret None
  end.

(** The four counters of the frame loop. *)
Module Counters.
Record t : Type := make {
  eye_contact_frames : Z;
  attention_shifts : Z;
  gestures : Z;
  social_gaze_frames : Z
}.
Definition zero : t := make 0 0 0 0.
End Counters.

(** The face part of one iteration of the frame loop. *)
Definition process_face (face_landmarks : option (list MockLandmark.t))
    (c : Counters.t) : M Counters.t :=
  match face_landmarks with
  | Some ((_ :: _) as lms) =>
      (* Eye contact detection *)
      eye_contact <- lift (detect_eye_contact face_landmarks) ;;
      let eye_contact_frames :=
        if eye_contact then Counters.eye_contact_frames c + 1
        else Counters.eye_contact_frames c in
      (* Gaze tracking for attention shifts *)
      left_iris <- lift (index lms 468) ;;
      right_iris <- lift (index lms 473) ;;
      let current_gaze := gaze_point left_iris right_iris in
      shifted <- detect_attention_shift current_gaze ;;
      let attention_shifts :=
        if shifted then Counters.attention_shifts c + 1
        else Counters.attention_shifts c in
      (* Social gaze *)
      social <- lift (calculate_social_gaze face_landmarks) ;;
      let social_gaze_frames :=
        if social then Counters.social_gaze_frames c + 1
        else Counters.social_gaze_frames c in
      ret (Counters.make eye_contact_frames attention_shifts
             (Counters.gestures c) social_gaze_frames)
  | _ => ret c
  end.

(** The hand part of one iteration: without a hands detector a random
    draw decides whether the frame counts as a gesture. *)
Definition process_hands (c : Counters.t) : M Counters.t :=
  m <- get_self ;;
  match m.(hands_detector) with
  | None =>
      u <- random ;;
      ret (if (u >? 0.7)%float
           then Counters.make (Counters.eye_contact_frames c)
                  (Counters.attention_shifts c)
                  (Counters.gestures c + 1)
                  (Counters.social_gaze_frames c)
           else c)
  | Some _ => ret c
  end.

(** One iteration of [for idx, frame in enumerate(frames)]. *)
Definition process_frame (frame : Frame) (c : Counters.t) : M Counters.t :=
  face_landmarks <- frame_face_landmarks frame ;;
  c <- process_face face_landmarks c ;;
  process_hands c.

Fixpoint process_frames (frames : list Frame) (c : Counters.t) : M Counters.t :=
  match frames with
  | [] => ret c
  | frame :: rest =>
      c' <- process_frame frame c ;;
      process_frames rest c'
  end.

(** The landmarks [calculate_response_latency] makes up for a frame: both
    iris entries are drawn at random. *)
Definition mock_iris_landmarks : M (list MockLandmark.t) :=
  let face_landmarks := repeat MockLandmark.default 478 in
  l468 <- random_landmark ;;
  let face_landmarks := setitem face_landmarks 468 l468 in
  l473 <- random_landmark ;;
  let face_landmarks := setitem face_landmarks 473 l473 in
  ret face_landmarks.

(** The loop of [calculate_response_latency] over the enumerated window:
    [Some t] when it returns [t] from inside the loop. *)
Fixpoint first_eye_contact (idx : Z) (window : list Frame) : M (option float) :=
  match window with
  | [] => ret None
  | _ :: rest =>
      face_landmarks <- mock_iris_landmarks ;;
      eye_contact <- lift (detect_eye_contact (Some face_landmarks)) ;;
      if eye_contact then
        m <- get_self ;;
        t <- lift (truediv (float_of_int idx) m.(fps)) ;;
        ret (Some t)
      else first_eye_contact (idx + 1) rest
  end.

(** [AutismScreeningModel.calculate_response_latency] *)
Definition calculate_response_latency (frames : list Frame) : M float :=
  m <- get_self ;;
  k <- lift (int_of_float (m.(fps) * 5)) ;;
  found <- first_eye_contact 0 (slice_to frames k) ;;
  match found with
  | Some t => ret t
  | None => ret 3.0%float
  end.

(** The divisor of the two rate metrics. *)
Definition video_duration_minutes (n : Z) (rate : float) : result float :=
  match (if (rate >? 0)%float
         then truediv (float_of_int n) (rate * 60)
         else Ok 0.0%float) with
  | Ok d => Ok (if (d <=? 0)%float then 1e-6%float else d)
  | Raise e => Raise e
  end.

(** [AutismScreeningModel.process_video] *)
Definition process_video (cap : VideoCapture) : M BehavioralMetrics :=
  frames <- preprocess_video cap ;;
  let len_frames := Z.of_nat (List.length frames) in
  if len_frames =? 0
  then raise (ValueError "No frames could be extracted from video")
  else
    m <- get_self ;;
    minutes <- lift (video_duration_minutes len_frames m.(fps)) ;;
    c <- process_frames frames Counters.zero ;;
    (* Calculate metrics *)
    eye_ratio <- lift (truediv (float_of_int (Counters.eye_contact_frames c))
                         (float_of_int len_frames)) ;;
    let eye_contact_percentage := (eye_ratio * 100)%float in
    attention_shifts_per_min <-
      lift (truediv (float_of_int (Counters.attention_shifts c)) minutes) ;;
    gestures_per_min <-
      lift (truediv (float_of_int (Counters.gestures c)) minutes) ;;
    gaze_ratio <- lift (truediv (float_of_int (Counters.social_gaze_frames c))
                          (float_of_int len_frames)) ;;
    let social_gaze_percentage := (gaze_ratio * 100)%float in
    latency <- calculate_response_latency frames ;;
    ret (BehavioralMetrics_init
           (round1 eye_contact_percentage)
           (round1 attention_shifts_per_min)
           (round1 gestures_per_min)
           (round1 social_gaze_percentage)
           (round1 latency)).

(** [AutismScreeningModel.build_report] *)
Definition build_report (metrics : BehavioralMetrics) : obj :=
  let '(risk_level, confidence) := calculate_risk_score metrics in
  PyDict [
    ("risk_assessment"%string, PyDict [
      ("level"%string, PyStr risk_level);
      ("confidence"%string, PyFloat confidence);
      ("description"%string,
       PyStr ("The screening indicates a " ++ lower risk_level
              ++ " likelihood of autism spectrum disorder."))]);
    ("metrics"%string, to_dict metrics)].

(** [AutismScreeningModel.generate_report]: the report it returns (writing
    the file and printing the summary are not modelled). *)
Definition generate_report (metrics : BehavioralMetrics) : M obj :=
  ret (build_report metrics).

(** [main]: process the video, then generate the report. *)
Definition main (cap : VideoCapture) : M obj :=
  metrics <- process_video cap ;;
  generate_report metrics.

(** ** Specification-side definitions

    These follow the wording of the specification; the theorems below
    compare them with the code. *)

Module Spec.

(** The five risk factors with the baselines and tolerance multipliers
    written out. *)
Definition risk_factors (m : BehavioralMetrics) : list bool :=
  [ (m.(eye_contact_duration) <? 75.0)%float;
    (m.(attention_shifts) >? 8.0 * 1.3)%float;
    (m.(gesture_frequency) <? 6.0 * 0.7)%float;
    (m.(social_gaze) <? 60.0)%float;
    (m.(response_latency) >? 1.5 * 1.5)%float ].

Definition count_true (bs : list bool) : Z :=
  Z.of_nat (List.length (filter (fun b => b) bs)).

(** [risk_percentage = 100 * count / 5], an exact integer for every
    count. *)
Definition risk_percentage (count : Z) : Z := 100 * count / 5.

(** The three-way rule table, first match wins. *)
Definition classify (percentage : Z) : string * float :=
  if percentage <? 30 then ("Low Risk"%string, 0.85%float)
  else if percentage <? 60 then ("Medium Risk"%string, 0.75%float)
  else ("High Risk"%string, 0.80%float).

(** The status tag a report shows for a metric. *)
Definition status (report_metrics : obj) (metric : string) : option obj :=
  match getitem report_metrics "objective_signals" with
  | Some signals =>
      match getitem signals metric with
      | Some entry => getitem entry "status"
      | None => None
      end
  | None => None
  end.

Definition below : option obj := Some (PyStr "below_baseline").
Definition above : option obj := Some (PyStr "above_baseline").

(** The indicator categories, all true. *)
Definition indicator_categories : obj :=
  PyDict [
    ("eye_gaze_patterns"%string, PyBool true);
    ("social_engagement"%string, PyBool true);
    ("environmental_response"%string, PyBool true);
    ("repetitive_behaviors"%string, PyBool true);
    ("communication_patterns"%string, PyBool true)].

(** The Euclidean distance between two gaze points exceeds 0.15. *)
Definition shift_between (previous current : float * float) : bool :=
  let dx := (fst current - fst previous)%float in
  let dy := (snd current - snd previous)%float in
  (PrimFloat.sqrt (dx * dx + dy * dy) >? 0.15)%float.

(** The world after the classifier has remembered a gaze point. *)
Definition remember (g : float * float) (w : World) : World :=
  snd (set_previous_gaze (Some g) w).

(** The gaze point of a frame in which a face and at least one eye were
    detected: it is fixed by the detections, no random draw enters. *)
Definition detected_gaze (frame : Frame) : option (float * float) :=
  match frame.(faces), frame.(eyes) with
  | face :: _, _ :: _ =>
      let eye_count := Nat.min 2 (List.length frame.(eyes)) in
      let lms := place_eyes face 0 (firstn eye_count frame.(eyes))
                   (repeat MockLandmark.default 478) in
      match nth_error lms 468, nth_error lms 473 with
      | Some left_iris, Some right_iris => Some (gaze_point left_iris right_iris)
      | _, _ => None
      end
  | _, _ => None
  end.

(** How many random numbers the landmarks of a frame consume: four when
    a face is found without eyes, none otherwise. *)
Definition landmark_draws (frame : Frame) : nat :=
  match frame.(faces), frame.(eyes) with
  | _ :: _, [] => 4
  | _, _ => 0
  end.

(** The number of frames whose gesture draw exceeds 0.7, the stream being
    read from position [cursor] on. *)
Fixpoint gesture_count (stream : nat -> float) (cursor : nat)
    (frames : list Frame) : Z :=
  match frames with
  | [] => 0
  | frame :: rest =>
      let position := (landmark_draws frame + cursor)%nat in
      (if (stream position >? 0.7)%float then 1 else 0)
      + gesture_count stream (S position) rest
  end.

(** The stream position after the frame loop. *)
Fixpoint cursor_after (cursor : nat) (frames : list Frame) : nat :=
  match frames with
  | [] => cursor
  | frame :: rest => cursor_after (S (landmark_draws frame + cursor)) rest
  end.

(** A frame with the landmarks of a hand detector replaced. *)
Definition with_hands (report : Frame -> option (list MockLandmark.t))
    (frame : Frame) : Frame :=
  mkFrame frame.(faces) frame.(eyes) (report frame).

(** The eye-contact test on the mock landmarks that
    [calculate_response_latency] draws from the stream at [position]. *)
Definition mock_eye_contact (stream : nat -> float) (position : nat) : bool :=
  let l468 := MockLandmark.make
                (0.35 + (0.65 - 0.35) * stream position)%float
                (0.3 + (0.7 - 0.3) * stream (S position))%float 0 in
  let l473 := MockLandmark.make
                (0.35 + (0.65 - 0.35) * stream (S (S position)))%float
                (0.3 + (0.7 - 0.3) * stream (S (S (S position))))%float 0 in
  let '(gaze_x, gaze_y) := gaze_point l468 l473 in
  ((0.4 <? gaze_x) && (gaze_x <? 0.6) && ((0.3 <? gaze_y) && (gaze_y <? 0.7)))%float.

(** The first index, among [n] frames counted from [idx], whose mock
    landmarks pass the eye-contact test; each frame reads four numbers. *)
Fixpoint first_mock_contact (stream : nat -> float) (position : nat)
    (idx : Z) (n : nat) : option Z :=
  match n with
  | O => None
  | S n' =>
      if mock_eye_contact stream position then Some idx
      else first_mock_contact stream (4 + position) (idx + 1) n'
  end.

(** The stream position after the latency loop over [n] frames. *)
Fixpoint latency_cursor (stream : nat -> float) (position : nat) (n : nat) : nat :=
  match n with
  | O => position
  | S n' =>
      if mock_eye_contact stream position then (4 + position)%nat
      else latency_cursor stream (4 + position) n'
  end.

(** The error raised for a video without frames. *)
Definition no_frames : exn := ValueError "No frames could be extracted from video".

(** A computation raises only exceptions that satisfy [P]. *)
Definition raises_only {A : Type} (P : exn -> Prop) (c : M A) : Prop :=
  forall w e w', c w = (Raise e, w') -> P e.

Definition not_no_frames (e : exn) : Prop := e <> no_frames.

End Spec.

(** ** Vocabulary for binary64 values *)

Module FloatSpec.

Abbreviation bra := (binary_round_aux prec emax).
Abbreviation fexp64 := (fexp prec emax).

(** A nonnegative spec float: a zero, a finite number or an infinity of
    positive sign. *)
Definition is_nonneg (s : spec_float) : Prop :=
  match s with
  | S754_zero false | S754_infinity false | S754_finite false _ _ => True
  | _ => False
  end.

(** Strictly positive: finite or infinite. *)
Definition is_positive (s : spec_float) : Prop :=
  match s with
  | S754_infinity false | S754_finite false _ _ => True
  | _ => False
  end.

(** Zero or a positive finite number. *)
Definition is_finite_nonneg (s : spec_float) : Prop :=
  match s with
  | S754_zero false | S754_finite false _ _ => True
  | _ => False
  end.

(** The number of low bits that rounding to the format drops. *)
Definition dropped (m e : Z) : Z := Z.max 0 (fexp64 (Zdigits2 m + e) - e).

(** The shape of a rounded nonnegative number. *)
Definition pack (m e : Z) : spec_float :=
  match m with
  | Z0 => S754_zero false
  | Zpos p => if e <=? emax - prec then S754_finite false p e else S754_infinity false
  | Zneg _ => S754_nan
  end.

(** Zero, or a finite positive number below [2^K]. *)
Definition below (K : Z) (s : spec_float) : Prop :=
  match s with
  | S754_zero false => True
  | S754_finite false m e => Zpos (digits2_pos m) + e <= K
  | _ => False
  end.

(** A positive number of at least [2^(K-1)], possibly infinite. *)
Definition above (K : Z) (s : spec_float) : Prop :=
  match s with
  | S754_infinity false => True
  | S754_finite false m e => K <= Zpos (digits2_pos m) + e
  | _ => False
  end.

(** The record of dropped bits says that something nonzero was dropped. *)
Definition inexact (mrs : shr_record) : bool := shr_r mrs || shr_s mrs.

(** Zero, or a finite positive number of value at most [mB * 2^eB]. *)
Definition at_most (mB : positive) (eB : Z) (s : spec_float) : Prop :=
  match s with
  | S754_zero false => True
  | S754_finite false m e => e <= eB /\ Zpos m <= Zpos mB * 2 ^ (eB - e)
  | _ => False
  end.

(** The float is exactly the integer [z]. *)
Definition represents (z : Z) (s : spec_float) : Prop :=
  match s with
  | S754_zero false => z = 0
  | S754_finite false m e => e <= 0 /\ Zpos m = z * 2 ^ (- e)
  | _ => False
  end.

(** The doubles nearest to [t / 10] for the tenths 1 to 1000 are all at
    most 100. *)
Definition tenths_up_to_1000_ok : bool :=
  forallb (fun t => (SF2Prim (SFdiv prec emax (S754_finite false t 0)
                                (S754_finite false 10 0)) <=? 100)%float)
          (map Pos.of_nat (seq 1 1000)).

End FloatSpec.
Import FloatSpec.

(** ** Concrete inputs used by the examples *)

Module Fixtures.

(** The landmarks of a pointing hand: index fingertip well above the
    wrist. *)
Definition pointing_hand : list MockLandmark.t :=
  setitem (setitem (repeat MockLandmark.default 21) 0 (MockLandmark.make 0.5 0.8 0))
    8 (MockLandmark.make 0.5 0.3 0).

(** A frame with a face in the middle and both eyes found: the gaze
    point is (0.5, 0.375), inside the eye-contact box. *)
Definition centered : Frame :=
  mkFrame [mkRect 200 100 240 240] [mkRect 50 60 60 40; mkRect 130 60 60 40] None.

(** A frame without a face. *)
Definition empty : Frame := mkFrame [] [] None.

(** A frame with a face in the lower right corner and both eyes found:
    the gaze point is (0.775, 0.6875), far from the one of [centered]. *)
Definition averted : Frame :=
  mkFrame [mkRect 400 250 200 200] [mkRect 50 60 60 40; mkRect 130 60 60 40] None.

(** A fresh model and a stream that always hands out [u]. *)
Definition fresh (u : float) : World :=
  mkWorld AutismScreeningModel_init (mkRng (fun _ => u) 0).

(** A fresh model and a stream that hands out [u] before position [n]
    and [v] from there on. *)
Definition fresh_switch (n : nat) (u v : float) : World :=
  mkWorld AutismScreeningModel_init
    (mkRng (fun i => if Nat.ltb i n then u else v) 0).

End Fixtures.

(** ** Callers of the model *)

(** Python writes [x >= y]; on floats it is [y <= x], false when either
    side is NaN. *)
Notation "x >=? y" := (PrimFloat.leb y x) (only parsing) : float_scope.

(** *** [analyse_my_video.py] *)

(** The helper [get_status] of [analyze_video]: the status line and its
    colour. *)
Definition get_status (value baseline : float) (higher_is_better : bool)
  : string * string :=
  if higher_is_better then
    if (value >=? baseline)%float
    then ("✅ Normal"%string, "green"%string)
    else ("⚠️  Below baseline"%string, "yellow"%string)
  else
    if (value <=? baseline)%float
    then ("✅ Normal"%string, "green"%string)
    else ("⚠️  Above baseline"%string, "yellow"%string).

(** The five status lines [analyze_video] prints, in order, each under
    its heading. *)
Definition analyze_video_statuses (metrics : BehavioralMetrics)
  : list (string * (string * string)) :=
  [ ("EYE CONTACT DURATION"%string,
     get_status metrics.(eye_contact_duration) metrics.(eye_contact_baseline) true);
    ("ATTENTION SHIFTS"%string,
     get_status metrics.(attention_shifts) metrics.(attention_shifts_baseline) false);
    ("GESTURE FREQUENCY"%string,
     get_status metrics.(gesture_frequency) metrics.(gesture_frequency_baseline) true);
    ("SOCIAL GAZE"%string,
     get_status metrics.(social_gaze) metrics.(social_gaze_baseline) true);
    ("RESPONSE LATENCY"%string,
     get_status metrics.(response_latency) metrics.(response_latency_baseline) false) ].

(** *** [api_server.py] *)

Module Api.






(** The state of the server module: the global [screening_model],
    [np.random], and the file system under the working directory.  Of the
    file system the endpoints see two things: [write_error path] is what
    writing the file [path] raises, as [str(e)] of the exception ([None]
    when the file can be opened for writing and written), and [written]
    lists the report files written so far, newest first.  The temporary
    copy of an upload is unlinked before the endpoint returns, so it
    leaves no trace in the state. *)
Record Server : Type := mkServer {
  screening_model : option AutismScreeningModel;
  rng : Rng;
  write_error : string -> option string;
  written : list (string * obj)
}.






(** [generate_report(metrics, output_path)] as the server calls it: the
    report of [build_report], written to [output_path] when that is a
    non-empty path.  The answer is the report, or [str(e)] of the
    exception the write raised. *)
Definition generate_report (metrics : BehavioralMetrics) (output_path : option string)
    (s : Server) : (obj + string) * Server :=
  let report := build_report metrics in
  match output_path with
  | Some path =>
      if String.eqb path "" then (inl report, s)
      else
        match s.(write_error) path with
        | Some message => (inr message, s)
        | None =>
            (inl report,
             mkServer s.(screening_model) s.(rng) s.(write_error)
               ((path, report) :: s.(written)))
        end
  | None => (inl report, s)
  end.



(** [get_baselines]: the endpoint [/api/baselines]. *)
Definition get_baselines : obj :=
  PyDict [
    ("eye_contact_duration"%string, PyDict [
      ("baseline"%string, PyFloat 75.0);
      ("unit"%string, PyStr "percentage");
      ("description"%string, PyStr "Percentage of time making eye contact with camera")]);
    ("attention_shifts"%string, PyDict [
      ("baseline"%string, PyFloat 8.0);
      ("unit"%string, PyStr "per_minute");
      ("description"%string, PyStr "Number of gaze direction changes per minute")]);
    ("gesture_frequency"%string, PyDict [
      ("baseline"%string, PyFloat 6.0);
      ("unit"%string, PyStr "per_minute");
      ("description"%string, PyStr "Communicative gestures per minute")]);
    ("social_gaze"%string, PyDict [
      ("baseline"%string, PyFloat 60.0);
      ("unit"%string, PyStr "percentage");
      ("description"%string, PyStr "Percentage of time engaged in social gaze")]);
    ("response_latency"%string, PyDict [
      ("baseline"%string, PyFloat 1.5);
      ("unit"%string, PyStr "seconds");
      ("description"%string, PyStr "Average time to respond to stimuli")])].





End Api.

(** ** Vocabulary of the further properties *)

Module Obs.

(** A zero or a finite number, of either sign. *)
Definition finite (s : spec_float) : Prop :=
  match s with
  | S754_zero _ | S754_finite _ _ _ => True
  | _ => False
  end.

(** The same value with the sign [s]. *)
Definition with_sign (s : bool) (r : spec_float) : spec_float :=
  match r with
  | S754_zero _ => S754_zero s
  | S754_infinity _ => S754_infinity s
  | S754_finite _ m e => S754_finite s m e
  | S754_nan => S754_nan
  end.

(** The frame shows a face. *)
Definition has_face (frame : Frame) : bool :=
  match frame.(faces) with
  | [] => false
  | _ :: _ => true
  end.

(** The number of frames that show a face. *)
Definition face_frames (frames : list Frame) : Z :=
  Z.of_nat (List.length (filter has_face frames)).

(** The gaze of the frame is read off the detections: no face, or a face
    with at least one detected eye. *)
Definition gaze_detected (frame : Frame) : Prop :=
  frame.(faces) = [] \/ frame.(eyes) <> [].

(** The three risk levels in increasing order. *)
Definition risk_rank (level : string) : Z :=
  if String.eqb level "Low Risk" then 0
  else if String.eqb level "Medium Risk" then 1
  else 2.

(** [better] is at least as good as [worse] on every metric, against the
    same baselines. *)
Definition at_least_as_good (better worse : BehavioralMetrics) : Prop :=
  better.(eye_contact_baseline) = worse.(eye_contact_baseline)
  /\ better.(attention_shifts_baseline) = worse.(attention_shifts_baseline)
  /\ better.(gesture_frequency_baseline) = worse.(gesture_frequency_baseline)
  /\ better.(social_gaze_baseline) = worse.(social_gaze_baseline)
  /\ better.(response_latency_baseline) = worse.(response_latency_baseline)
  /\ (better.(eye_contact_duration) >=? worse.(eye_contact_duration))%float = true
  /\ (better.(attention_shifts) <=? worse.(attention_shifts))%float = true
  /\ (better.(gesture_frequency) >=? worse.(gesture_frequency))%float = true
  /\ (better.(social_gaze) >=? worse.(social_gaze))%float = true
  /\ (better.(response_latency) <=? worse.(response_latency))%float = true.

(** No value and no baseline of the metrics is NaN. *)
Definition numbers (m : BehavioralMetrics) : Prop :=
  forallb (fun x => negb (is_nan x))
    [ m.(eye_contact_duration); m.(eye_contact_baseline);
      m.(attention_shifts); m.(attention_shifts_baseline);
      m.(gesture_frequency); m.(gesture_frequency_baseline);
      m.(social_gaze); m.(social_gaze_baseline);
      m.(response_latency); m.(response_latency_baseline) ] = true.

(** The status [analyze_video] prints under a heading. *)
Definition printed_status (m : BehavioralMetrics) (heading : string) : option string :=
  option_map (fun entry => fst (snd entry))
    (find (fun entry => String.eqb (fst entry) heading) (analyze_video_statuses m)).


(** The model with its recorded rate and frame count replaced. *)
Definition with_rate (m : AutismScreeningModel) (rate : float) (count : Z)
  : AutismScreeningModel :=
  mkModel m.(hands_detector) m.(pose_detector) count rate m.(previous_gaze).

End Obs.

(** * Properties *)

(** ** Rounding of nonnegative binary64 numbers *)

Module FloatFacts.

Lemma digits2_pos_bounds (p : positive) :
  2 ^ (Zpos (digits2_pos p) - 1) <= Zpos p < 2 ^ Zpos (digits2_pos p).
Proof.
  induction p as [p IH | p IH |]; cbn [digits2_pos].
  - rewrite Pos2Z.inj_succ.
    replace (Z.succ (Zpos (digits2_pos p)) - 1) with (Z.succ (Zpos (digits2_pos p) - 1)) by lia.
    rewrite !Z.pow_succ_r by lia. lia.
  - rewrite Pos2Z.inj_succ.
    replace (Z.succ (Zpos (digits2_pos p)) - 1) with (Z.succ (Zpos (digits2_pos p) - 1)) by lia.
    rewrite !Z.pow_succ_r by lia. lia.
  - cbn. lia.
Qed.

Lemma shr_1_m (mrs : shr_record) :
  0 <= shr_m mrs -> shr_m (shr_1 mrs) = shr_m mrs / 2.
Proof.
  destruct mrs as [m r s]. cbn [shr_m]. intros Hm.
  destruct m as [| p | p]; [reflexivity | | lia].
  destruct p as [p | p |]; cbn [shr_1 shr_m orb].
  - rewrite Pos2Z.inj_xI. apply Z.div_unique with 1; lia.
  - rewrite Pos2Z.inj_xO. apply Z.div_unique with 0; lia.
  - reflexivity.
Qed.

Lemma iter_pos_shr_1_m (p : positive) :
  forall mrs, 0 <= shr_m mrs ->
    shr_m (iter_pos shr_1 p mrs) = shr_m mrs / 2 ^ Zpos p.
Proof.
  induction p as [p IH | p IH |]; intros mrs Hm; cbn [iter_pos].
  - assert (H1 : 0 <= shr_m (shr_1 mrs)) by (rewrite shr_1_m by lia; apply Z.div_pos; lia).
    assert (H2 : 0 <= shr_m (iter_pos shr_1 p (shr_1 mrs)))
      by (rewrite IH by lia; apply Z.div_pos; lia).
    rewrite IH, IH, shr_1_m by lia.
    rewrite !Z.div_div by lia. f_equal.
    replace (Z.pos p~1) with (2 * Z.pos p + 1) by lia.
    rewrite Z.pow_add_r, Z.pow_twice_r by lia.
    change (2 ^ 1) with 2. ring.
  - assert (H2 : 0 <= shr_m (iter_pos shr_1 p mrs))
      by (rewrite IH by lia; apply Z.div_pos; lia).
    rewrite IH, IH by lia. rewrite Z.div_div by lia. f_equal.
    replace (Z.pos p~0) with (2 * Z.pos p) by lia.
    rewrite Z.pow_twice_r. ring.
  - rewrite shr_1_m by lia. reflexivity.
Qed.

Lemma shr_spec (mrs : shr_record) (e n : Z) :
  0 <= shr_m mrs ->
  shr_m (fst (shr mrs e n)) = shr_m mrs / 2 ^ Z.max 0 n
  /\ snd (shr mrs e n) = e + Z.max 0 n.
Proof.
  intros Hm. destruct n as [| p | p]; cbn [shr fst snd].
  - cbn. rewrite Z.div_1_r. lia.
  - rewrite iter_pos_shr_1_m by lia. 
    replace (Z.max 0 (Z.pos p)) with (Z.pos p) by lia. split; reflexivity.
  - replace (Z.max 0 (Z.neg p)) with 0 by lia. cbn. rewrite Z.div_1_r. lia.
Qed.

Lemma shr_record_of_loc_m (m : Z) (l : location) :
  shr_m (shr_record_of_loc m l) = m.
Proof. destruct l as [| []]; reflexivity. Qed.

Lemma shr_fexp_spec (m e : Z) (l : location) :
  0 <= m ->
  shr_m (fst (shr_fexp prec emax m e l)) = m / 2 ^ dropped m e
  /\ snd (shr_fexp prec emax m e l) = e + dropped m e.
Proof.
  intros Hm. unfold shr_fexp, dropped.
  rewrite <- (shr_record_of_loc_m m l) at 3.
  apply shr_spec. rewrite shr_record_of_loc_m. exact Hm.
Qed.

Lemma dropped_nonneg (m e : Z) : 0 <= dropped m e.
Proof. unfold dropped. lia. Qed.

Lemma div_dropped_nonneg (m m' e : Z) : 0 <= m -> 0 <= m / 2 ^ dropped m' e.
Proof.
  intros Hm. apply Z.div_pos; [exact Hm |].
  apply Z.pow_pos_nonneg; [lia | apply dropped_nonneg].
Qed.

Lemma round_nearest_even_bounds (m : Z) (l : location) :
  m <= round_nearest_even m l <= m + 1.
Proof.
  destruct l as [| []]; cbn [round_nearest_even]; try lia.
  destruct (Z.even m); lia.
Qed.

(** [binary_round_aux] on a nonnegative mantissa: drop bits, round the
    mantissa up by at most one, drop bits again, pack. *)
Lemma bra_nonneg_shape (m e : Z) (l : location) :
  0 <= m ->
  exists m1,
    m / 2 ^ dropped m e <= m1 <= m / 2 ^ dropped m e + 1
    /\ (l = loc_Exact -> dropped m e = 0 -> m1 = m)
    /\ bra false m e l =
       pack (m1 / 2 ^ dropped m1 (e + dropped m e))
            (e + dropped m e + dropped m1 (e + dropped m e)).
Proof.
  intros Hm. unfold binary_round_aux.
  destruct (shr_fexp_spec m e l Hm) as [Hm1 He1].
  destruct (shr_fexp prec emax m e l) as [mrs1 e1] eqn:Hs1.
  cbn [fst snd] in Hm1, He1.
  set (m1 := round_nearest_even (shr_m mrs1) (loc_of_shr_record mrs1)).
  assert (Hb := round_nearest_even_bounds (shr_m mrs1) (loc_of_shr_record mrs1)).
  fold m1 in Hb.
  assert (Hq : 0 <= m / 2 ^ dropped m e) by (apply div_dropped_nonneg; lia).
  assert (Hm1pos : 0 <= m1) by lia.
  destruct (shr_fexp_spec m1 e1 loc_Exact Hm1pos) as [Hm2 He2].
  destruct (shr_fexp prec emax m1 e1 loc_Exact) as [mrs2 e2] eqn:Hs2.
  cbn [fst snd] in Hm2, He2.
  exists m1. split; [lia |]. split.
  - intros -> Hd. unfold shr_fexp in Hs1. fold (dropped m e) in Hs1.
    unfold dropped in Hd.
    assert (Hshr : shr (shr_record_of_loc m loc_Exact) e (fexp64 (Zdigits2 m + e) - e)
                   = (shr_record_of_loc m loc_Exact, e)).
    { destruct (fexp64 (Zdigits2 m + e) - e) eqn:Hn; cbn [shr]; try reflexivity. exfalso. lia. }
    rewrite Hshr in Hs1. injection Hs1 as <- <-. reflexivity.
  - rewrite Hm2, He2, He1. reflexivity.
Qed.

Lemma pack_nonneg (m e : Z) : 0 <= m -> is_nonneg (pack m e).
Proof.
  destruct m as [| p | p]; cbn; [trivial | | lia].
  intros _. destruct (_ <=? _); exact I.
Qed.

Lemma pack_positive (m e : Z) : 0 < m -> is_positive (pack m e).
Proof.
  destruct m as [| p | p]; cbn; [lia | | lia].
  intros _. destruct (_ <=? _); exact I.
Qed.

Lemma bra_nonneg (m e : Z) (l : location) : 0 <= m -> is_nonneg (bra false m e l).
Proof.
  intros Hm. destruct (bra_nonneg_shape m e l Hm) as [m1 [Hb [_ ->]]].
  assert (0 <= m / 2 ^ dropped m e) by (apply div_dropped_nonneg; lia).
  apply pack_nonneg. apply div_dropped_nonneg. lia.
Qed.

Lemma Zdigits2_bounds (m : Z) :
  0 < m -> 0 < Zdigits2 m /\ 2 ^ (Zdigits2 m - 1) <= m < 2 ^ Zdigits2 m.
Proof.
  destruct m as [| p | p]; try lia. intros _. cbn [Zdigits2].
  split; [lia | apply digits2_pos_bounds].
Qed.

Lemma div_pow2_pos (m n : Z) :
  0 < m -> 0 <= n <= Zdigits2 m - 1 -> 0 < m / 2 ^ n.
Proof.
  intros Hm Hn. destruct (Zdigits2_bounds m Hm) as [Hd [Hlo _]].
  apply Z.div_str_pos. split; [apply Z.pow_pos_nonneg; lia |].
  apply Z.le_trans with (2 ^ (Zdigits2 m - 1)); [| exact Hlo].
  apply Z.pow_le_mono_r; lia.
Qed.

Lemma dropped_bounds (m e : Z) :
  0 <= dropped m e
  /\ -1074 <= e + dropped m e
  /\ (-1074 < Zdigits2 m + e -> dropped m e <= Z.max 0 (Zdigits2 m - 1))
  /\ (-1074 <= e -> dropped m e <= Z.max 0 (Zdigits2 m - 53)).
Proof.
  unfold dropped, fexp, SpecFloat.emin, prec, emax. lia.
Qed.

(** A positive number that is at least the smallest subnormal rounds to
    a positive number. *)
Lemma bra_positive (m e : Z) (l : location) :
  0 < m -> -1074 < Zdigits2 m + e -> is_positive (bra false m e l).
Proof.
  intros Hm He. destruct (bra_nonneg_shape m e l) as [m1 [Hb [_ ->]]]; [lia |].
  destruct (dropped_bounds m e) as [Hd0 [Hemin [Hd1 _]]].
  destruct (Zdigits2_bounds m Hm) as [Hdig _].
  assert (Hq : 0 < m / 2 ^ dropped m e) by (apply div_pow2_pos; lia).
  assert (Hm1 : 0 < m1) by lia.
  destruct (dropped_bounds m1 (e + dropped m e)) as [Hd0' [_ [_ Hd2]]].
  destruct (Zdigits2_bounds m1 Hm1) as [Hdig1 _].
  apply pack_positive. apply div_pow2_pos; [exact Hm1 |].
  lia.
Qed.


Lemma Zdigits2_upper (m k : Z) : 0 <= m < 2 ^ k -> 0 <= k -> Zdigits2 m <= k.
Proof.
  intros [Hm Hlt] Hk. destruct (Z.eq_dec m 0) as [-> | Hne]; [cbn; lia |].
  destruct (Zdigits2_bounds m) as [Hd [Hlo _]]; [lia |].
  assert (H : 2 ^ (Zdigits2 m - 1) < 2 ^ k) by lia.
  apply Z.pow_lt_mono_r_iff in H; lia.
Qed.

Lemma Zdigits2_nonneg (m : Z) : 0 <= Zdigits2 m.
Proof. destruct m; cbn; lia. Qed.

(** Dropping bits and rounding up by at most one adds at most one
    binary digit above the dropped ones. *)
Lemma Zdigits2_after_drop (m m1 n : Z) :
  0 <= m -> 0 <= n -> 0 <= m1 <= m / 2 ^ n + 1 -> Zdigits2 m1 + n <= Zdigits2 m + 1 + Z.max 0 (n - Zdigits2 m).
Proof.
  intros Hm Hn Hm1.
  assert (Hpow : 0 < 2 ^ n) by (apply Z.pow_pos_nonneg; lia).
  destruct (Z.eq_dec m 0) as [-> | Hne].
  - rewrite Z.div_0_l in Hm1 by lia. cbn [Zdigits2].
    assert (Zdigits2 m1 <= 1) by (apply Zdigits2_upper; [cbn; lia | lia]). lia.
  - destruct (Zdigits2_bounds m) as [Hd [_ Hhi]]; [lia |].
    destruct (Z.le_gt_cases n (Zdigits2 m)) as [Hle | Hgt].
    + assert (Hq : m / 2 ^ n < 2 ^ (Zdigits2 m - n)).
      { apply Z.div_lt_upper_bound; [exact Hpow |].
        rewrite <- Z.pow_add_r by lia.
        replace (n + (Zdigits2 m - n)) with (Zdigits2 m) by lia. exact Hhi. }
      assert (Zdigits2 m1 <= Zdigits2 m - n + 1).
      { apply Zdigits2_upper; [| lia]. rewrite Z.pow_add_r by lia.
        assert (0 < 2 ^ (Zdigits2 m - n)) by (apply Z.pow_pos_nonneg; lia). lia. }
      lia.
    + assert (Hq : m / 2 ^ n = 0).
      { apply Z.div_small. split; [lia |].
        apply Z.lt_trans with (2 ^ Zdigits2 m); [exact Hhi |].
        apply Z.pow_lt_mono_r; lia. }
      assert (Zdigits2 m1 <= 1) by (apply Zdigits2_upper; [cbn; lia | lia]). lia.
Qed.

Lemma pack_finite (m e : Z) : 0 <= m -> e <= 971 -> is_finite_nonneg (pack m e).
Proof.
  intros Hm He. destruct m as [| p | p]; cbn; [trivial | | lia].
  destruct (Z.leb_spec e 971); [exact I | lia].
Qed.

(** A nonnegative number whose magnitude and exponent are inside the
    format rounds to a zero or a finite number: no overflow. *)
Lemma bra_finite (m e : Z) (l : location) :
  0 <= m -> e <= 971 -> Zdigits2 m + e <= 1023 ->
  is_finite_nonneg (bra false m e l).
Proof.
  intros Hm He Hmag. destruct (bra_nonneg_shape m e l Hm) as [m1 [Hb [_ ->]]].
  assert (Hq : 0 <= m / 2 ^ dropped m e) by (apply div_dropped_nonneg; lia).
  assert (Hd0 := dropped_nonneg m e).
  assert (Hdig := Zdigits2_after_drop m m1 (dropped m e) Hm Hd0 ltac:(lia)).
  assert (Hdm := Zdigits2_nonneg m). assert (Hdm1 := Zdigits2_nonneg m1).
  apply pack_finite; [apply div_dropped_nonneg; lia |].
  unfold dropped, fexp, SpecFloat.emin, prec, emax in *. lia.
Qed.

Lemma shl_align_value (m : positive) (e e' : Z) :
  let '(mz, ez) := shl_align m e e' in
  ez = Z.min e e' /\ Zpos mz = Zpos m * 2 ^ (e - ez).
Proof.
  unfold shl_align. destruct (e' - e) as [| d | d] eqn:Hd.
  - replace (Z.min e e') with e by lia. rewrite Z.sub_diag. cbn. lia.
  - replace (Z.min e e') with e by lia. rewrite Z.sub_diag. cbn. lia.
  - split; [lia |].
    replace (e - e') with (Zpos d) by lia.
    rewrite Pos.iter_swap_gen with (f := Z.pos) (h := Z.mul 2) by reflexivity.
    change (Pos.iter (Z.mul 2) (Z.pos m) d) with (Z.shiftl (Z.pos m) (Z.pos d)).
    apply Z.shiftl_mul_pow2. lia.
Qed.

Lemma binary_round_nonneg (m : positive) (e : Z) :
  is_nonneg (binary_round prec emax false m e).
Proof.
  unfold binary_round. destruct (shl_align m e _) as [mz ez].
  apply bra_nonneg. lia.
Qed.

(** A positive integer below [2^63] converts to a positive finite
    float. *)
Lemma binary_round_int (m : positive) :
  Zpos m < 2 ^ 63 ->
  is_finite_nonneg (binary_round prec emax false m 0)
  /\ is_positive (binary_round prec emax false m 0).
Proof.
  intros Hm. unfold binary_round.
  assert (Hal := shl_align_value m 0 (fexp64 (Zpos (digits2_pos m) + 0))).
  destruct (shl_align m 0 _) as [mz ez]. destruct Hal as [Hez Hmz].
  assert (Hd : 0 < Zpos (digits2_pos m) <= 63).
  { split; [lia |]. apply (Zdigits2_upper (Zpos m) 63); lia. }
  assert (Hez' : -52 <= ez <= 0)
    by (unfold fexp, SpecFloat.emin, prec, emax in Hez; lia).
  assert (Hdig : Zdigits2 (Zpos mz) <= Zpos (digits2_pos m) - ez).
  { apply Zdigits2_upper; [| lia]. split; [lia |].
    rewrite Hmz. replace (0 - ez) with (- ez) by lia.
    replace (Z.pos (digits2_pos m) - ez) with (Z.pos (digits2_pos m) + - ez) by lia.
    rewrite Z.pow_add_r by lia.
    assert (0 < 2 ^ (- ez)) by (apply Z.pow_pos_nonneg; lia).
    apply Z.mul_lt_mono_pos_r; [assumption |].
    apply (digits2_pos_bounds m). }
  assert (Hdig0 : 0 < Zdigits2 (Zpos mz)) by (cbn; lia).
  split.
  - apply bra_finite; lia.
  - apply bra_positive; lia.
Qed.

(** ** Facts about primitive floats, through their specification *)

Lemma Prim2SF_zero : Prim2SF 0 = S754_zero false.
Proof. reflexivity. Qed.

Lemma is_positive_nonneg (s : spec_float) : is_positive s -> is_nonneg s.
Proof. destruct s as [[] | [] | | [] ? ?]; cbn; trivial. Qed.

Lemma is_finite_nonneg_nonneg (s : spec_float) : is_finite_nonneg s -> is_nonneg s.
Proof. destruct s as [[] | [] | | [] ? ?]; cbn; trivial. Qed.

Lemma is_nonneg_cases (s : spec_float) :
  is_nonneg s -> s = S754_zero false \/ is_positive s.
Proof. destruct s as [[] | [] | | [] ? ?]; cbn; auto. Qed.

Lemma ltb_zero_iff_positive (x : float) :
  (0 <? x)%float = true <-> is_positive (Prim2SF x).
Proof.
  rewrite FloatAxioms.ltb_spec, Prim2SF_zero.
  destruct (Prim2SF x) as [[] | [] | | [] ? ?]; cbn; split; intros H;
    try exact I; try reflexivity; try discriminate; try contradiction.
Qed.

Lemma leb_zero_nonneg (x : float) :
  is_nonneg (Prim2SF x) -> (0 <=? x)%float = true.
Proof.
  rewrite FloatAxioms.leb_spec, Prim2SF_zero.
  destruct (Prim2SF x) as [[] | [] | | [] ? ?]; cbn; trivial; contradiction.
Qed.

Lemma leb_zero_iff (x : float) :
  is_nonneg (Prim2SF x) ->
  ((x <=? 0)%float = true <-> Prim2SF x = S754_zero false).
Proof.
  rewrite FloatAxioms.leb_spec, Prim2SF_zero.
  destruct (Prim2SF x) as [[] | [] | | [] ? ?]; cbn; intros H; try contradiction;
    split; intros H'; try reflexivity; try discriminate.
Qed.

Lemma eqb_zero_positive (x : float) :
  is_positive (Prim2SF x) -> (x =? 0)%float = false.
Proof.
  rewrite FloatAxioms.eqb_spec, Prim2SF_zero.
  destruct (Prim2SF x) as [[] | [] | | [] ? ?]; cbn; trivial; contradiction.
Qed.

(** A valid finite float has an exponent of at least [emin]. *)
Lemma valid_exponent (x : float) s m e :
  Prim2SF x = S754_finite s m e -> -1074 <= e <= 971.
Proof.
  intros Hx. assert (Hv := Prim2SF_valid x). rewrite Hx in Hv.
  cbn [SpecFloat.valid_binary] in Hv. unfold bounded, canonical_mantissa in Hv.
  apply andb_true_iff in Hv. destruct Hv as [Hc Hb].
  apply Z.eqb_eq in Hc. apply Z.leb_le in Hb.
  unfold fexp, SpecFloat.emin, prec, emax in *. lia.
Qed.

Lemma Zdigits2_mono (a b : Z) : 0 < a <= b -> Zdigits2 a <= Zdigits2 b.
Proof.
  intros [Ha Hab].
  destruct (Zdigits2_bounds a Ha) as [_ [Hlo _]].
  destruct (Zdigits2_bounds b) as [Hdb [_ Hhi]]; [lia |].
  assert (H : 2 ^ (Zdigits2 a - 1) < 2 ^ Zdigits2 b) by lia.
  apply Z.pow_lt_mono_r_iff in H; lia.
Qed.

(** The product of a positive float with the float 60 is positive: it
    neither vanishes nor is a NaN. *)
Lemma mul_60_positive (x : float) :
  is_positive (Prim2SF x) -> is_positive (Prim2SF (x * 60)).
Proof.
  intros Hx. rewrite FloatAxioms.mul_spec.
  replace (Prim2SF 60) with (S754_finite false 8444249301319680 (-47))
    by (vm_compute; reflexivity).
  destruct (Prim2SF x) as [[] | [] | | [] m e] eqn:Hs; try contradiction.
  - exact I.
  - cbn [SF64mul SFmul xorb]. unfold SF64mul, SFmul. cbn [xorb].
    destruct (valid_exponent x _ _ _ Hs) as [He _].
    apply bra_positive; [lia |].
    assert (Hmono : Zdigits2 8444249301319680 <= Zdigits2 (Zpos (m * 8444249301319680))).
    { apply Zdigits2_mono. lia. }
    change (Zdigits2 8444249301319680) with 53 in Hmono. lia.
Qed.

Lemma div_eucl_nonneg (a : Z) (b : positive) :
  0 <= a -> 0 <= fst (Z.div_eucl a (Zpos b)).
Proof.
  intros Ha. change (fst (Z.div_eucl a (Zpos b))) with (a / Zpos b).
  apply Z.div_pos; lia.
Qed.

(** Dividing a nonnegative finite float by a positive one gives a
    nonnegative float, never a NaN. *)
Lemma div_nonneg (x y : spec_float) :
  is_finite_nonneg x -> is_positive y -> is_nonneg (SF64div x y).
Proof.
  destruct x as [[] | [] | | [] mx ex]; try contradiction;
    destruct y as [[] | [] | | [] my ey]; try contradiction; intros _ _;
    try exact I.
  unfold SF64div, SFdiv, SFdiv_core_binary. cbn [xorb].
  match goal with
  | |- context [Z.div_eucl ?a (Zpos my)] =>
      assert (Hq := div_eucl_nonneg a my); destruct (Z.div_eucl a (Zpos my)) as [q r]
  end.
  apply bra_nonneg. apply Hq.
  destruct (ex - ey - _) as [| p | p]; try lia.
  apply Z.shiftl_nonneg. lia.
Qed.


(** ** Magnitudes: binary digits plus exponent *)

Lemma Zdigits2_lower (m k : Z) : 0 <= k -> 2 ^ k <= m -> k + 1 <= Zdigits2 m.
Proof.
  intros Hk Hm.
  assert (Hpos : 0 < m) by (assert (0 < 2 ^ k) by (apply Z.pow_pos_nonneg; lia); lia).
  destruct (Zdigits2_bounds m Hpos) as [Hd [_ Hhi]].
  assert (H : 2 ^ k < 2 ^ Zdigits2 m) by lia.
  apply Z.pow_lt_mono_r_iff in H; lia.
Qed.

Lemma Zdigits2_div_pow2_upper (m n : Z) :
  0 <= m -> 0 <= n -> Zdigits2 (m / 2 ^ n) <= Z.max 0 (Zdigits2 m - n).
Proof.
  intros Hm Hn.
  assert (Hpow : 0 < 2 ^ n) by (apply Z.pow_pos_nonneg; lia).
  destruct (Z.eq_dec m 0) as [-> | Hne]; [rewrite Z.div_0_l by lia; cbn; lia |].
  destruct (Zdigits2_bounds m) as [Hd [_ Hhi]]; [lia |].
  destruct (Z.le_gt_cases n (Zdigits2 m)) as [Hle | Hgt].
  - rewrite Z.max_r by lia. apply Zdigits2_upper; [| lia].
    split; [apply Z.div_pos; lia |].
    apply Z.div_lt_upper_bound; [exact Hpow |].
    rewrite <- Z.pow_add_r by lia.
    replace (n + (Zdigits2 m - n)) with (Zdigits2 m) by lia. exact Hhi.
  - rewrite Z.div_small; [cbn; lia |]. split; [lia |].
    apply Z.lt_trans with (2 ^ Zdigits2 m); [exact Hhi |].
    apply Z.pow_lt_mono_r; lia.
Qed.

Lemma Zdigits2_div_pow2_lower (m n : Z) :
  0 < m -> 0 <= n <= Zdigits2 m - 1 -> Zdigits2 m - n <= Zdigits2 (m / 2 ^ n).
Proof.
  intros Hm Hn. destruct (Zdigits2_bounds m Hm) as [Hd [Hlo _]].
  assert (Hpow : 0 < 2 ^ n) by (apply Z.pow_pos_nonneg; lia).
  assert (H : Zdigits2 m - 1 - n + 1 <= Zdigits2 (m / 2 ^ n)).
  { apply Zdigits2_lower; [lia |].
    apply Z.div_le_lower_bound; [exact Hpow |].
    rewrite <- Z.pow_add_r by lia.
    replace (n + (Zdigits2 m - 1 - n)) with (Zdigits2 m - 1) by lia. exact Hlo. }
  lia.
Qed.

Lemma Zdigits2_succ (m m1 : Z) :
  0 <= m -> m <= m1 <= m + 1 -> Zdigits2 m <= Zdigits2 m1 <= Zdigits2 m + 1.
Proof.
  intros Hm Hm1. destruct (Z.eq_dec m 0) as [-> | Hne].
  - cbn [Zdigits2]. split; [apply Zdigits2_nonneg |].
    apply Zdigits2_upper; [cbn; lia | lia].
  - split; [apply Zdigits2_mono; lia |].
    destruct (Zdigits2_bounds m) as [Hd [_ Hhi]]; [lia |].
    apply Zdigits2_upper; [| lia]. rewrite Z.pow_add_r by lia.
    change (2 ^ 1) with 2. lia.
Qed.

(** Everything the later lemmas use about one rounding, in terms of
    digits. *)
Lemma bra_digits (m e : Z) (l : location) :
  0 <= m ->
  exists m1 m2 n1 n2 : Z,
    bra false m e l = pack m2 (e + n1 + n2)
    /\ n1 = dropped m e /\ n2 = dropped m1 (e + n1)
    /\ 0 <= m1 /\ 0 <= m2
    /\ Zdigits2 (m / 2 ^ n1) <= Zdigits2 m1 <= Zdigits2 (m / 2 ^ n1) + 1
    /\ Zdigits2 (m / 2 ^ n1) <= Z.max 0 (Zdigits2 m - n1)
    /\ (0 < m -> n1 <= Zdigits2 m - 1 -> Zdigits2 m - n1 <= Zdigits2 (m / 2 ^ n1))
    /\ Zdigits2 m2 <= Z.max 0 (Zdigits2 m1 - n2)
    /\ (0 < m1 -> n2 <= Zdigits2 m1 - 1 ->
        Zdigits2 m1 - n2 <= Zdigits2 m2 /\ 0 < m2)
    /\ (0 < m / 2 ^ n1 -> 0 < m1)
    /\ (0 < m2 -> 0 < m1).
Proof.
  intros Hm. destruct (bra_nonneg_shape m e l Hm) as [m1 [Hb [_ Hrun]]].
  assert (Hq : 0 <= m / 2 ^ dropped m e) by (apply div_dropped_nonneg; lia).
  assert (Hd1 := dropped_nonneg m e).
  assert (Hd2 := dropped_nonneg m1 (e + dropped m e)).
  exists m1, (m1 / 2 ^ dropped m1 (e + dropped m e)), (dropped m e),
    (dropped m1 (e + dropped m e)).
  split; [exact Hrun |]. split; [reflexivity |]. split; [reflexivity |].
  split; [lia |]. split; [apply div_dropped_nonneg; lia |].
  split; [apply Zdigits2_succ; lia |].
  split; [apply Zdigits2_div_pow2_upper; lia |].
  split; [intros; apply Zdigits2_div_pow2_lower; lia |].
  split; [apply Zdigits2_div_pow2_upper; lia |].
  split; [| split; [lia |]].
  - intros Hm1 Hn2. split; [apply Zdigits2_div_pow2_lower; lia |].
    apply div_pow2_pos; lia.
  - intros Hm2. destruct (Z.eq_dec m1 0) as [-> | ?]; [| lia].
    rewrite Z.div_0_l in Hm2; [lia |].
    apply Z.pow_nonzero; [lia | apply dropped_nonneg].
Qed.

Lemma pack_below (m e K : Z) :
  0 <= m -> e <= 971 -> (0 < m -> Zdigits2 m + e <= K) -> below K (pack m e).
Proof.
  intros Hm He Hmag. destruct m as [| p | p]; cbn [pack]; [exact I | | lia].
  destruct (Z.leb_spec e (emax - prec)) as [_ | Hgt];
    [| unfold emax, prec in Hgt; lia].
  cbn [below]. apply Hmag. lia.
Qed.

Lemma pack_above (m e K : Z) :
  0 < m -> K <= Zdigits2 m + e -> above K (pack m e).
Proof.
  intros Hm Hmag. destruct m as [| p | p]; cbn [pack]; [lia | | lia].
  destruct (e <=? emax - prec); [exact Hmag | exact I].
Qed.

Lemma pack_valid (m e : Z) :
  0 <= m -> (0 < m -> fexp64 (Zdigits2 m + e) = e) ->
  valid_binary (pack m e) = true.
Proof.
  intros Hm Hcanon. destruct m as [| p | p]; cbn [pack]; [reflexivity | | lia].
  destruct (Z.leb_spec e (emax - prec)) as [Hle | Hgt]; [| reflexivity].
  cbn [SpecFloat.valid_binary]. unfold bounded, canonical_mantissa.
  apply andb_true_iff. split; [apply Z.eqb_eq; apply Hcanon; lia |].
  apply Z.leb_le. exact Hle.
Qed.

Lemma bra_below (m e K : Z) (l : location) :
  0 <= m -> e <= 971 -> Zdigits2 m + e <= K -> K <= 1022 ->
  below (Z.max (K + 1) (-1073)) (bra false m e l).
Proof.
  intros Hm He Hmag HK.
  destruct (bra_digits m e l Hm)
    as (m1 & m2 & n1 & n2 & -> & Hn1 & Hn2 & Hm1 & Hm2 & Hd1 & Hdq & _ & Hd2 & _ & _ & _).
  assert (Hdm := Zdigits2_nonneg m). assert (Hdm1 := Zdigits2_nonneg m1).
  apply pack_below; [exact Hm2 | |];
    unfold dropped, fexp, SpecFloat.emin, prec, emax in *.
  - lia.
  - intros Hpos. assert (0 < Zdigits2 m2) by (apply Zdigits2_bounds; exact Hpos). lia.
Qed.

Lemma bra_above (m e K : Z) (l : location) :
  0 < m -> -1074 < Zdigits2 m + e -> K <= Zdigits2 m + e ->
  above K (bra false m e l).
Proof.
  intros Hm Hmin Hmag.
  destruct (bra_digits m e l)
    as (m1 & m2 & n1 & n2 & -> & Hn1 & Hn2 & Hm1 & Hm2 & Hd1 & _ & Hdq & _ & Hd2 & Hpos1 & _);
    [lia |].
  destruct (Zdigits2_bounds m Hm) as [Hdm _].
  assert (Hn1' : 0 <= n1 <= Zdigits2 m - 1)
    by (unfold dropped, fexp, SpecFloat.emin, prec, emax in *; lia).
  assert (Hq : 0 < m / 2 ^ n1) by (apply div_pow2_pos; lia).
  assert (Hm1' : 0 < m1) by auto.
  destruct (Zdigits2_bounds m1 Hm1') as [Hdm1 _].
  assert (Hn2' : n2 <= Zdigits2 m1 - 1)
    by (unfold dropped, fexp, SpecFloat.emin, prec, emax in *; lia).
  destruct (Hd2 Hm1' Hn2') as [Hd2' Hm2'].
  apply pack_above; [exact Hm2' |].
  specialize (Hdq Hm ltac:(lia)). lia.
Qed.

(** Rounding a number that carries at least the digits of the format
    gives a valid float. *)
Lemma bra_valid (m e : Z) (l : location) :
  0 <= m -> e <= fexp64 (Zdigits2 m + e) ->
  valid_binary (bra false m e l) = true.
Proof.
  intros Hm Hrich.
  destruct (bra_digits m e l Hm)
    as (m1 & m2 & n1 & n2 & -> & Hn1 & Hn2 & Hm1 & Hm2 & Hd1 & Hdq & Hdq' & Hd2 & Hd2' & Hpos1 & Hpos2).
  assert (Hdm := Zdigits2_nonneg m). assert (Hdm1 := Zdigits2_nonneg m1).
  assert (Hdq0 := Zdigits2_nonneg (m / 2 ^ n1)).
  apply pack_valid; [exact Hm2 |]. intros Hm2pos.
  assert (Hm1pos : 0 < m1) by auto.
  destruct (Zdigits2_bounds m1 Hm1pos) as [Hdm1' _].
  destruct (Zdigits2_bounds m2 Hm2pos) as [Hdm2' _].
  destruct (Z.eq_dec m 0) as [-> | Hmne].
  - rewrite Z.div_0_l in Hd1, Hdq0
      by (apply Z.pow_nonzero; [lia | rewrite Hn1; apply dropped_nonneg]).
    unfold dropped, fexp, SpecFloat.emin, prec, emax in *.
    cbn [Zdigits2] in *. lia.
  - assert (Hmpos : 0 < m) by lia.
    destruct (Zdigits2_bounds m Hmpos) as [Hdm' _].
    specialize (Hdq' Hmpos).
    unfold dropped, fexp, SpecFloat.emin, prec, emax in *. lia.
Qed.


Lemma Zdigits2_mul_pow2 (m s : Z) :
  0 < m -> 0 <= s -> Zdigits2 (m * 2 ^ s) = Zdigits2 m + s.
Proof.
  intros Hm Hs. destruct (Zdigits2_bounds m Hm) as [Hd [Hlo Hhi]].
  assert (Hpow : 0 < 2 ^ s) by (apply Z.pow_pos_nonneg; lia).
  apply Z.le_antisymm.
  - apply Zdigits2_upper; [| lia]. split; [lia |].
    rewrite Z.pow_add_r by lia. apply Z.mul_lt_mono_pos_r; assumption.
  - assert (H : Zdigits2 m - 1 + s + 1 <= Zdigits2 (m * 2 ^ s)); [| lia].
    apply Zdigits2_lower; [lia |].
    rewrite Z.pow_add_r by lia. apply Z.mul_le_mono_nonneg_r; lia.
Qed.

(** The integer quotient that [SFdiv] rounds: its exponent, and how many
    digits it has. *)
Lemma div_core_digits (mx my : positive) (ex ey : Z) :
  let magdiff := Zpos (digits2_pos mx) + ex - (Zpos (digits2_pos my) + ey) in
  exists q e' l,
    SFdiv_core_binary prec emax (Zpos mx) ex (Zpos my) ey = (q, e', l)
    /\ e' = Z.min (fexp64 magdiff) (ex - ey)
    /\ 0 <= q
    /\ Zdigits2 q <= Z.max 0 (magdiff - e' + 1)
    /\ (0 <= magdiff - 1 - e' -> 0 < q /\ magdiff - e' <= Zdigits2 q).
Proof.
  intros magdiff. unfold SFdiv_core_binary. cbn [Zdigits2]. fold magdiff.
  set (e' := Z.min (fexp64 magdiff) (ex - ey)).
  set (s := ex - ey - e').
  assert (Hs : 0 <= s) by (unfold s, e'; lia).
  set (m' := match s with Z.pos _ => Z.shiftl (Z.pos mx) s | 0 => Z.pos mx | Z.neg _ => 0 end).
  assert (Hm' : m' = Zpos mx * 2 ^ s).
  { unfold m'. destruct s as [| p | p]; [cbn; lia | | lia].
    apply Z.shiftl_mul_pow2. lia. }
  assert (Hdm' : Zdigits2 m' = Zpos (digits2_pos mx) + s).
  { rewrite Hm'. rewrite Zdigits2_mul_pow2 by lia. reflexivity. }
  assert (Hm'pos : 0 < m').
  { rewrite Hm'. apply Z.mul_pos_pos; [lia | apply Z.pow_pos_nonneg; lia]. }
  assert (Hq : fst (Z.div_eucl m' (Zpos my)) = m' / Zpos my) by reflexivity.
  destruct (Z.div_eucl m' (Zpos my)) as [q r]. cbn [fst] in Hq. subst q.
  do 3 eexists. split; [reflexivity |]. split; [reflexivity |].
  destruct (Zdigits2_bounds m' Hm'pos) as [_ [Hm'lo Hm'hi]].
  rewrite Hdm' in Hm'lo, Hm'hi.
  destruct (Zdigits2_bounds (Zpos my) ltac:(lia)) as [Hdy [Hmylo Hmyhi]].
  cbn [Zdigits2] in Hdy, Hmylo, Hmyhi.
  set (dy := Zpos (digits2_pos my)) in *.
  set (dx := Zpos (digits2_pos mx)) in *.
  assert (Hk : magdiff - e' = dx + s - dy) by (unfold magdiff, s; lia).
  split; [apply Z.div_pos; lia |]. split.
  - rewrite Hk. destruct (Z.le_gt_cases (dy - 1) (dx + s)) as [Hle | Hgt].
    + rewrite Z.max_r by lia. apply Zdigits2_upper; [| lia].
      split; [apply Z.div_pos; lia |].
      apply Z.div_lt_upper_bound; [lia |].
      apply Z.lt_le_trans with (2 ^ (dx + s)); [lia |].
      assert (Hsplit : 2 ^ (dx + s) = 2 ^ (dy - 1) * 2 ^ (dx + s - dy + 1))
        by (rewrite <- Z.pow_add_r by lia; f_equal; lia).
      rewrite Hsplit.
      apply Z.mul_le_mono_nonneg_r; [apply Z.pow_nonneg; lia | exact Hmylo].
    + rewrite Z.div_small; [cbn; lia |]. split; [lia |].
      apply Z.lt_le_trans with (2 ^ (dx + s)); [lia |].
      apply Z.le_trans with (2 ^ (dy - 1)); [| exact Hmylo].
      apply Z.pow_le_mono_r; lia.
  - intros Hk0. rewrite Hk in *.
    assert (Hlow : 2 ^ (dx + s - dy - 1) <= m' / Zpos my).
    { apply Z.div_le_lower_bound; [lia |].
      apply Z.le_trans with (2 ^ dy * 2 ^ (dx + s - dy - 1)).
      - apply Z.mul_le_mono_nonneg_r; [apply Z.pow_nonneg; lia | lia].
      - rewrite <- Z.pow_add_r by lia.
        replace (dy + (dx + s - dy - 1)) with (dx + s - 1) by lia. exact Hm'lo. }
    assert (0 < 2 ^ (dx + s - dy - 1)) by (apply Z.pow_pos_nonneg; lia).
    split; [lia |].
    assert (H' := Zdigits2_lower (m' / Zpos my) (dx + s - dy - 1) ltac:(lia) Hlow). lia.
Qed.

(** Division of a nonnegative finite number by a positive one: the
    result is a valid float. *)
Lemma div_valid (x y : spec_float) :
  is_finite_nonneg x -> is_positive y -> valid_binary (SF64div x y) = true.
Proof.
  destruct x as [[] | [] | | [] mx ex]; try contradiction;
    destruct y as [[] | [] | | [] my ey]; try contradiction; intros _ _;
    try reflexivity.
  unfold SF64div, SFdiv. cbn [xorb].
  destruct (div_core_digits mx my ex ey) as (q & e' & l & -> & He' & Hq & Hup & Hlo).
  apply bra_valid; [exact Hq |].
  assert (Hdq := Zdigits2_nonneg q).
  unfold fexp, SpecFloat.emin, prec, emax in *. lia.
Qed.

(** The magnitude of a quotient is at most the difference of the
    magnitudes plus two. *)
Lemma div_below (x y : spec_float) (Kx Ky : Z) :
  below Kx x -> above Ky y -> Kx - Ky <= 1020 ->
  below (Z.max (Kx - Ky + 2) (-1073)) (SF64div x y).
Proof.
  destruct x as [[] | [] | | [] mx ex]; try contradiction;
    destruct y as [[] | [] | | [] my ey]; try contradiction; cbn [below above];
    intros Hx Hy HK; try exact I.
  unfold SF64div, SFdiv. cbn [xorb].
  destruct (div_core_digits mx my ex ey) as (q & e' & l & -> & He' & Hq & Hup & Hlo).
  assert (Hdq := Zdigits2_nonneg q).
  assert (Hb : below (Z.max (Z.max (Kx - Ky + 1) (-1074) + 1) (-1073)) (bra false q e' l)).
  { apply bra_below; [exact Hq | | |];
      unfold fexp, SpecFloat.emin, prec, emax in *; lia. }
  replace (Z.max (Kx - Ky + 2) (-1073))
    with (Z.max (Z.max (Kx - Ky + 1) (-1074) + 1) (-1073)) by lia.
  exact Hb.
Qed.

(** The magnitude of a quotient is at least the difference of the
    magnitudes. *)
Lemma div_above (x y : spec_float) (Kx Ky : Z) :
  above Kx x -> x <> S754_infinity false -> below Ky y -> is_positive y ->
  -1074 < Kx - Ky ->
  above (Kx - Ky) (SF64div x y).
Proof.
  destruct x as [[] | [] | | [] mx ex]; try contradiction; try congruence;
    destruct y as [[] | [] | | [] my ey]; try contradiction; cbn [below above];
    intros Hx _ Hy _ HK.
  unfold SF64div, SFdiv. cbn [xorb].
  destruct (div_core_digits mx my ex ey) as (q & e' & l & -> & He' & Hq & Hup & Hlo).
  assert (Hk : 0 <= Z.pos (digits2_pos mx) + ex - (Z.pos (digits2_pos my) + ey) - 1 - e')
    by (unfold fexp, SpecFloat.emin, prec, emax in *; lia).
  destruct (Hlo Hk) as [Hqpos Hdq].
  apply bra_above; [exact Hqpos | |]; lia.
Qed.

(** The magnitude of a product is at most the sum of the magnitudes plus
    one. *)
Lemma mul_below (x y : spec_float) (Kx Ky : Z) :
  below Kx x -> below Ky y -> is_positive x -> is_positive y ->
  valid_binary x = true -> valid_binary y = true ->
  Kx + Ky <= 1022 ->
  below (Z.max (Kx + Ky + 1) (-1073)) (SF64mul x y).
Proof.
  destruct x as [[] | [] | | [] mx ex]; try contradiction;
    destruct y as [[] | [] | | [] my ey]; try contradiction; cbn [below];
    intros Hx Hy _ _ Hvx Hvy HK.
  unfold SF64mul, SFmul. cbn [xorb].
  cbn [SpecFloat.valid_binary] in Hvx, Hvy. unfold bounded, canonical_mantissa in Hvx, Hvy.
  apply andb_true_iff in Hvx, Hvy. destruct Hvx as [Hcx Hbx], Hvy as [Hcy Hby].
  apply Z.eqb_eq in Hcx, Hcy. apply Z.leb_le in Hbx, Hby.
  assert (Hdig : Zdigits2 (Zpos (mx * my))
                 <= Zpos (digits2_pos mx) + Zpos (digits2_pos my)).
  { apply Zdigits2_upper; [| lia]. split; [lia |].
    rewrite Pos2Z.inj_mul, Z.pow_add_r by lia.
    assert (Hx' := digits2_pos_bounds mx). assert (Hy' := digits2_pos_bounds my).
    apply Z.mul_lt_mono_nonneg; lia. }
  apply bra_below; [lia | | | exact HK];
    unfold fexp, SpecFloat.emin, prec, emax in *; lia.
Qed.


Lemma below_finite (K : Z) (s : spec_float) : below K s -> is_finite_nonneg s.
Proof. destruct s as [[] | [] | | [] ? ?]; cbn; trivial. Qed.

Lemma above_positive (K : Z) (s : spec_float) : above K s -> is_positive s.
Proof. destruct s as [[] | [] | | [] ? ?]; cbn; trivial. Qed.

Lemma below_weaken (K K' : Z) (s : spec_float) : below K s -> K <= K' -> below K' s.
Proof. destruct s as [[] | [] | | [] ? ?]; cbn; trivial. lia. Qed.

(** A positive integer below [2^63] converts to a float between 1 and
    [2^64]. *)
Lemma binary_round_int_mag (m : positive) :
  Zpos m < 2 ^ 63 ->
  below 64 (binary_round prec emax false m 0)
  /\ above 1 (binary_round prec emax false m 0).
Proof.
  intros Hm. unfold binary_round.
  assert (Hal := shl_align_value m 0 (fexp64 (Zpos (digits2_pos m) + 0))).
  destruct (shl_align m 0 _) as [mz ez]. destruct Hal as [Hez Hmz].
  assert (Hd : 0 < Zpos (digits2_pos m) <= 63).
  { split; [lia |]. apply (Zdigits2_upper (Zpos m) 63); lia. }
  assert (Hez' : -52 <= ez <= 0)
    by (unfold fexp, SpecFloat.emin, prec, emax in Hez; lia).
  assert (Hdig : Zdigits2 (Zpos mz) = Zpos (digits2_pos m) - ez).
  { rewrite Hmz. rewrite Zdigits2_mul_pow2 by lia. cbn [Zdigits2]. lia. }
  split.
  - apply (below_weaken (Z.max (63 + 1) (-1073))); [| lia].
    apply bra_below; lia.
  - apply bra_above; lia.
Qed.

(** A valid finite float has at most 53 binary digits. *)
Lemma valid_digits (x : float) s m e :
  Prim2SF x = S754_finite s m e -> Zpos (digits2_pos m) <= 53.
Proof.
  intros Hx. assert (Hv := Prim2SF_valid x). rewrite Hx in Hv.
  cbn [SpecFloat.valid_binary] in Hv. unfold bounded, canonical_mantissa in Hv.
  apply andb_true_iff in Hv. destruct Hv as [Hc Hb].
  apply Z.eqb_eq in Hc. unfold fexp, SpecFloat.emin, prec, emax in *. lia.
Qed.

(** A positive float that does not exceed a finite bound has at most the
    magnitude of the bound. *)
Lemma not_above_below (x b : float) (mB : positive) (eB : Z) :
  Prim2SF b = S754_finite false mB eB ->
  (b <? x)%float = false -> is_positive (Prim2SF x) ->
  below (53 + eB) (Prim2SF x).
Proof.
  intros Hb Hcmp Hx. rewrite FloatAxioms.ltb_spec, Hb in Hcmp.
  destruct (Prim2SF x) as [[] | [] | | [] m e] eqn:Hs; try contradiction;
    try discriminate.
  assert (Hd := valid_digits x _ _ _ Hs). cbn [below].
  unfold SFltb, SFcompare in Hcmp.
  destruct (Z.compare_spec eB e); try discriminate; lia.
Qed.

(** The tenths of a number have at most five more binary digits. *)
Lemma tenths_bounds (tenths : Z) (m : positive) (e : Z) :
  0 <= tenths ->
  (0 <= e -> tenths = 10 * Zpos m * 2 ^ e) ->
  (e < 0 -> tenths <= 10 * Zpos m / 2 ^ (- e) + 1) ->
  Zdigits2 tenths <= Z.max 1 (Zpos (digits2_pos m) + e + 5).
Proof.
  intros Ht Hnn Hneg.
  assert (Hm := digits2_pos_bounds m).
  set (d := Zpos (digits2_pos m)) in *.
  assert (H10 : 10 * Zpos m < 2 ^ (d + 4)).
  { rewrite Z.pow_add_r by lia. change (2 ^ 4) with 16. lia. }
  destruct (Z.le_gt_cases 0 e) as [He | He].
  - rewrite Z.max_r by lia. apply Zdigits2_upper; [| lia]. split; [exact Ht |].
    rewrite (Hnn He).
    apply Z.lt_le_trans with (2 ^ (d + 4) * 2 ^ e).
    + apply Z.mul_lt_mono_pos_r; [apply Z.pow_pos_nonneg; lia | exact H10].
    + rewrite <- Z.pow_add_r by lia. apply Z.pow_le_mono_r; lia.
  - specialize (Hneg He).
    assert (Hpow : 0 < 2 ^ (- e)) by (apply Z.pow_pos_nonneg; lia).
    destruct (Z.le_gt_cases 0 (d + e + 4)) as [Hbig | Hsmall].
    + rewrite Z.max_r by lia. apply Zdigits2_upper; [| lia]. split; [exact Ht |].
      assert (Hq : 10 * Zpos m / 2 ^ (- e) < 2 ^ (d + e + 4)).
      { apply Z.div_lt_upper_bound; [exact Hpow |].
        rewrite <- Z.pow_add_r by lia.
        replace (- e + (d + e + 4)) with (d + 4) by lia. exact H10. }
      replace (d + e + 5) with (d + e + 4 + 1) by lia.
      rewrite Z.pow_add_r by lia. change (2 ^ 1) with 2.
      assert (0 < 2 ^ (d + e + 4)) by (apply Z.pow_pos_nonneg; lia). lia.
    + assert (Hq : 10 * Zpos m / 2 ^ (- e) = 0).
      { apply Z.div_small. split; [lia |].
        apply Z.lt_le_trans with (2 ^ (d + 4)); [exact H10 |].
        apply Z.pow_le_mono_r; lia. }
      apply Z.le_trans with 1; [| lia].
      apply Zdigits2_upper; [cbn; lia | lia].
Qed.

End FloatFacts.
Import FloatFacts.

(** ** The risk model *)

(** The counter of [calculate_risk_score] takes the values 0 to 5, and on
    each of them the float percentage is the exact integer percentage. *)
Lemma risk_percentage_of_exact :
  forallb (fun n => Leibniz.eqb (risk_percentage_of n 5)
                      (float_of_int (Spec.risk_percentage n)))
          [0; 1; 2; 3; 4; 5] = true.
Proof. vm_compute. reflexivity. Qed.

(** With arbitrary baselines the score is the rule table applied to the
    number of factors that hold, each factor comparing the value with its
    own baseline times its multiplier. *)
Lemma calculate_risk_score_factors (m : BehavioralMetrics) :
  calculate_risk_score m =
  Spec.classify (Spec.risk_percentage (Spec.count_true
    [ (m.(eye_contact_duration) <? m.(eye_contact_baseline))%float;
      (m.(attention_shifts) >? m.(attention_shifts_baseline) * 1.3)%float;
      (m.(gesture_frequency) <? m.(gesture_frequency_baseline) * 0.7)%float;
      (m.(social_gaze) <? m.(social_gaze_baseline))%float;
      (m.(response_latency) >? m.(response_latency_baseline) * 1.5)%float ])).
Proof.
  unfold calculate_risk_score, Spec.count_true.
  destruct (m.(eye_contact_duration) <? m.(eye_contact_baseline))%float,
           (m.(attention_shifts) >? m.(attention_shifts_baseline) * 1.3)%float,
           (m.(gesture_frequency) <? m.(gesture_frequency_baseline) * 0.7)%float,
           (m.(social_gaze) <? m.(social_gaze_baseline))%float,
           (m.(response_latency) >? m.(response_latency_baseline) * 1.5)%float;
    vm_compute; reflexivity.
Qed.

(** C1. For every metrics value carrying the fixed baselines, the score is
    decided by the five factors [eye_contact_duration < 75.0],
    [attention_shifts > 8.0 * 1.3], [gesture_frequency < 6.0 * 0.7],
    [social_gaze < 60.0] and [response_latency > 1.5 * 1.5]: the float
    percentage the code computes is exactly [100 * count / 5], and the result
    is Low with 0.85 below 30, Medium with 0.75 from 30 up to but excluding
    60, High with 0.80 otherwise; three factors give High with 0.80 and two
    give Medium with 0.75. *)
Theorem calculate_risk_score_spec
    (eye_contact attention gesture gaze latency variance : float)
    (repetitive : Z) (pattern : string) :
  let m := mkBehavioralMetrics eye_contact 75.0 attention 8.0 gesture 6.0
             gaze 60.0 latency 1.5 repetitive variance pattern in
  let count := Spec.count_true (Spec.risk_factors m) in
  risk_percentage_of count 5 = float_of_int (Spec.risk_percentage count)
  /\ calculate_risk_score m = Spec.classify (Spec.risk_percentage count)
  /\ (Spec.risk_percentage count < 30 ->
      calculate_risk_score m = ("Low Risk"%string, 0.85%float))
  /\ (30 <= Spec.risk_percentage count < 60 ->
      calculate_risk_score m = ("Medium Risk"%string, 0.75%float))
  /\ (60 <= Spec.risk_percentage count ->
      calculate_risk_score m = ("High Risk"%string, 0.80%float))
  /\ (count = 3 ->
      Spec.risk_percentage count = 60
      /\ calculate_risk_score m = ("High Risk"%string, 0.80%float))
  /\ (count = 2 ->
      Spec.risk_percentage count = 40
      /\ calculate_risk_score m = ("Medium Risk"%string, 0.75%float)).
Proof.
  intros m count.
  assert (Hscore : calculate_risk_score m = Spec.classify (Spec.risk_percentage count)).
  { rewrite calculate_risk_score_factors. reflexivity. }
  rewrite Hscore. subst count.
  unfold Spec.risk_factors, Spec.count_true. cbn [eye_contact_duration
    attention_shifts gesture_frequency social_gaze response_latency m].
  destruct (eye_contact <? 75.0)%float, (8.0 * 1.3 <? attention)%float,
           (gesture <? 6.0 * 0.7)%float, (gaze <? 60.0)%float,
           (1.5 * 1.5 <? latency)%float;
    vm_compute; repeat split; intros; try reflexivity; try discriminate;
    repeat match goal with H : _ /\ _ |- _ => destruct H end;
    try congruence; exfalso; auto.
Qed.

Lemma calculate_risk_score_spec_witness :
  calculate_risk_score (BehavioralMetrics_init 68.0 12.0 4.0 70.0 1.0)
  = ("High Risk"%string, 0.80%float)
  /\ calculate_risk_score (BehavioralMetrics_init 68.0 12.0 5.0 70.0 1.0)
     = ("Medium Risk"%string, 0.75%float).
Proof.
  split.
  - destruct (calculate_risk_score_spec 68.0 12.0 4.0 70.0 1.0 0.0 0 "normal")
      as (_ & _ & _ & _ & _ & Hthree & _).
    exact (proj2 (Hthree eq_refl)).
  - destruct (calculate_risk_score_spec 68.0 12.0 5.0 70.0 1.0 0.0 0 "normal")
      as (_ & _ & _ & _ & _ & _ & Htwo).
    exact (proj2 (Htwo eq_refl)).
Defined.

(** The metrics of the repository's own unit test: all five factors hold. *)
Example calculate_risk_score_test_metrics :
  calculate_risk_score (BehavioralMetrics_init 68.0 12.0 4.0 45.0 2.3)
  = ("High Risk"%string, 0.80%float).
Proof. vm_compute. reflexivity. Qed.

(** ** The report *)

Lemma below_not_above : Spec.below <> Spec.above.
Proof. discriminate. Qed.

(** C2. In the report of any metrics value, the status of
    eye_contact_duration, gesture_frequency and social_gaze is
    below_baseline exactly when the value is strictly below its baseline and
    above_baseline otherwise; the status of attention_shifts and
    response_latency is above_baseline exactly when the value is strictly
    above its baseline and below_baseline otherwise.  A value equal to its
    baseline therefore falls in the second branch: an eye contact duration
    of exactly 75.0 is reported above_baseline. *)
Theorem to_dict_status (m : BehavioralMetrics) :
  let status := Spec.status (to_dict m) in
  (status "eye_contact_duration"%string =
     if (m.(eye_contact_duration) <? m.(eye_contact_baseline))%float
     then Spec.below else Spec.above)
  /\ (status "gesture_frequency"%string =
     if (m.(gesture_frequency) <? m.(gesture_frequency_baseline))%float
     then Spec.below else Spec.above)
  /\ (status "social_gaze"%string =
     if (m.(social_gaze) <? m.(social_gaze_baseline))%float
     then Spec.below else Spec.above)
  /\ (status "attention_shifts"%string =
     if (m.(attention_shifts) >? m.(attention_shifts_baseline))%float
     then Spec.above else Spec.below)
  /\ (status "response_latency"%string =
     if (m.(response_latency) >? m.(response_latency_baseline))%float
     then Spec.above else Spec.below)
  /\ (status "eye_contact_duration"%string = Spec.below
      <-> (m.(eye_contact_duration) <? m.(eye_contact_baseline))%float = true)
  /\ (status "gesture_frequency"%string = Spec.below
      <-> (m.(gesture_frequency) <? m.(gesture_frequency_baseline))%float = true)
  /\ (status "social_gaze"%string = Spec.below
      <-> (m.(social_gaze) <? m.(social_gaze_baseline))%float = true)
  /\ (status "attention_shifts"%string = Spec.above
      <-> (m.(attention_shifts) >? m.(attention_shifts_baseline))%float = true)
  /\ (status "response_latency"%string = Spec.above
      <-> (m.(response_latency) >? m.(response_latency_baseline))%float = true)
  /\ (forall attention gesture gaze latency,
        Spec.status (to_dict (BehavioralMetrics_init 75.0 attention gesture gaze latency))
          "eye_contact_duration"%string = Spec.above).
Proof.
  cbv zeta. unfold Spec.status, to_dict. cbn [getitem assoc String.eqb Ascii.eqb Bool.eqb].
  destruct (m.(eye_contact_duration) <? m.(eye_contact_baseline))%float,
           (m.(gesture_frequency) <? m.(gesture_frequency_baseline))%float,
           (m.(social_gaze) <? m.(social_gaze_baseline))%float,
           (m.(attention_shifts) >? m.(attention_shifts_baseline))%float,
           (m.(response_latency) >? m.(response_latency_baseline))%float;
    repeat split; intros; try reflexivity; try discriminate.
Qed.

(** The scenario of the specification: 225 of 300 frames with eye contact
    give 75.0, which the report shows as above_baseline. *)
Example status_at_baseline_scenario :
  let percentage := round1 (float_of_int 225 / float_of_int 300 * 100)%float in
  percentage = 75.0%float
  /\ Spec.status (to_dict (BehavioralMetrics_init percentage 0 0 0 0))
       "eye_contact_duration"%string = Spec.above.
Proof. vm_compute. split; reflexivity. Qed.

(** C9. The indicator section of a report does not depend on the metrics:
    [to_dict] always emits the five categories eye_gaze_patterns,
    social_engagement, environmental_response, repetitive_behaviors and
    communication_patterns, all true, so any two metrics values have the
    same section, in [to_dict] and in the report [build_report] assembles. *)
Theorem behavioral_indicators_constant (m1 m2 : BehavioralMetrics) :
  getitem (to_dict m1) "behavioral_indicators" = Some Spec.indicator_categories
  /\ getitem (to_dict m1) "behavioral_indicators"
     = getitem (to_dict m2) "behavioral_indicators"
  /\ (forall report1 report2 section1 section2,
        getitem (build_report m1) "metrics" = Some report1 ->
        getitem (build_report m2) "metrics" = Some report2 ->
        getitem report1 "behavioral_indicators" = section1 ->
        getitem report2 "behavioral_indicators" = section2 ->
        section1 = Some Spec.indicator_categories /\ section1 = section2)
  /\ (exists report1, getitem (build_report m1) "metrics" = Some report1).
Proof.
  split; [reflexivity | split; [reflexivity | split]].
  - intros r1 r2 s1 s2. unfold build_report.
    destruct (calculate_risk_score m1), (calculate_risk_score m2).
    cbn [getitem assoc String.eqb Ascii.eqb Bool.eqb].
    intros H1 H2 <- <-. injection H1 as <-. injection H2 as <-.
    split; reflexivity.
  - unfold build_report. destruct (calculate_risk_score m1).
    eexists. reflexivity.
Qed.

(** ** Eye contact *)

(** C10. A frame with landmarks has a gaze point, the midpoint of its two
    iris landmarks, and the eye-contact signal is true exactly when the x
    coordinate of that point lies strictly between 0.4 and 0.6 and its y
    coordinate strictly between 0.3 and 0.7; without landmarks there is no
    gaze point and the signal is false. *)
Theorem detect_eye_contact_spec
    (lms : list MockLandmark.t) (left_iris right_iris : MockLandmark.t)
    (H468 : nth_error lms 468 = Some left_iris)
    (H473 : nth_error lms 473 = Some right_iris) :
  let '(gaze_x, gaze_y) := gaze_point left_iris right_iris in
  (exists signal, detect_eye_contact (Some lms) = Ok signal
     /\ (signal = true <->
         (0.4 <? gaze_x)%float = true /\ (gaze_x <? 0.6)%float = true
         /\ (0.3 <? gaze_y)%float = true /\ (gaze_y <? 0.7)%float = true))
  /\ detect_eye_contact None = Ok false
  /\ detect_eye_contact (Some []) = Ok false.
Proof.
  unfold gaze_point. split; [| split; reflexivity].
  unfold detect_eye_contact, index.
  destruct lms as [| l0 tl]; [discriminate |].
  rewrite H468, H473. eexists. split; [reflexivity |].
  rewrite !andb_true_iff. tauto.
Qed.

Lemma detect_eye_contact_spec_witness :
  let lms := setitem (setitem (repeat MockLandmark.default 478) 468
                        (MockLandmark.make 0.45 0.5 0)) 473
                     (MockLandmark.make 0.55 0.5 0) in
  exists signal, detect_eye_contact (Some lms) = Ok signal /\ signal = true.
Proof.
  intros lms.
  destruct (detect_eye_contact_spec lms (MockLandmark.make 0.45 0.5 0)
              (MockLandmark.make 0.55 0.5 0) eq_refl eq_refl)
    as [[signal [Hrun Hiff]] _].
  exists signal. split; [exact Hrun |].
  apply Hiff. vm_compute. repeat split; reflexivity.
Defined.

(** ** Attention shifts *)



(** [detect_attention_shift] never raises; it answers from the remembered
    point and remembers the current one. *)
Lemma detect_attention_shift_run (current : float * float) (w : World) :
  detect_attention_shift current w =
  (Ok match w.(self).(previous_gaze) with
      | None => false
      | Some previous => Spec.shift_between previous current
      end,
   Spec.remember current w).
Proof.
  unfold detect_attention_shift, bind, get_self.
  destruct (previous_gaze (self w)); reflexivity.
Qed.

(** The face part of an iteration on landmarks that contain both iris
    entries. *)
Lemma process_face_run (lms : list MockLandmark.t)
    (left_iris right_iris : MockLandmark.t) (c : Counters.t) (w : World) :
  nth_error lms 468 = Some left_iris ->
  nth_error lms 473 = Some right_iris ->
  exists eye_contact social,
    detect_eye_contact (Some lms) = Ok eye_contact
    /\ calculate_social_gaze (Some lms) = Ok social
    /\ process_face (Some lms) c w =
       (Ok (Counters.make
              (if eye_contact then Counters.eye_contact_frames c + 1
               else Counters.eye_contact_frames c)
              (if match w.(self).(previous_gaze) with
                  | None => false
                  | Some previous =>
                      Spec.shift_between previous (gaze_point left_iris right_iris)
                  end
               then Counters.attention_shifts c + 1
               else Counters.attention_shifts c)
              (Counters.gestures c)
              (if social then Counters.social_gaze_frames c + 1
               else Counters.social_gaze_frames c)),
        Spec.remember (gaze_point left_iris right_iris) w).
Proof.
  intros H468 H473.
  destruct lms as [| l0 tl]; [discriminate |].
  unfold process_face, detect_eye_contact, calculate_social_gaze, index.
  rewrite H468, H473. do 2 eexists. split; [reflexivity | split; [reflexivity |]].
  unfold bind at 1. unfold lift at 1.
  unfold bind at 1. unfold lift at 1.
  unfold bind at 1. unfold lift at 1.
  unfold bind at 1. rewrite detect_attention_shift_run.
  reflexivity.
Qed.

(** ** The frame loop *)

(** The hand part of an iteration: with no hands detector it reads one
    random number and counts a gesture when the number exceeds 0.7. *)
Lemma process_hands_run (c : Counters.t) (m : AutismScreeningModel)
    (stream : nat -> float) (k : nat) :
  m.(hands_detector) = None ->
  process_hands c (mkWorld m (mkRng stream k)) =
  (Ok (Counters.make (Counters.eye_contact_frames c) (Counters.attention_shifts c)
         (Counters.gestures c + if (stream k >? 0.7)%float then 1 else 0)
         (Counters.social_gaze_frames c)),
   mkWorld m (mkRng stream (S k))).
Proof.
  intros Hnone. unfold process_hands, bind, get_self, random, ret. cbn.
  rewrite Hnone. cbn.
  destruct (0.7 <? stream k)%float; [reflexivity |].
  destruct c; cbn. rewrite !Z.add_0_r. reflexivity.
Qed.

(** Landmarks always carry both iris entries, and building them reads
    [Spec.landmark_draws] random numbers. *)
Lemma frame_face_landmarks_run (frame : Frame) (m : AutismScreeningModel)
    (stream : nat -> float) (k : nat) :
  exists found,
    frame_face_landmarks frame (mkWorld m (mkRng stream k)) =
    (Ok found, mkWorld m (mkRng stream (Spec.landmark_draws frame + k)))
    /\ match found with
       | None => frame.(faces) = []
       | Some lms =>
           exists left_iris right_iris,
             nth_error lms 468 = Some left_iris
             /\ nth_error lms 473 = Some right_iris
             /\ (frame.(eyes) <> [] ->
                 Spec.detected_gaze frame = Some (gaze_point left_iris right_iris))
       end.
Proof.
  unfold frame_face_landmarks, Spec.landmark_draws, Spec.detected_gaze.
  destruct (faces frame) as [| face others].
  - exists None. split; reflexivity.
  - destruct (eyes frame) as [| e1 [| e2 rest]].
    + eexists (Some _). split; [reflexivity |].
      do 2 eexists. split; [reflexivity | split; [reflexivity |]].
      intros Habs. contradiction.
    + eexists (Some _). split; [reflexivity |].
      do 2 eexists. split; [reflexivity | split; [reflexivity |]].
      intros _. reflexivity.
    + eexists (Some _). split; [reflexivity |].
      do 2 eexists. split; [reflexivity | split; [reflexivity |]].
      intros _. reflexivity.
Qed.

(** One iteration of the frame loop never raises.  It reads the landmark
    draws and one gesture draw, moves each counter by at most one, and
    leaves the model unchanged except for the remembered gaze point. *)
Lemma process_frame_run (frame : Frame) (c : Counters.t)
    (m : AutismScreeningModel) (stream : nat -> float) (k : nat) :
  m.(hands_detector) = None ->
  exists c' m',
    process_frame frame c (mkWorld m (mkRng stream k)) =
    (Ok c', mkWorld m' (mkRng stream (S (Spec.landmark_draws frame + k))))
    /\ m'.(hands_detector) = None
    /\ m'.(fps) = m.(fps)
    /\ Counters.gestures c' = Counters.gestures c
         + (if (stream (Spec.landmark_draws frame + k)%nat >? 0.7)%float then 1 else 0)
    /\ Counters.eye_contact_frames c <= Counters.eye_contact_frames c'
         <= Counters.eye_contact_frames c + 1
    /\ Counters.social_gaze_frames c <= Counters.social_gaze_frames c'
         <= Counters.social_gaze_frames c + 1
    /\ Counters.attention_shifts c <= Counters.attention_shifts c'
         <= Counters.attention_shifts c + 1
    /\ (frame.(faces) = [] ->
        m'.(previous_gaze) = m.(previous_gaze)
        /\ Counters.attention_shifts c' = Counters.attention_shifts c)
    /\ (forall g, Spec.detected_gaze frame = Some g ->
        m'.(previous_gaze) = Some g
        /\ Counters.attention_shifts c' = Counters.attention_shifts c
             + if match m.(previous_gaze) with
                  | None => false
                  | Some previous => Spec.shift_between previous g
                  end then 1 else 0).
Proof.
  intros Hnone. unfold process_frame.
  destruct (frame_face_landmarks_run frame m stream k) as [found [Hrun Hfound]].
  unfold bind at 1. rewrite Hrun.
  destruct found as [lms |].
  - destruct Hfound as [left_iris [right_iris [H468 [H473 Hgaze]]]].
    destruct (process_face_run lms left_iris right_iris c
                (mkWorld m (mkRng stream (Spec.landmark_draws frame + k))) H468 H473)
      as [eye_contact [social [_ [_ Hface]]]].
    unfold bind. rewrite Hface. unfold Spec.remember, set_previous_gaze. cbn [snd self np_random].
    rewrite process_hands_run by exact Hnone.
    do 2 eexists. split; [reflexivity |].
    cbn [hands_detector fps previous_gaze Counters.gestures
         Counters.eye_contact_frames Counters.social_gaze_frames
         Counters.attention_shifts].
    repeat split; try reflexivity; try assumption;
      try (destruct eye_contact; lia); try (destruct social; lia);
      try (destruct (match previous_gaze m with None => false | Some _ => _ end); lia);
      try match goal with
          | Hf : faces frame = [] |- _ =>
              exfalso; unfold frame_face_landmarks in Hrun;
              rewrite Hf in Hrun; discriminate
          end;
      match goal with
      | Hg : Spec.detected_gaze frame = Some _ |- _ =>
          assert (Heyes : eyes frame <> [])
            by (unfold Spec.detected_gaze in Hg;
                destruct (faces frame); [discriminate |];
                destruct (eyes frame); discriminate);
          rewrite (Hgaze Heyes) in Hg; injection Hg as <-
      end; try reflexivity;
      destruct (match previous_gaze m with None => false | Some _ => _ end); lia.
  - unfold bind, process_face, ret.
    rewrite process_hands_run by exact Hnone.
    do 2 eexists. split; [reflexivity |].
    cbn [Counters.gestures Counters.eye_contact_frames
         Counters.social_gaze_frames Counters.attention_shifts].
    repeat split; try reflexivity; try assumption; try lia;
      match goal with
      | Hg : Spec.detected_gaze frame = Some _ |- _ =>
          unfold Spec.detected_gaze in Hg; rewrite Hfound in Hg; discriminate
      end.
Qed.

(** The frame loop never raises: it returns the counters, each moved by at
    most the number of frames, the gesture counter by the number of gesture
    draws above 0.7. *)
Lemma process_frames_run (frames : list Frame) :
  forall (c : Counters.t) (m : AutismScreeningModel) (stream : nat -> float) (k : nat),
  m.(hands_detector) = None ->
  exists c' m',
    process_frames frames c (mkWorld m (mkRng stream k)) =
    (Ok c', mkWorld m' (mkRng stream (Spec.cursor_after k frames)))
    /\ m'.(hands_detector) = None
    /\ m'.(fps) = m.(fps)
    /\ Counters.gestures c' = Counters.gestures c + Spec.gesture_count stream k frames
    /\ Counters.eye_contact_frames c <= Counters.eye_contact_frames c'
         <= Counters.eye_contact_frames c + Z.of_nat (List.length frames)
    /\ Counters.social_gaze_frames c <= Counters.social_gaze_frames c'
         <= Counters.social_gaze_frames c + Z.of_nat (List.length frames)
    /\ Counters.attention_shifts c <= Counters.attention_shifts c'
         <= Counters.attention_shifts c + Z.of_nat (List.length frames).
Proof.
  induction frames as [| frame rest IH]; intros c m stream k Hnone.
  - exists c, m. cbn. repeat split; try reflexivity; try assumption; lia.
  - destruct (process_frame_run frame c m stream k Hnone)
      as [c1 [m1 [Hrun [Hnone1 [Hfps1 [Hg1 [He1 [Hs1 [Ha1 _]]]]]]]]].
    destruct (IH c1 m1 stream (S (Spec.landmark_draws frame + k)) Hnone1)
      as [c2 [m2 [Hrun2 [Hnone2 [Hfps2 [Hg2 [He2 [Hs2 Ha2]]]]]]]].
    exists c2, m2. cbn [process_frames]. unfold bind. rewrite Hrun, Hrun2.
    cbn [Spec.cursor_after Spec.gesture_count List.length].
    rewrite Nat2Z.inj_succ.
    repeat split; try reflexivity; try assumption; try congruence; lia.
Qed.




(** C3 fails on a model that has processed a video before.
    [process_video] starts its four counters afresh on every call, and
    [preprocess_video] overwrites the recorded rate and frame count, but
    [previous_gaze] is set to [None] only by the constructor: the first
    frame of a video is compared with the last gaze point of the video
    processed before it.  Three frames of one and the same gaze point give
    0 attention shifts per minute on a fresh model, and 200 per minute (one
    counted shift in 0.005 minutes) on the model that has processed a
    one-frame video looking elsewhere; the risk level moves from Low to
    Medium. *)
Example previous_gaze_outlives_the_video :
  let earlier := mkCapture 10 [Fixtures.averted] in
  let video := mkCapture 10 [Fixtures.centered; Fixtures.centered; Fixtures.centered] in
  let fresh := Fixtures.fresh 0.5 in
  let used := snd (process_video earlier fresh) in
  Forall (fun frame => Spec.detected_gaze frame = Some (0.5, 0.375)%float)
    video.(cap_frames)
  /\ fresh.(self).(previous_gaze) = None
  /\ used.(self).(previous_gaze) = Spec.detected_gaze Fixtures.averted
  /\ (exists c w', process_frames video.(cap_frames) Counters.zero fresh = (Ok c, w')
                   /\ Counters.attention_shifts c = 0)
  /\ (exists c w', process_frames video.(cap_frames) Counters.zero used = (Ok c, w')
                   /\ Counters.attention_shifts c = 1)
  /\ (exists metrics, fst (process_video video fresh) = Ok metrics
                      /\ metrics.(attention_shifts) = 0%float
                      /\ fst (calculate_risk_score metrics) = "Low Risk"%string)
  /\ (exists metrics, fst (process_video video used) = Ok metrics
                      /\ metrics.(attention_shifts) = 200%float
                      /\ fst (calculate_risk_score metrics) = "Medium Risk"%string).
Proof.
  cbv zeta. split.
  { repeat (apply Forall_cons; [reflexivity |]). apply Forall_nil. }
  split; [reflexivity |]. split; [vm_compute; reflexivity |].
  split; [do 2 eexists; split; [vm_compute; reflexivity | reflexivity] |].
  split; [do 2 eexists; split; [vm_compute; reflexivity | reflexivity] |].
  split; eexists; (split; [vm_compute; reflexivity |]); split; vm_compute; reflexivity.
Qed.

(** ** Gestures *)

(** The frame loop does not look at the landmarks of a hand detector. *)
Lemma process_frames_ignores_hands
    (report : Frame -> option (list MockLandmark.t)) (frames : list Frame) :
  forall c w,
    process_frames (map (Spec.with_hands report) frames) c w = process_frames frames c w.
Proof.
  induction frames as [| frame rest IH]; intros c w; [reflexivity |].
  cbn [map process_frames]. unfold bind.
  change (process_frame (Spec.with_hands report frame) c w) with (process_frame frame c w).
  destruct (process_frame frame c w) as [[c1 | e] w1]; [apply IH | reflexivity].
Qed.

(** C4, as the code has it.  The model is built without a hands detector,
    and the gesture signal of a frame is then a random draw: the frame counts
    as a gesture exactly when its number from [np.random.random()] exceeds
    0.7.  Over a whole video the gesture counter is the number of such
    draws; it is the same for any answers a hand detector would give on the
    frames, and it is a function of the detections and of the stream of
    random numbers. *)
Theorem gestures_follow_random_draws (frames : list Frame) (c : Counters.t)
    (m : AutismScreeningModel) (stream : nat -> float) (k : nat)
    (Hnone : m.(hands_detector) = None) :
  process_hands c (mkWorld m (mkRng stream k)) =
    (Ok (Counters.make (Counters.eye_contact_frames c) (Counters.attention_shifts c)
           (Counters.gestures c + if (stream k >? 0.7)%float then 1 else 0)
           (Counters.social_gaze_frames c)),
     mkWorld m (mkRng stream (S k)))
  /\ exists c' w',
      process_frames frames c (mkWorld m (mkRng stream k)) = (Ok c', w')
      /\ Counters.gestures c' = Counters.gestures c + Spec.gesture_count stream k frames
      /\ forall report,
           process_frames (map (Spec.with_hands report) frames) c
             (mkWorld m (mkRng stream k)) = (Ok c', w').
Proof.
  split; [apply process_hands_run; exact Hnone |].
  destruct (process_frames_run frames c m stream k Hnone)
    as [c' [m' [Hrun [_ [_ [Hgest _]]]]]].
  exists c'. eexists. split; [exact Hrun | split; [exact Hgest |]].
  intros report. rewrite process_frames_ignores_hands. exact Hrun.
Qed.

Lemma gestures_follow_random_draws_witness :
  exists c' w',
    process_frames [mkFrame [] [] None; mkFrame [] [] None] Counters.zero
      (mkWorld AutismScreeningModel_init (mkRng (fun n => if Nat.eqb n 0 then 0.9%float else 0.1%float) 0))
    = (Ok c', w')
    /\ Counters.gestures c' = 1.
Proof.
  destruct (gestures_follow_random_draws [mkFrame [] [] None; mkFrame [] [] None]
              Counters.zero AutismScreeningModel_init
              (fun n => if Nat.eqb n 0 then 0.9%float else 0.1%float) 0%nat eq_refl)
    as [_ [c' [w' [Hrun [Hgest _]]]]].
  exists c', w'. split; [exact Hrun |]. rewrite Hgest. vm_compute. reflexivity.
Defined.

(** The claim of C4 fails on the code: on one and the same video, whose
    only frame shows a pointing hand, a run whose draw is 0.1 counts no
    gesture and a run whose draw is 0.9 counts one, so that the gesture
    frequencies of the two runs differ; and a frame without any hand counts
    as a gesture when the draw is 0.9. *)
Lemma gesture_count_not_from_detector :
  let frame := mkFrame [] [] (Some Fixtures.pointing_hand) in
  let no_hand := mkFrame [] [] None in
  let run frame u :=
    fst (process_video (mkCapture 30 [frame])
           (mkWorld AutismScreeningModel_init (mkRng (fun _ => u) 0))) in
  detect_gestures frame.(hand_landmarks) = Ok true
  /\ detect_gestures no_hand.(hand_landmarks) = Ok false
  /\ (exists low high,
        run frame 0.1%float = Ok low /\ run frame 0.9%float = Ok high
        /\ low.(gesture_frequency) = 0%float
        /\ high.(gesture_frequency) = 1800%float
        /\ (low.(gesture_frequency) <? high.(gesture_frequency))%float = true)
  /\ (exists high, run no_hand 0.9%float = Ok high
        /\ high.(gesture_frequency) = 1800%float).
Proof.
  cbv zeta. split; [reflexivity | split; [reflexivity | split]].
  - eexists. eexists. split; [vm_compute; reflexivity |].
    split; [vm_compute; reflexivity |]. cbn [gesture_frequency BehavioralMetrics_init].
    repeat split; vm_compute; reflexivity.
  - eexists. split; [vm_compute; reflexivity |]. vm_compute. reflexivity.
Qed.

(** ** Response latency *)

(** A float that compares equal to zero is one of the two zeros. *)
Lemma eqb_zero_cases (x : float) :
  (x =? 0)%float = true -> exists s, Prim2SF x = S754_zero s.
Proof.
  rewrite FloatAxioms.eqb_spec.
  replace (Prim2SF 0) with (S754_zero false) by (vm_compute; reflexivity).
  destruct (Prim2SF x) as [s | s | | s mx ex]; try discriminate.
  - intros _. exists s. reflexivity.
  - destruct s; discriminate.
  - destruct s; discriminate.
Qed.

(** With a capture rate of zero the window bound [int(fps * 5)] is 0. *)
Lemma int_of_float_mul5_zero (x : float) :
  (x =? 0)%float = true -> int_of_float (x * 5) = Ok 0.
Proof.
  intros Hzero. destruct (eqb_zero_cases x Hzero) as [s Hs].
  unfold int_of_float. rewrite FloatAxioms.mul_spec, Hs.
  replace (Prim2SF 5) with (S754_finite false 5629499534213120 (-50))
    by (vm_compute; reflexivity).
  reflexivity.
Qed.

(** The mock landmarks of one latency iteration read four numbers, and the
    eye-contact test on them is [Spec.mock_eye_contact]. *)
Lemma mock_iris_landmarks_run (m : AutismScreeningModel) (stream : nat -> float) (k : nat) :
  exists lms,
    mock_iris_landmarks (mkWorld m (mkRng stream k)) =
    (Ok lms, mkWorld m (mkRng stream (4 + k)))
    /\ detect_eye_contact (Some lms) = Ok (Spec.mock_eye_contact stream k).
Proof.
  unfold mock_iris_landmarks, random_landmark, uniform, random, bind, ret.
  cbn [self np_random draws cursor fst snd].
  eexists. split; reflexivity.
Qed.

Lemma first_eye_contact_run (window : list Frame) :
  forall (idx : Z) (m : AutismScreeningModel) (stream : nat -> float) (k : nat),
  (m.(fps) =? 0)%float = false ->
  first_eye_contact idx window (mkWorld m (mkRng stream k)) =
  (Ok (option_map (fun i => (float_of_int i / m.(fps))%float)
         (Spec.first_mock_contact stream k idx (List.length window))),
   mkWorld m (mkRng stream (Spec.latency_cursor stream k (List.length window)))).
Proof.
  induction window as [| frame rest IH]; intros idx m stream k Hfps; [reflexivity |].
  cbn [first_eye_contact List.length Spec.first_mock_contact Spec.latency_cursor].
  destruct (mock_iris_landmarks_run m stream k) as [lms [Hrun Hcontact]].
  unfold bind at 1. rewrite Hrun.
  unfold bind at 1. unfold lift at 1. rewrite Hcontact.
  destruct (Spec.mock_eye_contact stream k).
  - unfold bind, get_self, lift, truediv, ret. cbn [self fps]. rewrite Hfps. reflexivity.
  - apply IH. exact Hfps.
Qed.

(** The run of [calculate_response_latency] on a window bound that is not
    negative: the result and the cursor of the random stream after it. *)
Lemma calculate_response_latency_run (frames : list Frame)
    (m : AutismScreeningModel) (stream : nat -> float) (k : nat) (bound : Z)
    (Hbound : int_of_float (m.(fps) * 5) = Ok bound)
    (Hpos : 0 <= bound) :
  let window := firstn (Z.to_nat bound) frames in
  calculate_response_latency frames (mkWorld m (mkRng stream k)) =
    (Ok match Spec.first_mock_contact stream k 0 (List.length window) with
        | Some idx => (float_of_int idx / m.(fps))%float
        | None => 3.0%float
        end,
     mkWorld m (mkRng stream (Spec.latency_cursor stream k (List.length window)))).
Proof.
  intros window.
  assert (Hslice : slice_to frames bound = window).
  { unfold slice_to, window. destruct (Z.ltb_spec bound 0); [lia |].
    destruct (Z.le_gt_cases bound (Z.of_nat (List.length frames))).
    - rewrite Z.min_l by lia. reflexivity.
    - rewrite Z.min_r by lia. rewrite Nat2Z.id.
      rewrite firstn_all, firstn_all2 by lia. reflexivity. }
  unfold calculate_response_latency, bind, get_self, lift. cbn [self fps].
  rewrite Hbound, Hslice.
  destruct (m.(fps) =? 0)%float eqn:Hfps.
  - rewrite (int_of_float_mul5_zero _ Hfps) in Hbound. injection Hbound as <-.
    subst window. cbn. reflexivity.
  - rewrite first_eye_contact_run by exact Hfps.
    destruct (Spec.first_mock_contact stream k 0 (List.length window)); reflexivity.
Qed.

(** C5, as the code has it.  [calculate_response_latency] looks at the
    first [int(fps * 5)] sampled frames; for each one it draws mock iris
    landmarks at random (the detections of the frame are not consulted) and
    applies the eye-contact test to them.  It returns [idx / fps] for the
    first index that passes, and the default 3.0 when none does; when the
    capture rate is zero the window is empty and the result is 3.0. *)
Theorem calculate_response_latency_spec (frames : list Frame)
    (m : AutismScreeningModel) (stream : nat -> float) (k : nat) (bound : Z)
    (Hbound : int_of_float (m.(fps) * 5) = Ok bound)
    (Hpos : 0 <= bound) :
  let window := firstn (Z.to_nat bound) frames in
  calculate_response_latency frames (mkWorld m (mkRng stream k)) =
    (Ok match Spec.first_mock_contact stream k 0 (List.length window) with
        | Some idx => (float_of_int idx / m.(fps))%float
        | None => 3.0%float
        end,
     mkWorld m (mkRng stream (Spec.latency_cursor stream k (List.length window))))
  /\ ((m.(fps) =? 0)%float = true ->
      calculate_response_latency frames (mkWorld m (mkRng stream k)) =
      (Ok 3.0%float, mkWorld m (mkRng stream k))).
Proof.
  intros window.
  split; [exact (calculate_response_latency_run frames m stream k bound Hbound Hpos) |].
  intros Hfps.
  rewrite (calculate_response_latency_run frames m stream k bound Hbound Hpos).
  rewrite (int_of_float_mul5_zero _ Hfps) in Hbound. injection Hbound as <-.
  reflexivity.
Qed.

Lemma calculate_response_latency_spec_witness :
  calculate_response_latency (repeat Fixtures.empty 3) (Fixtures.fresh 0.5) =
  (Ok 0%float, mkWorld AutismScreeningModel_init (mkRng (fun _ => 0.5%float) 4)).
Proof.
  exact (proj1 (calculate_response_latency_spec (repeat Fixtures.empty 3)
                  AutismScreeningModel_init (fun _ => 0.5%float) 0%nat 150
                  eq_refl ltac:(lia))).
Defined.

(** The claim of C5 fails on the code.  In a one-frame video at 30 frames
    per second whose frame shows eye contact, the first eye-contact frame
    has index 0, yet the latency is the default 3.0 when the random mock
    gaze of the latency loop misses the box; and in a video without any face
    the latency is 0.0 when the random mock gaze hits the box. *)
Lemma latency_not_from_eye_contact_signal :
  (exists lms m,
     fst (frame_face_landmarks Fixtures.centered (Fixtures.fresh 0)) = Ok (Some lms)
     /\ detect_eye_contact (Some lms) = Ok true
     /\ fst (process_video (mkCapture 30 [Fixtures.centered]) (Fixtures.fresh 0)) = Ok m
     /\ m.(eye_contact_duration) = 100%float
     /\ m.(response_latency) = 3.0%float)
  /\ (exists m,
     fst (process_video (mkCapture 30 [Fixtures.empty]) (Fixtures.fresh 0.5)) = Ok m
     /\ m.(eye_contact_duration) = 0%float
     /\ m.(response_latency) = 0%float).
Proof.
  split.
  - eexists. eexists. split; [vm_compute; reflexivity |].
    split; [vm_compute; reflexivity |].
    split; [vm_compute; reflexivity |]. split; reflexivity.
  - eexists. split; [vm_compute; reflexivity |]. split; reflexivity.
Qed.

(** C8 fails on the code for a negative capture rate.  The window
    [frames[:int(fps * 5)]] then drops the last frames instead of being
    empty, and a hit at index 1 gives the latency [1 / fps], a negative
    number: with 7 frames at a rate of -1 the reported response latency is
    -1.0. *)
Example negative_rate_negative_latency :
  exists m,
    fst (process_video (mkCapture (-1) (repeat Fixtures.empty 7))
           (Fixtures.fresh_switch 11 0 0.5)) = Ok m
    /\ m.(response_latency) = (-1)%float
    /\ (m.(response_latency) <? 0)%float = true.
Proof.
  eexists. split; [vm_compute; reflexivity |]. split; reflexivity.
Qed.

(** ** Which exceptions the pipeline raises *)

Section RaisesOnly.
Context (P : exn -> Prop).

Lemma raises_only_ret {A : Type} (a : A) : Spec.raises_only P (ret a).
Proof. intros w e w' H. discriminate. Qed.

Lemma raises_only_lift {A : Type} (r : result A) :
  (forall e, r = Raise e -> P e) -> Spec.raises_only P (lift r).
Proof. intros Hr w e w' H. injection H as H _. auto. Qed.

Lemma raises_only_bind {A B : Type} (c : M A) (k : A -> M B) :
  Spec.raises_only P c -> (forall a, Spec.raises_only P (k a)) ->
  Spec.raises_only P (bind c k).
Proof.
  intros Hc Hk w e w'. unfold bind.
  destruct (c w) as [[a | e1] w1] eqn:Hrun.
  - apply Hk.
  - intros H. injection H as <- _. exact (Hc w e1 w1 Hrun).
Qed.

Lemma raises_only_get_self : Spec.raises_only P get_self.
Proof. intros w e w' H. discriminate. Qed.

Lemma raises_only_set_fps v : Spec.raises_only P (set_fps v).
Proof. intros w e w' H. discriminate. Qed.

Lemma raises_only_set_frame_count n : Spec.raises_only P (set_frame_count n).
Proof. intros w e w' H. discriminate. Qed.

Lemma raises_only_set_previous_gaze g : Spec.raises_only P (set_previous_gaze g).
Proof. intros w e w' H. discriminate. Qed.

Lemma raises_only_random : Spec.raises_only P random.
Proof. intros w e w' H. discriminate. Qed.
End RaisesOnly.

Create HintDb raises.
#[local] Hint Resolve raises_only_ret raises_only_get_self raises_only_set_fps
  raises_only_set_frame_count raises_only_set_previous_gaze raises_only_random
  : raises.

(** Breaks a computation into its steps. *)
Ltac raises_step :=
  match goal with
  | |- Spec.raises_only _ (bind _ _) => apply raises_only_bind; [| intros ?]
  | |- Spec.raises_only _ (match ?x with _ => _ end) => destruct x
  | |- Spec.raises_only _ (lift _) => apply raises_only_lift
  | |- Spec.raises_only _ _ => solve [auto with raises]
  end.

Lemma index_raises {A : Type} (xs : list A) (i : nat) (e : exn) :
  index xs i = Raise e -> e = IndexError.
Proof. unfold index. destruct (nth_error xs i); congruence. Qed.

Lemma detect_eye_contact_raises lms e :
  detect_eye_contact lms = Raise e -> e = IndexError.
Proof.
  unfold detect_eye_contact. destruct lms as [[| l0 tl] |]; try discriminate.
  destruct (index (l0 :: tl) 468) eqn:H1, (index (l0 :: tl) 473) eqn:H2;
    try discriminate; intros H; injection H as <-;
    eauto using index_raises.
Qed.

Lemma calculate_social_gaze_raises lms e :
  calculate_social_gaze lms = Raise e -> e = IndexError.
Proof.
  unfold calculate_social_gaze. destruct lms as [[| l0 tl] |]; try discriminate.
  destruct (index (l0 :: tl) 468) eqn:H1, (index (l0 :: tl) 473) eqn:H2;
    try discriminate; intros H; injection H as <-;
    eauto using index_raises.
Qed.

Lemma truediv_raises x y e : truediv x y = Raise e -> e = ZeroDivisionError.
Proof. unfold truediv. destruct (y =? 0)%float; congruence. Qed.

Lemma int_of_float_raises x e :
  int_of_float x = Raise e -> Spec.not_no_frames e.
Proof.
  unfold int_of_float. destruct (Prim2SF x); intros H; try discriminate;
    injection H as <-; discriminate.
Qed.

Lemma video_duration_minutes_raises n rate e :
  video_duration_minutes n rate = Raise e -> e = ZeroDivisionError.
Proof.
  unfold video_duration_minutes. destruct (0 <? rate)%float; [| discriminate].
  destruct (truediv _ _) eqn:H; [discriminate |].
  intros H'. injection H' as <-. eauto using truediv_raises.
Qed.

Lemma not_no_frames_index : Spec.not_no_frames IndexError.
Proof. discriminate. Qed.

Lemma not_no_frames_zero_division : Spec.not_no_frames ZeroDivisionError.
Proof. discriminate. Qed.

#[local] Hint Resolve not_no_frames_index not_no_frames_zero_division : raises.

Lemma random_landmark_raises : Spec.raises_only Spec.not_no_frames random_landmark.
Proof. unfold random_landmark, uniform. repeat raises_step. Qed.

#[local] Hint Resolve random_landmark_raises : raises.

Lemma process_frame_raises frame c :
  Spec.raises_only Spec.not_no_frames (process_frame frame c).
Proof.
  unfold process_frame, frame_face_landmarks, process_face, process_hands,
    detect_attention_shift.
  repeat raises_step;
    intros e' He';
    first [ apply detect_eye_contact_raises in He'
          | apply calculate_social_gaze_raises in He'
          | apply index_raises in He' ];
    subst; auto with raises.
Qed.

Lemma process_frames_raises frames :
  forall c, Spec.raises_only Spec.not_no_frames (process_frames frames c).
Proof.
  induction frames as [| frame rest IH]; intros c; cbn [process_frames].
  - auto with raises.
  - apply raises_only_bind; [apply process_frame_raises | intros c'; apply IH].
Qed.

Lemma first_eye_contact_raises window :
  forall idx, Spec.raises_only Spec.not_no_frames (first_eye_contact idx window).
Proof.
  induction window as [| frame rest IH]; intros idx; cbn [first_eye_contact].
  - auto with raises.
  - unfold mock_iris_landmarks.
    repeat raises_step; try apply IH;
      intros e' He';
      first [ apply detect_eye_contact_raises in He'
            | apply truediv_raises in He' ];
      subst; auto with raises.
Qed.

Lemma calculate_response_latency_raises frames :
  Spec.raises_only Spec.not_no_frames (calculate_response_latency frames).
Proof.
  unfold calculate_response_latency.
  repeat raises_step; try apply first_eye_contact_raises.
  apply int_of_float_raises.
Qed.

(** ** No frames *)

(** What [process_video] does once the frames are sampled. *)
Lemma process_video_after_sampling (cap : VideoCapture) (w w1 : World)
    (frames : list Frame) :
  preprocess_video cap w = (Ok frames, w1) ->
  process_video cap w =
  (if Z.of_nat (List.length frames) =? 0
   then raise Spec.no_frames
   else
     m <- get_self ;;
     minutes <- lift (video_duration_minutes (Z.of_nat (List.length frames)) m.(fps)) ;;
     c <- process_frames frames Counters.zero ;;
     eye_ratio <- lift (truediv (float_of_int (Counters.eye_contact_frames c))
                          (float_of_int (Z.of_nat (List.length frames)))) ;;
     attention_shifts_per_min <-
       lift (truediv (float_of_int (Counters.attention_shifts c)) minutes) ;;
     gestures_per_min <-
       lift (truediv (float_of_int (Counters.gestures c)) minutes) ;;
     gaze_ratio <- lift (truediv (float_of_int (Counters.social_gaze_frames c))
                           (float_of_int (Z.of_nat (List.length frames)))) ;;
     latency <- calculate_response_latency frames ;;
     ret (BehavioralMetrics_init
            (round1 (eye_ratio * 100))
            (round1 attention_shifts_per_min)
            (round1 gestures_per_min)
            (round1 (gaze_ratio * 100))
            (round1 latency))) w1.
Proof.
  intros Hpre. unfold process_video. unfold bind at 1. rewrite Hpre. reflexivity.
Qed.

(** C6. When sampling yields no frame, [process_video] raises the
    no-frames error: the caller gets neither a metrics object nor a report.
    When it yields at least one frame, that error is not raised. *)
Theorem process_video_no_frames (cap : VideoCapture) (w w1 : World)
    (frames : list Frame)
    (Hpre : preprocess_video cap w = (Ok frames, w1)) :
  (List.length frames = 0%nat ->
     process_video cap w = (Raise Spec.no_frames, w1)
     /\ main cap w = (Raise Spec.no_frames, w1))
  /\ (List.length frames <> 0%nat ->
     forall w', process_video cap w <> (Raise Spec.no_frames, w')).
Proof.
  split.
  - intros Hlen.
    assert (Hrun : process_video cap w = (Raise Spec.no_frames, w1)).
    { rewrite (process_video_after_sampling cap w w1 frames Hpre), Hlen. reflexivity. }
    split; [exact Hrun |]. unfold main, bind. rewrite Hrun. reflexivity.
  - intros Hlen w' Hrun.
    rewrite (process_video_after_sampling cap w w1 frames Hpre) in Hrun.
    destruct (Z.eqb_spec (Z.of_nat (List.length frames)) 0) as [Hz | _]; [lia |].
    revert Hrun.
    match goal with
    | |- ?c w1 = _ -> False =>
        assert (Hraises : Spec.raises_only Spec.not_no_frames c)
    end.
    { repeat raises_step;
        try apply process_frames_raises; try apply calculate_response_latency_raises;
        intros e' He';
        first [ apply video_duration_minutes_raises in He'
              | apply truediv_raises in He' ];
        subst; auto with raises. }
    intros Hrun. exact (Hraises w1 Spec.no_frames w' Hrun eq_refl).
Qed.

Lemma process_video_no_frames_witness :
  process_video (mkCapture 30 []) (Fixtures.fresh 0.5)
  = (Raise Spec.no_frames,
     mkWorld (mkModel None None 0 30 None) (mkRng (fun _ => 0.5%float) 0)).
Proof.
  exact (proj1 (proj1 (process_video_no_frames (mkCapture 30 []) (Fixtures.fresh 0.5)
                         _ [] eq_refl) eq_refl)).
Defined.

(** ** The divisor of the rate metrics *)

(** Lengths, indices and counters convert to finite floats, positive
    when the integer is. *)
Lemma float_of_int_sign (z : Z) :
  0 <= z <= maxsize ->
  is_finite_nonneg (Prim2SF (float_of_int z))
  /\ (0 < z -> is_positive (Prim2SF (float_of_int z))).
Proof.
  intros Hz. unfold float_of_int.
  destruct (Z.ltb_spec z 0) as [Hneg | _]; [lia |].
  rewrite of_uint63_spec, Uint63.of_Z_spec.
  rewrite Z.mod_small by (unfold maxsize in Hz; change wB with (2 ^ 63); lia).
  destruct z as [| p | p]; [split; [exact I | lia] | | lia].
  cbn [binary_normalize].
  destruct (binary_round_int p) as [Hfin Hpos]; [unfold maxsize in Hz; lia |].
  split; [exact Hfin | intros _; exact Hpos].
Qed.

(** Converting a nonnegative specification value to a float keeps it
    nonnegative. *)
Lemma SF2Prim_nonneg (r : spec_float) :
  is_nonneg r -> is_nonneg (Prim2SF (SF2Prim r)).
Proof.
  destruct r as [[] | [] | | [] m e]; try contradiction; intros _;
    try exact I.
  cbn [SF2Prim]. rewrite Z_ldexp_spec, of_uint63_spec.
  assert (Hphi : 0 <= to_Z (Uint63.of_Z (Zpos m))) by apply Uint63.to_Z_bounded.
  destruct (to_Z (Uint63.of_Z (Zpos m))) as [| p | p]; [exact I | | lia].
  cbn [binary_normalize].
  assert (Hr := binary_round_nonneg p 0).
  destruct (binary_round prec emax false p 0) as [[] | [] | | [] mx ex];
    try contradiction; try exact I.
  cbn [SFldexp]. apply binary_round_nonneg.
Qed.

(** Rounding to one decimal keeps a nonnegative float nonnegative. *)
Lemma round1_nonneg (x : float) :
  is_nonneg (Prim2SF x) -> is_nonneg (Prim2SF (round1 x)).
Proof.
  intros Hx. unfold round1.
  destruct (Prim2SF x) as [[] | [] | | [] m e] eqn:Hs; try contradiction;
    try (rewrite Hs; exact I).
  destruct (tenths m e) as [| t | t]; try exact I.
  apply SF2Prim_nonneg. apply (div_nonneg (S754_finite false t 0)); exact I.
Qed.

(** The divisor is computed without error and is strictly positive, and
    a count divided by it is a nonnegative number, also after rounding. *)
Lemma video_duration_minutes_positive (n : Z) (rate : float)
    (Hn : 1 <= n <= maxsize) :
  exists d,
    video_duration_minutes n rate = Ok d
    /\ (0 <? d)%float = true
    /\ ((rate >? 0)%float = false -> d = 1e-6%float)
    /\ ((rate >? 0)%float = true ->
        d = if (float_of_int n / (rate * 60) <=? 0)%float then 1e-6%float
            else (float_of_int n / (rate * 60))%float)
    /\ forall count, 0 <= count <= maxsize ->
         exists q,
           truediv (float_of_int count) d = Ok q
           /\ (0 <=? q)%float = true
           /\ (0 <=? round1 q)%float = true.
Proof.
  assert (Hcounts : forall d, is_positive (Prim2SF d) ->
            forall count, 0 <= count <= maxsize ->
            exists q, truediv (float_of_int count) d = Ok q
                      /\ (0 <=? q)%float = true /\ (0 <=? round1 q)%float = true).
  { intros d Hd count Hcount. unfold truediv.
    rewrite (eqb_zero_positive d Hd). eexists. split; [reflexivity |].
    assert (Hq : is_nonneg (Prim2SF (float_of_int count / d))).
    { rewrite FloatAxioms.div_spec. apply div_nonneg; [| exact Hd].
      apply float_of_int_sign. exact Hcount. }
    split; apply leb_zero_nonneg; [exact Hq | apply round1_nonneg; exact Hq]. }
  assert (Heps : is_positive (Prim2SF 1e-6)) by (vm_compute; exact I).
  unfold video_duration_minutes.
  destruct (0 <? rate)%float eqn:Hrate.
  - assert (Hprod : is_positive (Prim2SF (rate * 60)))
      by (apply mul_60_positive; apply ltb_zero_iff_positive; exact Hrate).
    unfold truediv. rewrite (eqb_zero_positive _ Hprod).
    assert (Hraw : is_nonneg (Prim2SF (float_of_int n / (rate * 60)))).
    { rewrite FloatAxioms.div_spec. apply div_nonneg; [| exact Hprod].
      apply float_of_int_sign. lia. }
    eexists. split; [reflexivity |].
    assert (Hd : is_positive
              (Prim2SF (if (float_of_int n / (rate * 60) <=? 0)%float
                        then 1e-6%float else (float_of_int n / (rate * 60))%float))).
    { destruct (float_of_int n / (rate * 60) <=? 0)%float eqn:Hle; [exact Heps |].
      destruct (is_nonneg_cases _ Hraw) as [Hzero | Hpos]; [| exact Hpos].
      apply (leb_zero_iff _ Hraw) in Hzero. congruence. }
    split; [apply ltb_zero_iff_positive; exact Hd |].
    split; [discriminate |]. split; [reflexivity |].
    apply Hcounts. exact Hd.
  - eexists. split; [reflexivity |].
    replace (0.0 <=? 0)%float with true by (vm_compute; reflexivity).
    split; [vm_compute; reflexivity |].
    split; [reflexivity |]. split; [discriminate |].
    apply Hcounts. exact Heps.
Qed.

(** ** Finite rates *)

Lemma float_of_int_mag (z : Z) :
  0 <= z <= maxsize ->
  below 64 (Prim2SF (float_of_int z))
  /\ (0 < z -> above 1 (Prim2SF (float_of_int z))).
Proof.
  intros Hz. unfold float_of_int.
  destruct (Z.ltb_spec z 0) as [Hneg | _]; [lia |].
  rewrite of_uint63_spec, Uint63.of_Z_spec.
  rewrite Z.mod_small by (unfold maxsize in Hz; change wB with (2 ^ 63); lia).
  destruct z as [| p | p]; [split; [exact I | lia] | | lia].
  cbn [binary_normalize].
  destruct (binary_round_int_mag p) as [Hb Ha]; [unfold maxsize in Hz; lia |].
  split; [exact Hb | intros _; exact Ha].
Qed.

Lemma tenths_facts (m : positive) (e : Z) :
  0 <= tenths m e
  /\ (0 <= e -> tenths m e = 10 * Zpos m * 2 ^ e)
  /\ (e < 0 -> tenths m e <= 10 * Zpos m / 2 ^ (- e) + 1).
Proof.
  unfold tenths. destruct (Z.leb_spec 0 e) as [He | He].
  - split; [| split; [reflexivity | lia]].
    apply Z.mul_nonneg_nonneg; [lia | apply Z.pow_nonneg; lia].
  - assert (Hq : 0 <= 10 * Zpos m / 2 ^ (- e))
      by (apply Z.div_pos; [lia | apply Z.pow_pos_nonneg; lia]).
    cbv zeta.
    destruct (2 * ((10 * Z.pos m) mod 2 ^ (- e)) ?= 2 ^ (- e));
      try destruct (Z.even (10 * Z.pos m / 2 ^ (- e))); repeat split; lia.
Qed.

(** Rounding a finite nonnegative float to one decimal gives a finite
    nonnegative float. *)
Lemma round1_below (x : float) (K : Z) :
  below K (Prim2SF x) -> K <= 1010 ->
  below (Z.max (K + 3) 0) (Prim2SF (round1 x)).
Proof.
  intros Hx HK. unfold round1.
  destruct (Prim2SF x) as [[] | [] | | [] m e] eqn:Hs; try contradiction.
  - rewrite Hs. exact I.
  - cbn [below] in Hx.
    destruct (tenths_facts m e) as [Ht0 [Htn Htneg]].
    assert (Hdig := tenths_bounds (tenths m e) m e Ht0 Htn Htneg).
    destruct (tenths m e) as [| t | t]; [exact I | | lia].
    cbn [Zdigits2] in Hdig.
    assert (Hxs : below (Zpos (digits2_pos t) + 0) (S754_finite false t 0))
      by (cbn [below]; lia).
    assert (Hys : above 4 (S754_finite false 10 0)) by (cbn; lia).
    rewrite Prim2SF_SF2Prim by (apply (div_valid (S754_finite false t 0)); exact I).
    apply (below_weaken (Z.max (Zpos (digits2_pos t) + 0 - 4 + 2) (-1073))); [| lia].
    apply div_below; [exact Hxs | exact Hys | lia].
Qed.

(** Unless the capture rate exceeds 1e280, the rates are finite. *)
Lemma rates_finite (n count : Z) (rate : float) :
  1 <= n <= maxsize -> 0 <= count <= maxsize ->
  (1e280 <? rate)%float = false ->
  exists d q,
    video_duration_minutes n rate = Ok d
    /\ truediv (float_of_int count) d = Ok q
    /\ is_finite_nonneg (Prim2SF q)
    /\ is_finite_nonneg (Prim2SF (round1 q)).
Proof.
  intros Hn Hcount Hrate.
  destruct (float_of_int_mag n ltac:(lia)) as [Hnb Hna]. specialize (Hna ltac:(lia)).
  destruct (float_of_int_mag count Hcount) as [Hcb _].
  assert (Hquot : forall d, above (-937) (Prim2SF d) ->
            exists q, truediv (float_of_int count) d = Ok q
                      /\ is_finite_nonneg (Prim2SF q)
                      /\ is_finite_nonneg (Prim2SF (round1 q))).
  { intros d Hd. unfold truediv.
    rewrite (eqb_zero_positive d (above_positive _ _ Hd)).
    eexists. split; [reflexivity |].
    assert (Hq : below 1003 (Prim2SF (float_of_int count / d))).
    { rewrite FloatAxioms.div_spec.
      apply (below_weaken (Z.max (64 - (-937) + 2) (-1073))); [| lia].
      apply div_below; [exact Hcb | exact Hd | lia]. }
    split; [exact (below_finite _ _ Hq) |].
    apply (below_finite (Z.max (1003 + 3) 0)).
    apply round1_below; [exact Hq | lia]. }
  assert (Heps : above (-937) (Prim2SF 1e-6)) by (vm_compute; discriminate).
  unfold video_duration_minutes.
  destruct (0 <? rate)%float eqn:Hpos.
  - apply ltb_zero_iff_positive in Hpos.
    assert (Hprod : is_positive (Prim2SF (rate * 60))) by (apply mul_60_positive; exact Hpos).
    unfold truediv. rewrite (eqb_zero_positive _ Hprod).
    assert (Hrb : below (53 + 878) (Prim2SF rate)).
    { eapply (not_above_below rate 1e280); [| exact Hrate | exact Hpos].
      vm_compute. reflexivity. }
    assert (Hyb : below 938 (Prim2SF (rate * 60))).
    { rewrite FloatAxioms.mul_spec.
      apply (below_weaken (Z.max (53 + 878 + 6 + 1) (-1073))); [| lia].
      apply mul_below; try exact Hrb; try exact Hpos; try apply Prim2SF_valid;
        try (vm_compute; first [exact I | reflexivity | discriminate]); lia. }
    assert (Hd0 : above (1 - 938) (Prim2SF (float_of_int n / (rate * 60)))).
    { rewrite FloatAxioms.div_spec.
      apply div_above; [exact Hna | | exact Hyb | exact Hprod | lia].
      intros Hinf. rewrite Hinf in Hnb. exact Hnb. }
    assert (Hle : (float_of_int n / (rate * 60) <=? 0)%float = false).
    { destruct (float_of_int n / (rate * 60) <=? 0)%float eqn:Hle; [| reflexivity].
      apply leb_zero_iff in Hle;
        [| apply is_positive_nonneg; exact (above_positive _ _ Hd0)].
      rewrite Hle in Hd0. contradiction. }
    eexists. rewrite Hle.
    destruct (Hquot _ Hd0) as [q Hq]. exists q. split; [reflexivity | exact Hq].
  - eexists.
    replace (0.0 <=? 0)%float with true by (vm_compute; reflexivity).
    destruct (Hquot _ Heps) as [q Hq]. exists q. split; [reflexivity | exact Hq].
Qed.

(** ** A successful run of [process_video] *)

Lemma sample_frames_length (frame_skip : Z) (fs : list Frame) :
  forall frame_idx,
    (List.length (sample_frames frame_skip frame_idx fs) <= List.length fs)%nat.
Proof.
  induction fs as [| frame rest IH]; intros frame_idx; cbn [sample_frames List.length].
  - lia.
  - destruct (frame_idx mod frame_skip =? 0); cbn [List.length];
      specialize (IH (frame_idx + 1)); lia.
Qed.

(** Sampling keeps the detectors and the remembered gaze point of the
    model, and records the capture rate. *)
Lemma preprocess_video_run (cap : VideoCapture) (m : AutismScreeningModel)
    (rng : Rng) (frames : list Frame) (w1 : World) :
  preprocess_video cap (mkWorld m rng) = (Ok frames, w1) ->
  (List.length frames <= List.length cap.(cap_frames))%nat
  /\ w1 = mkWorld (mkModel m.(hands_detector) m.(pose_detector)
                     (Z.of_nat (List.length frames)) cap.(cap_fps) m.(previous_gaze))
            rng.
Proof.
  unfold preprocess_video, bind, set_fps, get_self, lift, set_frame_count, ret.
  cbn [self np_random fps hands_detector pose_detector frame_count previous_gaze].
  destruct (int_of_float (cap_fps cap / 10)) as [k0 | e]; [| discriminate].
  intros H. injection H as <- <-.
  split; [apply sample_frames_length | reflexivity].
Qed.

Lemma bind_ok {A B : Type} (c : M A) (k : A -> M B) (w w' : World) (b : B) :
  bind c k w = (Ok b, w') ->
  exists a w1, c w = (Ok a, w1) /\ k a w1 = (Ok b, w').
Proof.
  unfold bind. destruct (c w) as [[a | e] w1]; [| discriminate].
  intros H. exists a, w1. split; [reflexivity | exact H].
Qed.

(** What a successful run of [process_video] returns, for a model
    without hands detector and a video of at most [maxsize] frames. *)
Lemma process_video_run (cap : VideoCapture) (m : AutismScreeningModel)
    (stream : nat -> float) (k : nat) (metrics : BehavioralMetrics) (w' : World) :
  m.(hands_detector) = None ->
  Z.of_nat (List.length cap.(cap_frames)) <= maxsize ->
  process_video cap (mkWorld m (mkRng stream k)) = (Ok metrics, w') ->
  exists (frames : list Frame) (c : Counters.t) (d latency : float) (w2 : World),
    let n := Z.of_nat (List.length frames) in
    1 <= n <= Z.of_nat (List.length cap.(cap_frames))
    /\ n <= maxsize
    /\ video_duration_minutes n cap.(cap_fps) = Ok d
    /\ 0 <= Counters.eye_contact_frames c <= n
    /\ 0 <= Counters.social_gaze_frames c <= n
    /\ 0 <= Counters.attention_shifts c <= n
    /\ 0 <= Counters.gestures c <= n
    /\ Counters.gestures c = Spec.gesture_count stream k frames
    /\ w2.(self).(fps) = cap.(cap_fps)
    /\ calculate_response_latency frames w2 = (Ok latency, w')
    /\ metrics = BehavioralMetrics_init
                   (round1 (float_of_int (Counters.eye_contact_frames c)
                              / float_of_int n * 100))
                   (round1 (float_of_int (Counters.attention_shifts c) / d))
                   (round1 (float_of_int (Counters.gestures c) / d))
                   (round1 (float_of_int (Counters.social_gaze_frames c)
                              / float_of_int n * 100))
                   (round1 latency).
Proof.
  intros Hnone Hlen Hrun.
  destruct (preprocess_video cap (mkWorld m (mkRng stream k))) as [[frames | e] w1] eqn:Hpre;
    [| unfold process_video, bind in Hrun; rewrite Hpre in Hrun; discriminate].
  rewrite (process_video_after_sampling _ _ _ _ Hpre) in Hrun.
  destruct (preprocess_video_run _ _ _ _ _ Hpre) as [Hshort ->].
  destruct (Z.eqb_spec (Z.of_nat (List.length frames)) 0) as [Hz | Hnz]; [discriminate |].
  set (n := Z.of_nat (List.length frames)) in *.
  assert (Hn : 1 <= n <= maxsize) by (unfold n in *; lia).
  destruct (video_duration_minutes_positive n (cap_fps cap) Hn) as [d [Hd [Hdpos _]]].
  unfold bind at 1 in Hrun. unfold get_self at 1 in Hrun. cbn [self fps] in Hrun.
  unfold bind at 1 in Hrun. unfold lift at 1 in Hrun. rewrite Hd in Hrun.
  set (m1 := mkModel (hands_detector m) (pose_detector m) n (cap_fps cap) (previous_gaze m)) in *.
  destruct (process_frames_run frames Counters.zero m1 stream k Hnone)
    as [c [m2 [Hloop [Hnone2 [Hfps2 [Hg [He [Hs Ha]]]]]]]].
  unfold bind at 1 in Hrun. rewrite Hloop in Hrun.
  assert (Hgc : 0 <= Spec.gesture_count stream k frames <= n).
  { clear. unfold n. clearbody n. revert k.
    induction frames as [| frame rest IH]; intros k; cbn [Spec.gesture_count List.length].
    - lia.
    - specialize (IH (S (Spec.landmark_draws frame + k))).
      destruct (0.7 <? stream (Spec.landmark_draws frame + k)%nat)%float; lia. }
  cbn [Counters.zero Counters.gestures Counters.eye_contact_frames
       Counters.social_gaze_frames Counters.attention_shifts] in Hg, He, Hs, Ha.
  fold n in He, Hs, Ha.
  assert (Hnpos : is_positive (Prim2SF (float_of_int n)))
    by (apply float_of_int_sign; lia).
  assert (Hdp : is_positive (Prim2SF d)) by (apply ltb_zero_iff_positive; exact Hdpos).
  unfold bind at 1 in Hrun. unfold lift at 1, truediv at 1 in Hrun.
  rewrite (eqb_zero_positive _ Hnpos) in Hrun.
  unfold bind at 1 in Hrun. unfold lift at 1, truediv at 1 in Hrun.
  rewrite (eqb_zero_positive _ Hdp) in Hrun.
  unfold bind at 1 in Hrun. unfold lift at 1, truediv at 1 in Hrun.
  rewrite (eqb_zero_positive _ Hdp) in Hrun.
  unfold bind at 1 in Hrun. unfold lift at 1, truediv at 1 in Hrun.
  rewrite (eqb_zero_positive _ Hnpos) in Hrun.
  apply bind_ok in Hrun. destruct Hrun as [latency [w3 [Hlat Hret]]].
  unfold ret in Hret. injection Hret as <- <-.
  exists frames, c, d, latency. eexists.
  cbv zeta. fold n.
  split; [unfold n in *; lia |]. split; [lia |]. split; [exact Hd |].
  split; [lia |]. split; [lia |]. split; [lia |]. split; [lia |].
  split; [lia |]. split; [| split; [exact Hlat | reflexivity]].
  cbn [self]. rewrite Hfps2. reflexivity.
Qed.

(** ** The divisor of the rate metrics: the claim *)

Lemma ltb_infinity_finite (x : float) :
  is_finite_nonneg (Prim2SF x) -> (x <? infinity)%float = true.
Proof.
  rewrite FloatAxioms.ltb_spec.
  replace (Prim2SF infinity) with (S754_infinity false) by reflexivity.
  destruct (Prim2SF x) as [[] | [] | | [] ? ?]; cbn; trivial; contradiction.
Qed.



(** The rate metrics of a successful run are nonnegative numbers, finite
    unless the capture rate exceeds 1e280. *)
Corollary process_video_rates (cap : VideoCapture) (m : AutismScreeningModel)
    (stream : nat -> float) (k : nat) (metrics : BehavioralMetrics) (w' : World) :
  m.(hands_detector) = None ->
  Z.of_nat (List.length cap.(cap_frames)) <= maxsize ->
  process_video cap (mkWorld m (mkRng stream k)) = (Ok metrics, w') ->
  (0 <=? metrics.(attention_shifts))%float = true
  /\ (0 <=? metrics.(gesture_frequency))%float = true
  /\ ((1e280 <? cap.(cap_fps))%float = false ->
      (metrics.(attention_shifts) <? infinity)%float = true
      /\ (metrics.(gesture_frequency) <? infinity)%float = true).
Proof.
  intros Hnone Hlen Hrun.
  destruct (process_video_run cap m stream k metrics w' Hnone Hlen Hrun)
    as (frames & c & d & latency & w2 & Hn & Hmax & Hd & _ & _ & Ha & Hg & _ & _ & _ & ->).
  assert (Hframes : 1 <= Z.of_nat (List.length frames) <= maxsize) by lia.
  assert (Hca : 0 <= Counters.attention_shifts c <= maxsize) by lia.
  assert (Hcg : 0 <= Counters.gestures c <= maxsize) by lia.
  destruct (video_duration_minutes_positive _ (cap_fps cap) Hframes)
    as [d' [Hd' [_ [_ [_ Hcounts]]]]].
  assert (d' = d) by congruence. subst d'.
  destruct (Hcounts _ Hca) as [qa [Hqa [_ Hra]]].
  destruct (Hcounts _ Hcg) as [qg [Hqg [_ Hrg]]].
  assert (Hfinite : forall count q, 0 <= count <= maxsize ->
            truediv (float_of_int count) d = Ok q ->
            (1e280 <? cap_fps cap)%float = false ->
            (round1 q <? infinity)%float = true).
  { intros count q Hcount Hq Hrate.
    destruct (rates_finite _ count (cap_fps cap) Hframes Hcount Hrate)
      as [d' [q' [Hd'' [Hq' [_ Hrfin]]]]].
    assert (d' = d) by congruence. subst d'.
    assert (q' = q) by congruence. subst q'.
    apply ltb_infinity_finite. exact Hrfin. }
  assert (Hfa := Hfinite _ _ Hca Hqa). assert (Hfg := Hfinite _ _ Hcg Hqg).
  unfold truediv in Hqa, Hqg.
  destruct (d =? 0)%float; [discriminate |].
  injection Hqa as <-. injection Hqg as <-.
  cbn [attention_shifts gesture_frequency BehavioralMetrics_init].
  split; [exact Hra |]. split; [exact Hrg |].
  intros Hrate. split; [apply (Hfa Hrate) | apply (Hfg Hrate)].
Qed.


(** ** Percentages: rounding does not cross a representable bound *)

Lemma shr_1_inexact (mrs : shr_record) :
  0 <= shr_m mrs -> inexact (shr_1 mrs) = true ->
  inexact mrs = true \/ ~ (2 | shr_m mrs).
Proof.
  destruct mrs as [m r s]. unfold inexact. cbn [shr_m shr_r shr_s]. intros Hm.
  destruct m as [| [p | p |] | p]; cbn [shr_1 shr_r shr_s]; try lia.
  - rewrite orb_false_l. intros H. left. exact H.
  - intros _. right. intros [c Hc]. lia.
  - rewrite orb_false_l. intros H. left. exact H.
  - intros _. right. intros [c Hc]. lia.
Qed.

Lemma divide_pow2_split (a b m : Z) :
  0 <= a -> 0 <= b -> 0 <= m ->
  (2 ^ (a + b) | m) <-> (2 ^ a | m) /\ (2 ^ b | m / 2 ^ a).
Proof.
  intros Ha Hb Hm.
  assert (Hpa : 0 < 2 ^ a) by (apply Z.pow_pos_nonneg; lia).
  assert (Hpb : 0 < 2 ^ b) by (apply Z.pow_pos_nonneg; lia).
  rewrite Z.pow_add_r by lia. split.
  - intros [c Hc]. split.
    + exists (c * 2 ^ b). lia.
    + exists c. subst m. replace (c * (2 ^ a * 2 ^ b)) with (c * 2 ^ b * 2 ^ a) by ring.
      rewrite Z.div_mul by lia. reflexivity.
  - intros [[c Hc] [c' Hc']]. exists c'. subst m.
    rewrite Z.div_mul in Hc' by lia. subst c. ring.
Qed.

Lemma iter_pos_shr_1_inexact (p : positive) :
  forall mrs, 0 <= shr_m mrs ->
    inexact (iter_pos shr_1 p mrs) = true ->
    inexact mrs = true \/ ~ (2 ^ Zpos p | shr_m mrs).
Proof.
  induction p as [p IH | p IH |]; intros mrs Hm; cbn [iter_pos].
  - assert (H1 : 0 <= shr_m (shr_1 mrs)) by (rewrite shr_1_m by lia; apply Z.div_pos; lia).
    assert (H2 : 0 <= shr_m (iter_pos shr_1 p (shr_1 mrs)))
      by (rewrite iter_pos_shr_1_m by lia; apply Z.div_pos; [lia | apply Z.pow_pos_nonneg; lia]).
    intros Hin. replace (Z.pos p~1) with (1 + (Z.pos p + Z.pos p)) by lia.
    destruct (IH _ H2 Hin) as [Hin' | Hnd].
    + destruct (IH _ H1 Hin') as [Hin'' | Hnd].
      * destruct (shr_1_inexact mrs Hm Hin'') as [? | Hnd]; [left; assumption |].
        right. intros Hd. apply divide_pow2_split in Hd; try lia. apply Hnd, Hd.
      * right. intros Hd. apply divide_pow2_split in Hd; try lia.
        destruct Hd as [_ Hd]. apply divide_pow2_split in Hd; try lia.
        -- apply Hnd. rewrite shr_1_m by lia. apply Hd.
        -- apply Z.div_pos; lia.
    + right. intros Hd. apply divide_pow2_split in Hd; try lia.
      destruct Hd as [_ Hd]. apply divide_pow2_split in Hd; try lia.
      * apply Hnd. rewrite iter_pos_shr_1_m, shr_1_m by lia. apply Hd.
      * apply Z.div_pos; lia.
  - assert (H2 : 0 <= shr_m (iter_pos shr_1 p mrs))
      by (rewrite iter_pos_shr_1_m by lia; apply Z.div_pos; [lia | apply Z.pow_pos_nonneg; lia]).
    intros Hin. replace (Z.pos p~0) with (Z.pos p + Z.pos p) by lia.
    destruct (IH _ H2 Hin) as [Hin' | Hnd].
    + destruct (IH _ Hm Hin') as [? | Hnd]; [left; assumption |].
      right. intros Hd. apply divide_pow2_split in Hd; try lia. apply Hnd, Hd.
    + right. intros Hd. apply divide_pow2_split in Hd; try lia.
      apply Hnd. rewrite iter_pos_shr_1_m by lia. apply Hd.
  - apply shr_1_inexact. exact Hm.
Qed.

Lemma shr_record_of_loc_inexact (m : Z) (l : location) :
  inexact (shr_record_of_loc m l) = true -> l <> loc_Exact.
Proof. destruct l as [| []]; cbn; congruence. Qed.

Lemma round_up_inexact (mrs : shr_record) :
  round_nearest_even (shr_m mrs) (loc_of_shr_record mrs) <> shr_m mrs ->
  inexact mrs = true.
Proof.
  destruct mrs as [m [] []]; cbn; intros H; try reflexivity. contradiction.
Qed.

Lemma shr_fexp_inexact (m e : Z) (l : location) :
  0 <= m ->
  inexact (fst (shr_fexp prec emax m e l)) = true ->
  l <> loc_Exact \/ ~ (2 ^ dropped m e | m).
Proof.
  intros Hm. unfold shr_fexp, dropped.
  destruct (fexp64 (Zdigits2 m + e) - e) as [| p | p]; cbn [shr fst].
  - intros H. left. exact (shr_record_of_loc_inexact m l H).
  - intros H.
    destruct (iter_pos_shr_1_inexact p (shr_record_of_loc m l)) as [Hin | Hnd];
      [rewrite shr_record_of_loc_m; exact Hm | exact H | |].
    + left. exact (shr_record_of_loc_inexact m l Hin).
    + right. rewrite shr_record_of_loc_m in Hnd.
      replace (Z.max 0 (Z.pos p)) with (Z.pos p) by lia. exact Hnd.
  - intros H. left. exact (shr_record_of_loc_inexact m l H).
Qed.

(** One rounding, with the reason for rounding up. *)
Lemma bra_round_shape (m e : Z) (l : location) :
  0 <= m ->
  exists m1,
    m / 2 ^ dropped m e <= m1 <= m / 2 ^ dropped m e + 1
    /\ (m1 <> m / 2 ^ dropped m e -> l <> loc_Exact \/ ~ (2 ^ dropped m e | m))
    /\ bra false m e l =
       pack (m1 / 2 ^ dropped m1 (e + dropped m e))
            (e + dropped m e + dropped m1 (e + dropped m e)).
Proof.
  intros Hm. unfold binary_round_aux.
  destruct (shr_fexp_spec m e l Hm) as [Hm1 He1].
  assert (Hin := shr_fexp_inexact m e l Hm).
  destruct (shr_fexp prec emax m e l) as [mrs1 e1] eqn:Hs1.
  cbn [fst snd] in Hm1, He1, Hin.
  set (m1 := round_nearest_even (shr_m mrs1) (loc_of_shr_record mrs1)).
  assert (Hb := round_nearest_even_bounds (shr_m mrs1) (loc_of_shr_record mrs1)).
  fold m1 in Hb.
  assert (Hq : 0 <= m / 2 ^ dropped m e) by (apply div_dropped_nonneg; lia).
  assert (Hm1pos : 0 <= m1) by lia.
  destruct (shr_fexp_spec m1 e1 loc_Exact Hm1pos) as [Hm2 He2].
  destruct (shr_fexp prec emax m1 e1 loc_Exact) as [mrs2 e2] eqn:Hs2.
  cbn [fst snd] in Hm2, He2.
  exists m1. split; [lia |]. split.
  - intros Hne. apply Hin. apply round_up_inexact. fold m1. lia.
  - rewrite Hm2, He2, He1. reflexivity.
Qed.

(** Rounding does not cross a representable bound: a number of value at
    most [mB * 2^eB] rounds to a float of value at most [mB * 2^eB]. *)
Lemma bra_at_most (m e : Z) (l : location) (mB : positive) (eB : Z) :
  0 <= m -> e <= eB -> -1074 <= eB <= 971 -> Zpos mB < 2 ^ 53 ->
  m <= Zpos mB * 2 ^ (eB - e) ->
  (l <> loc_Exact -> m < Zpos mB * 2 ^ (eB - e)) ->
  at_most mB eB (bra false m e l).
Proof.
  intros Hm He HeB HmB Hle Hlt.
  destruct (bra_round_shape m e l Hm) as [m1 [Hb [Hup ->]]].
  set (n1 := dropped m e) in *.
  assert (Hn1 : 0 <= n1) by apply dropped_nonneg.
  assert (Hp1 : 0 < 2 ^ n1) by (apply Z.pow_pos_nonneg; lia).
  assert (Hd : Zdigits2 m + e <= 53 + eB).
  { assert (H : Zdigits2 m <= 53 + (eB - e)); [| lia].
    apply Zdigits2_upper; [| lia]. split; [exact Hm |].
    rewrite Z.pow_add_r by lia.
    assert (0 < 2 ^ (eB - e)) by (apply Z.pow_pos_nonneg; lia).
    apply Z.le_lt_trans with (Zpos mB * 2 ^ (eB - e)); [exact Hle |].
    apply Z.mul_lt_mono_pos_r; assumption. }
  assert (He1 : e + n1 <= eB)
    by (unfold n1, dropped, fexp, SpecFloat.emin, prec, emax; lia).
  set (Bq := Zpos mB * 2 ^ (eB - (e + n1))).
  assert (HBq : Zpos mB * 2 ^ (eB - e) = Bq * 2 ^ n1).
  { unfold Bq. rewrite <- Z.mul_assoc, <- Z.pow_add_r by lia.
    do 2 f_equal. lia. }
  rewrite HBq in Hle, Hlt.
  assert (Hm' : m / 2 ^ n1 <= Bq) by (apply Z.div_le_upper_bound; lia).
  assert (Hm1 : m1 <= Bq).
  { destruct (Z.eq_dec m1 (m / 2 ^ n1)) as [-> | Hne]; [exact Hm' |].
    assert (Hstrict : m / 2 ^ n1 < Bq); [| lia].
    destruct (Hup Hne) as [Hl | Hnd].
    - apply Z.div_lt_upper_bound; [exact Hp1 |]. specialize (Hlt Hl). lia.
    - destruct (Z.eq_dec (m / 2 ^ n1) Bq) as [Heq | ?]; [| lia].
      exfalso. apply Hnd. exists Bq.
      assert (Hdm := Z.div_mod m (2 ^ n1) ltac:(lia)).
      assert (Hmod := Z.mod_pos_bound m (2 ^ n1) Hp1).
      rewrite Heq in Hdm. lia. }
  set (n2 := dropped m1 (e + n1)) in *.
  assert (Hn2 : 0 <= n2) by apply dropped_nonneg.
  assert (Hp2 : 0 < 2 ^ n2) by (apply Z.pow_pos_nonneg; lia).
  assert (Hm1pos : 0 <= m1).
  { assert (0 <= m / 2 ^ n1) by (apply Z.div_pos; lia). lia. }
  assert (Hd1 : Zdigits2 m1 + (e + n1) <= 53 + eB).
  { assert (H : Zdigits2 m1 <= 53 + (eB - (e + n1))); [| lia].
    apply Zdigits2_upper; [| lia]. split; [exact Hm1pos |].
    rewrite Z.pow_add_r by lia.
    assert (0 < 2 ^ (eB - (e + n1))) by (apply Z.pow_pos_nonneg; lia).
    apply Z.le_lt_trans with Bq; [exact Hm1 |].
    unfold Bq. apply Z.mul_lt_mono_pos_r; assumption. }
  assert (He2 : e + n1 + n2 <= eB)
    by (unfold n2, dropped, fexp, SpecFloat.emin, prec, emax; lia).
  assert (HBq2 : Bq = Zpos mB * 2 ^ (eB - (e + n1 + n2)) * 2 ^ n2).
  { unfold Bq. rewrite <- Z.mul_assoc, <- Z.pow_add_r by lia.
    do 2 f_equal. lia. }
  assert (Hm2 : m1 / 2 ^ n2 <= Zpos mB * 2 ^ (eB - (e + n1 + n2)))
    by (apply Z.div_le_upper_bound; lia).
  assert (Hm2pos : 0 <= m1 / 2 ^ n2) by (apply Z.div_pos; lia).
  destruct (m1 / 2 ^ n2) as [| p | p]; cbn [pack]; [exact I | | lia].
  destruct (Z.leb_spec (e + n1 + n2) (emax - prec)) as [_ | Hgt];
    [| unfold emax, prec in Hgt; lia].
  cbn [at_most]. split; assumption.
Qed.

(** An integer below [2^53] converts exactly. *)
Lemma binary_round_int_exact (p : positive) :
  Zpos p < 2 ^ 53 -> represents (Zpos p) (binary_round prec emax false p 0).
Proof.
  intros Hp. unfold binary_round.
  assert (Hal := shl_align_value p 0 (fexp64 (Zpos (digits2_pos p) + 0))).
  destruct (shl_align p 0 _) as [mz ez]. destruct Hal as [Hez Hmz].
  assert (Hd : 0 < Zpos (digits2_pos p) <= 53).
  { split; [lia |]. apply (Zdigits2_upper (Zpos p) 53); lia. }
  assert (Hez' : ez = Zpos (digits2_pos p) - 53)
    by (unfold fexp, SpecFloat.emin, prec, emax in Hez; lia).
  assert (Hdig : Zdigits2 (Zpos mz) = 53).
  { rewrite Hmz. rewrite Zdigits2_mul_pow2 by lia. cbn [Zdigits2]. lia. }
  destruct (bra_nonneg_shape (Zpos mz) ez loc_Exact ltac:(lia)) as [m1 [_ [Hexact ->]]].
  assert (Hdrop : dropped (Zpos mz) ez = 0)
    by (unfold dropped, fexp, SpecFloat.emin, prec, emax; lia).
  rewrite (Hexact eq_refl Hdrop), Hdrop, Z.add_0_r, Hdrop, Z.add_0_r.
  cbn [Z.pow Z.div]. rewrite Z.div_1_r. cbn [pack].
  destruct (Z.leb_spec ez (emax - prec)) as [_ | Hgt];
    [| unfold emax, prec in Hgt; lia].
  cbn [represents]. split; [lia |]. rewrite Hmz. reflexivity.
Qed.

Lemma float_of_int_represents (z : Z) :
  0 <= z < 2 ^ 53 -> represents z (Prim2SF (float_of_int z)).
Proof.
  intros Hz. unfold float_of_int.
  destruct (Z.ltb_spec z 0) as [Hneg | _]; [lia |].
  rewrite of_uint63_spec, Uint63.of_Z_spec.
  rewrite Z.mod_small by (change wB with (2 ^ 63); lia).
  destruct z as [| p | p]; [reflexivity | | lia].
  cbn [binary_normalize]. apply binary_round_int_exact. lia.
Qed.

(** The quotient and remainder that [SFdiv] rounds. *)
Lemma div_core_value (mx my : positive) (ex ey : Z) :
  let magdiff := Zpos (digits2_pos mx) + ex - (Zpos (digits2_pos my) + ey) in
  exists q r e',
    SFdiv_core_binary prec emax (Zpos mx) ex (Zpos my) ey
      = (q, e', new_location (Zpos my) r)
    /\ e' = Z.min (fexp64 magdiff) (ex - ey)
    /\ Zpos mx * 2 ^ (ex - ey - e') = Zpos my * q + r
    /\ 0 <= r < Zpos my
    /\ 0 <= q.
Proof.
  intros magdiff. unfold SFdiv_core_binary. cbn [Zdigits2]. fold magdiff.
  set (e' := Z.min (fexp64 magdiff) (ex - ey)).
  set (s := ex - ey - e').
  assert (Hs : 0 <= s) by (unfold s, e'; lia).
  set (m' := match s with Z.pos _ => Z.shiftl (Z.pos mx) s | 0 => Z.pos mx | Z.neg _ => 0 end).
  assert (Hm' : m' = Zpos mx * 2 ^ s).
  { unfold m'. destruct s as [| p | p]; [cbn; lia | | lia].
    apply Z.shiftl_mul_pow2. lia. }
  assert (Hm'pos : 0 < m').
  { rewrite Hm'. apply Z.mul_pos_pos; [lia | apply Z.pow_pos_nonneg; lia]. }
  assert (Hdiv := Z_div_mod m' (Zpos my) ltac:(lia)).
  destruct (Z.div_eucl m' (Zpos my)) as [q r]. destruct Hdiv as [Heq Hr].
  exists q, r, e'. split; [reflexivity |]. split; [reflexivity |].
  fold s. rewrite <- Hm'. split; [exact Heq |]. split; [exact Hr |]. nia.
Qed.

Lemma new_location_exact (nb_steps k : Z) :
  new_location nb_steps k <> loc_Exact -> k <> 0.
Proof.
  unfold new_location, new_location_even, new_location_odd.
  intros H ->. apply H. destruct (Z.even nb_steps); reflexivity.
Qed.

(** A count divided by a total that is at least the count is at most
    one. *)
Lemma div_at_most_one (k n : Z) (x y : spec_float) :
  represents k x -> represents n y -> 0 <= k <= n -> 0 < n ->
  at_most 4503599627370496 (-52) (SF64div x y).
Proof.
  intros Hx Hy Hkn Hn.
  destruct x as [[] | [] | | [] mx ex]; try contradiction;
    destruct y as [[] | [] | | [] my ey]; try contradiction;
    cbn [represents] in Hx, Hy; try lia; try exact I.
  destruct Hx as [Hex Hmx], Hy as [Hey Hmy].
  unfold SF64div, SFdiv. cbn [xorb].
  destruct (div_core_value mx my ex ey) as (q & r & e' & -> & He' & Hqr & Hr & Hq).
  assert (Hk : 0 < k) by nia.
  assert (Hmag : Zpos (digits2_pos mx) + ex <= Zpos (digits2_pos my) + ey).
  { assert (Hdx := Zdigits2_mul_pow2 k (- ex) Hk ltac:(lia)).
    assert (Hdy := Zdigits2_mul_pow2 n (- ey) Hn ltac:(lia)).
    rewrite <- Hmx in Hdx. rewrite <- Hmy in Hdy. cbn [Zdigits2] in Hdx, Hdy.
    assert (Hmono := Zdigits2_mono k n ltac:(lia)). lia. }
  assert (He'52 : e' <= -53) by (unfold fexp, SpecFloat.emin, prec, emax in He'; lia).
  assert (Hs : 0 <= ex - ey - e') by lia.
  assert (Hbound : Zpos mx * 2 ^ (ex - ey - e') <= Zpos my * 2 ^ (- e')).
  { rewrite Hmx, Hmy. rewrite <- !Z.mul_assoc, <- !Z.pow_add_r by lia.
    replace (- ex + (ex - ey - e')) with (- ey + - e') by lia.
    apply Z.mul_le_mono_nonneg_r; [apply Z.pow_nonneg; lia | lia]. }
  assert (Hone : Z.pos 4503599627370496 * 2 ^ (-52 - e') = 2 ^ (- e')).
  { change (Z.pos 4503599627370496) with (2 ^ 52). rewrite <- Z.pow_add_r by lia.
    f_equal. lia. }
  apply bra_at_most; try lia.
  - rewrite Hone. nia.
  - intros Hl. apply new_location_exact in Hl. rewrite Hone. nia.
Qed.

(** A ratio of at most one times 100 is at most 100. *)
Lemma mul_100_at_most (x : spec_float) :
  at_most 4503599627370496 (-52) x ->
  at_most 7036874417766400 (-46) (SF64mul x (Prim2SF 100)).
Proof.
  replace (Prim2SF 100) with (S754_finite false 7036874417766400 (-46))
    by (vm_compute; reflexivity).
  destruct x as [[] | [] | | [] mx ex]; try contradiction; cbn [at_most];
    [intros _; exact I |].
  intros [Hex Hmx]. unfold SF64mul, SFmul. cbn [xorb].
  assert (Hone : Z.pos 4503599627370496 * 2 ^ (-52 - ex) = 2 ^ (- ex)).
  { change (Z.pos 4503599627370496) with (2 ^ 52). rewrite <- Z.pow_add_r by lia.
    f_equal. lia. }
  rewrite Hone in Hmx.
  apply bra_at_most; try lia.
  - replace (-46 - (ex + -46)) with (- ex) by lia. rewrite Pos2Z.inj_mul. nia.
  - intros H. contradiction.
Qed.

(** A float whose value is at most that of a finite float compares below
    it. *)
Lemma at_most_leb (x b : float) (mB : positive) (eB : Z) :
  Prim2SF b = S754_finite false mB eB ->
  at_most mB eB (Prim2SF x) -> (x <=? b)%float = true.
Proof.
  intros Hb Hx. rewrite FloatAxioms.leb_spec, Hb.
  destruct (Prim2SF x) as [[] | [] | | [] m e]; try contradiction; [reflexivity |].
  destruct Hx as [He Hm]. unfold SFleb, SFcompare.
  destruct (Z.compare_spec e eB) as [-> | Hlt | Hgt]; [| reflexivity | lia].
  rewrite Z.sub_diag, Z.mul_1_r in Hm.
  fold (Pos.compare m mB). destruct (Pos.compare_spec m mB); try reflexivity. lia.
Qed.

Lemma tenths_up_to_1000 (t : positive) :
  Zpos t <= 1000 ->
  (SF2Prim (SFdiv prec emax (S754_finite false t 0) (S754_finite false 10 0))
     <=? 100)%float = true.
Proof.
  intros Ht.
  assert (Hok : tenths_up_to_1000_ok = true) by (vm_compute; reflexivity).
  unfold tenths_up_to_1000_ok in Hok. rewrite forallb_forall in Hok.
  apply Hok. rewrite <- (Pos2Nat.id t). apply in_map. apply in_seq. lia.
Qed.

Lemma tenths_at_most_1000 (m : positive) (e : Z) :
  e <= -46 -> Zpos m <= 7036874417766400 * 2 ^ (-46 - e) ->
  0 <= tenths m e <= 1000.
Proof.
  intros He Hm.
  destruct (tenths_facts m e) as [Ht0 _]. split; [exact Ht0 |].
  unfold tenths. destruct (Z.leb_spec 0 e) as [? | _]; [lia |]. cbv zeta.
  assert (Hd : 0 < 2 ^ (- e)) by (apply Z.pow_pos_nonneg; lia).
  assert (Hten : 10 * Zpos m <= 1000 * 2 ^ (- e)).
  { replace (- e) with (46 + (-46 - e)) by lia. rewrite Z.pow_add_r by lia.
    change (2 ^ 46) with 70368744177664. lia. }
  assert (Hdm := Z.div_mod (10 * Zpos m) (2 ^ (- e)) ltac:(lia)).
  assert (Hmod := Z.mod_pos_bound (10 * Zpos m) (2 ^ (- e)) Hd).
  set (q := 10 * Zpos m / 2 ^ (- e)) in *.
  set (r := (10 * Zpos m) mod 2 ^ (- e)) in *.
  assert (Hq : q <= 1000) by (apply Z.div_le_upper_bound; lia).
  destruct (Z.eq_dec q 1000) as [Hq1000 | Hne].
  - assert (Hr : r = 0) by nia.
    rewrite Hr.
    assert (Hc : (2 * 0 ?= 2 ^ (- e)) = Lt) by (apply Z.compare_lt_iff; lia).
    rewrite Hc. lia.
  - destruct (2 * r ?= 2 ^ (- e)); try destruct (Z.even q); lia.
Qed.

(** Rounding a percentage of at most 100 to one decimal gives at most
    100. *)
Lemma round1_at_most_100 (x : float) :
  at_most 7036874417766400 (-46) (Prim2SF x) -> (round1 x <=? 100)%float = true.
Proof.
  intros Hx. unfold round1.
  destruct (Prim2SF x) as [[] | [] | | [] m e] eqn:Hs; try contradiction.
  - rewrite FloatAxioms.leb_spec, Hs. reflexivity.
  - destruct Hx as [He Hm].
    destruct (tenths_at_most_1000 m e He Hm) as [Ht0 Ht].
    destruct (tenths m e) as [| t | t]; [reflexivity | | lia].
    apply tenths_up_to_1000. exact Ht.
Qed.

Lemma mul_100_nonneg (x : spec_float) :
  is_nonneg x -> is_nonneg (SF64mul x (Prim2SF 100)).
Proof.
  replace (Prim2SF 100) with (S754_finite false 7036874417766400 (-46))
    by (vm_compute; reflexivity).
  destruct x as [[] | [] | | [] mx ex]; try contradiction; intros _; try exact I.
  unfold SF64mul, SFmul. cbn [xorb]. apply bra_nonneg. lia.
Qed.

(** A percentage of flagged frames lies between 0 and 100. *)
Lemma percentage_bounds (k n : Z) :
  0 <= k <= n -> 0 < n < 2 ^ 53 ->
  let p := round1 (float_of_int k / float_of_int n * 100) in
  (0 <=? p)%float = true /\ (p <=? 100)%float = true.
Proof.
  intros Hk Hn. cbv zeta.
  assert (Hks := float_of_int_sign k ltac:(unfold maxsize; lia)).
  assert (Hns := float_of_int_sign n ltac:(unfold maxsize; lia)).
  assert (Hkr := float_of_int_represents k ltac:(lia)).
  assert (Hnr := float_of_int_represents n ltac:(lia)).
  split.
  - apply leb_zero_nonneg, round1_nonneg.
    rewrite FloatAxioms.mul_spec. apply mul_100_nonneg.
    rewrite FloatAxioms.div_spec. apply div_nonneg; [apply Hks | apply Hns; lia].
  - apply round1_at_most_100.
    rewrite FloatAxioms.mul_spec. apply mul_100_at_most.
    rewrite FloatAxioms.div_spec. apply (div_at_most_one k n); assumption || lia.
Qed.

(** ** The metrics of a video with a rate that is not negative *)

Lemma first_mock_contact_bounds (stream : nat -> float) (n : nat) :
  forall (position : nat) (idx i : Z),
    Spec.first_mock_contact stream position idx n = Some i ->
    idx <= i < idx + Z.of_nat n.
Proof.
  induction n as [| n IH]; intros position idx i; cbn [Spec.first_mock_contact].
  - discriminate.
  - destruct (Spec.mock_eye_contact stream position).
    + intros H. injection H as <-. lia.
    + intros H. apply IH in H. lia.
Qed.

(** With a rate that is not negative, the window bound [int(fps * 5)] is
    not negative, and a bound of at least one needs a positive finite
    rate. *)
Lemma window_bound_sign (rate : float) (bound : Z) :
  (rate <? 0)%float = false ->
  int_of_float (rate * 5) = Ok bound ->
  0 <= bound /\ (0 < bound -> is_positive (Prim2SF rate)).
Proof.
  rewrite FloatAxioms.ltb_spec. unfold int_of_float.
  rewrite FloatAxioms.mul_spec.
  replace (Prim2SF 0) with (S754_zero false) by reflexivity.
  replace (Prim2SF 5) with (S754_finite false 5629499534213120 (-50))
    by (vm_compute; reflexivity).
  destruct (Prim2SF rate) as [s | [] | | [] m e]; cbn [SF64mul SFmul]; try discriminate.
  - intros _ H. injection H as <-. lia.
  - intros _. unfold SF64mul, SFmul. cbn [xorb].
    assert (Hnn := bra_nonneg (Zpos (m * 5629499534213120)) (e + -50) loc_Exact ltac:(lia)).
    destruct (bra false _ _ _) as [[] | [] | | [] m' e']; try contradiction;
      try discriminate; intros H; injection H as <-.
    + split; [lia | intros _; exact I].
    + split; [apply Z.shiftl_nonneg; lia | intros _; exact I].
Qed.

(** The latency of a video whose rate is not negative is not negative. *)
Lemma latency_nonneg (frames : list Frame) (m : AutismScreeningModel)
    (stream : nat -> float) (k : nat) (latency : float) (w' : World) :
  (m.(fps) <? 0)%float = false ->
  Z.of_nat (List.length frames) <= maxsize ->
  calculate_response_latency frames (mkWorld m (mkRng stream k)) = (Ok latency, w') ->
  (0 <=? round1 latency)%float = true.
Proof.
  intros Hrate Hlen Hrun.
  destruct (int_of_float (m.(fps) * 5)) as [bound | e] eqn:Hbound;
    [| unfold calculate_response_latency, bind, get_self, lift in Hrun;
       cbn [self fps] in Hrun; rewrite Hbound in Hrun; discriminate].
  destruct (window_bound_sign _ _ Hrate Hbound) as [Hb0 Hpos].
  assert (Hspec := calculate_response_latency_run frames m stream k bound Hbound Hb0).
  cbv zeta in Hspec. rewrite Hspec in Hrun. injection Hrun as <- _.
  set (window := firstn (Z.to_nat bound) frames) in *.
  destruct (Spec.first_mock_contact stream k 0 (List.length window)) as [idx |] eqn:Hfirst.
  - apply first_mock_contact_bounds in Hfirst.
    assert (Hwin : (List.length window <= List.length frames)%nat)
      by (unfold window; rewrite length_firstn; lia).
    assert (Hbpos : 0 < bound).
    { destruct (Z.eq_dec bound 0) as [-> | ?]; [| lia].
      unfold window in Hfirst. cbn in Hfirst. lia. }
    apply leb_zero_nonneg, round1_nonneg.
    rewrite FloatAxioms.div_spec. apply div_nonneg; [| exact (Hpos Hbpos)].
    apply float_of_int_sign. lia.
  - vm_compute. reflexivity.
Qed.

(** Every invariant of C8 holds for a successful run on a video whose rate
    is not negative and that has fewer than [2^53] frames. *)
Lemma process_video_invariants (cap : VideoCapture) (m : AutismScreeningModel)
    (stream : nat -> float) (k : nat) (metrics : BehavioralMetrics) (w' : World) :
  m.(hands_detector) = None ->
  Z.of_nat (List.length cap.(cap_frames)) < 2 ^ 53 ->
  (cap.(cap_fps) <? 0)%float = false ->
  process_video cap (mkWorld m (mkRng stream k)) = (Ok metrics, w') ->
  ((0 <=? metrics.(eye_contact_duration))%float = true
   /\ (metrics.(eye_contact_duration) <=? 100)%float = true)
  /\ ((0 <=? metrics.(social_gaze))%float = true
      /\ (metrics.(social_gaze) <=? 100)%float = true)
  /\ (0 <=? metrics.(attention_shifts))%float = true
  /\ (0 <=? metrics.(gesture_frequency))%float = true
  /\ (0 <=? metrics.(response_latency))%float = true.
Proof.
  intros Hnone Hlen Hrate Hrun.
  assert (Hlen' : Z.of_nat (List.length cap.(cap_frames)) <= maxsize)
    by (unfold maxsize; lia).
  destruct (process_video_rates cap m stream k metrics w' Hnone Hlen' Hrun) as [Ha [Hg _]].
  destruct (process_video_run cap m stream k metrics w' Hnone Hlen' Hrun)
    as (frames & c & d & latency & w2 & Hn & _ & _ & He & Hs & _ & _ & _ & Hfps & Hlat & ->).
  cbn [eye_contact_duration social_gaze attention_shifts gesture_frequency
       response_latency BehavioralMetrics_init] in *.
  split; [apply percentage_bounds; lia |].
  split; [apply percentage_bounds; lia |].
  split; [exact Ha |]. split; [exact Hg |].
  destruct w2 as [m2 [stream2 k2]]. cbn [self] in Hfps.
  apply (latency_nonneg frames m2 stream2 k2 latency w');
    [rewrite Hfps; exact Hrate | unfold maxsize; lia | exact Hlat].
Qed.

(** * Further properties of the code *)

(** ** Sampling *)

(** Frames whose index is not a multiple of the step are passed over. *)
Lemma sample_frames_skip (frame_skip : Z) (t : nat) :
  forall (frame_idx : Z) (fs : list Frame),
  (forall j, (j < t)%nat -> (frame_idx + Z.of_nat j) mod frame_skip <> 0) ->
  sample_frames frame_skip frame_idx fs =
  sample_frames frame_skip (frame_idx + Z.of_nat t) (skipn t fs).
Proof.
  induction t as [| t IH]; intros frame_idx fs Hskip.
  - cbn [skipn Z.of_nat]. rewrite Z.add_0_r. reflexivity.
  - destruct fs as [| frame rest]; [reflexivity |].
    cbn [sample_frames skipn].
    assert (H0 := Hskip 0%nat ltac:(lia)). cbn [Z.of_nat] in H0. rewrite Z.add_0_r in H0.
    destruct (Z.eqb_spec (frame_idx mod frame_skip) 0) as [Hz | _]; [contradiction |].
    rewrite IH.
    + f_equal. lia.
    + intros j Hj. specialize (Hskip (S j) ltac:(lia)).
      replace (frame_idx + 1 + Z.of_nat j) with (frame_idx + Z.of_nat (S j)) by lia.
      exact Hskip.
Qed.

(** A frame at a multiple of the step is kept, and the next [frame_skip - 1]
    frames are not. *)
Lemma sample_frames_step (frame_skip frame_idx : Z) (frame : Frame) (rest : list Frame) :
  1 <= frame_skip -> frame_idx mod frame_skip = 0 ->
  sample_frames frame_skip frame_idx (frame :: rest) =
  frame :: sample_frames frame_skip (frame_idx + frame_skip)
             (skipn (Z.to_nat frame_skip - 1) rest).
Proof.
  intros Hk Hidx. cbn [sample_frames]. rewrite Hidx. cbn [Z.eqb]. f_equal.
  rewrite (sample_frames_skip frame_skip (Z.to_nat frame_skip - 1)).
  - f_equal. lia.
  - intros j Hj.
    replace (frame_idx + 1 + Z.of_nat j) with (1 + Z.of_nat j + frame_idx) by lia.
    rewrite <- Zplus_mod_idemp_r, Hidx, Z.add_0_r.
    rewrite Z.mod_small by lia. lia.
Qed.

Lemma sample_frames_nth (frame_skip : Z) (i : nat) :
  forall (frame_idx : Z) (fs : list Frame),
  1 <= frame_skip -> frame_idx mod frame_skip = 0 ->
  nth_error (sample_frames frame_skip frame_idx fs) i =
  nth_error fs (i * Z.to_nat frame_skip).
Proof.
  induction i as [| i IH]; intros frame_idx fs Hk Hidx.
  - destruct fs as [| frame rest]; [reflexivity |].
    rewrite sample_frames_step by assumption. reflexivity.
  - destruct fs as [| frame rest].
    + cbn [sample_frames]. rewrite !nth_error_nil. reflexivity.
    + rewrite sample_frames_step by assumption. cbn [nth_error].
      rewrite IH; [| exact Hk |].
      * rewrite nth_error_skipn.
        replace (S i * Z.to_nat frame_skip)%nat
          with (S (Z.to_nat frame_skip - 1 + i * Z.to_nat frame_skip))%nat by lia.
        reflexivity.
      * rewrite <- Zplus_mod_idemp_l, Hidx, Z.add_0_l. apply Z.mod_same. lia.
Qed.

Lemma sample_frames_count (frame_skip : Z) (n : nat) :
  forall (frame_idx : Z) (fs : list Frame),
  (List.length fs <= n)%nat ->
  1 <= frame_skip -> frame_idx mod frame_skip = 0 ->
  Z.of_nat (List.length (sample_frames frame_skip frame_idx fs)) =
  (Z.of_nat (List.length fs) + frame_skip - 1) / frame_skip.
Proof.
  induction n as [| n IH]; intros frame_idx fs Hlen Hk Hidx.
  - destruct fs; [| cbn in Hlen; lia]. cbn [sample_frames List.length Z.of_nat].
    rewrite Z.div_small by lia. reflexivity.
  - destruct fs as [| frame rest].
    + cbn [sample_frames List.length Z.of_nat]. rewrite Z.div_small by lia. reflexivity.
    + rewrite sample_frames_step by assumption.
      cbn [List.length] in *. rewrite !Nat2Z.inj_succ.
      rewrite IH; [| rewrite length_skipn; lia | exact Hk |].
      * rewrite length_skipn.
        destruct (Nat.le_gt_cases (Z.to_nat frame_skip - 1) (List.length rest)) as [Hle | Hgt].
        -- replace (Z.succ (Z.of_nat (List.length rest)) + frame_skip - 1)
             with (Z.of_nat (List.length rest - (Z.to_nat frame_skip - 1)) + frame_skip - 1
                   + 1 * frame_skip) by lia.
           rewrite Z.div_add by lia. lia.
        -- replace (List.length rest - (Z.to_nat frame_skip - 1))%nat with 0%nat by lia.
           cbn [Z.of_nat]. rewrite (Z.div_small (0 + frame_skip - 1)) by lia.
           replace (Z.succ (Z.of_nat (List.length rest)) + frame_skip - 1)
             with (Z.of_nat (List.length rest) + 1 * frame_skip) by lia.
           rewrite Z.div_add by lia. rewrite Z.div_small by lia. lia.
      * rewrite <- Zplus_mod_idemp_l, Hidx, Z.add_0_l. apply Z.mod_same. lia.
Qed.

Lemma bra_sign (s : bool) (m e : Z) (l : location) :
  bra s m e l = Obs.with_sign s (bra false m e l).
Proof.
  unfold binary_round_aux.
  destruct (shr_fexp prec emax m e l) as [mrs1 e1].
  destruct (shr_fexp prec emax _ e1 loc_Exact) as [mrs2 e2].
  destruct (shr_m mrs2); [reflexivity | | reflexivity].
  destruct (e2 <=? emax - prec); reflexivity.
Qed.

Lemma compare_cont_refl (m : positive) : Pos.compare_cont Eq m m = Eq.
Proof. apply Pos.compare_cont_refl. Qed.

Lemma SFeqb_refl (s : spec_float) : SFeqb s s = match s with S754_nan => false | _ => true end.
Proof.
  destruct s as [[] | [] | | [] m e]; cbn; try reflexivity;
    rewrite Z.compare_refl, Pos.compare_cont_refl; reflexivity.
Qed.

Lemma is_nan_spec (x : float) :
  is_nan x = true <-> Prim2SF x = S754_nan.
Proof.
  unfold is_nan. rewrite FloatAxioms.eqb_spec, SFeqb_refl.
  destruct (Prim2SF x); cbn; split; congruence.
Qed.

Lemma is_infinity_spec (x : float) :
  is_infinity x = true <-> exists s, Prim2SF x = S754_infinity s.
Proof.
  unfold is_infinity. rewrite FloatAxioms.eqb_spec, FloatAxioms.abs_spec.
  replace (Prim2SF infinity) with (S754_infinity false) by reflexivity.
  destruct (Prim2SF x) as [[] | [] | | [] m e]; cbn; split;
    try congruence; try (intros [s Hs]; congruence); eauto.
Qed.

Lemma is_finite_spec (x : float) :
  is_finite x = true <-> Obs.finite (Prim2SF x).
Proof.
  unfold is_finite.
  destruct (is_nan x) eqn:Hnan.
  - apply is_nan_spec in Hnan. rewrite Hnan. cbn. split; [discriminate | contradiction].
  - destruct (is_infinity x) eqn:Hinf.
    + apply is_infinity_spec in Hinf. destruct Hinf as [s ->]. cbn.
      split; [discriminate | contradiction].
    + cbn. split; [intros _ | reflexivity].
      destruct (Prim2SF x) as [s | s | | s m e] eqn:Hx; cbn; trivial.
      * assert (is_infinity x = true) by (apply is_infinity_spec; eauto). congruence.
      * assert (is_nan x = true) by (apply is_nan_spec; exact Hx). congruence.
Qed.

(** [int(x)] succeeds exactly on finite floats. *)
Lemma int_of_float_finite (x : float) :
  (exists k, int_of_float x = Ok k) <-> Obs.finite (Prim2SF x).
Proof.
  unfold int_of_float. destruct (Prim2SF x); cbn; split;
    try (intros [k H]; discriminate); try contradiction; eauto.
Qed.

Lemma int_of_float_nan (x : float) :
  Prim2SF x = S754_nan ->
  int_of_float x = Raise (ValueError "cannot convert float NaN to integer").
Proof. unfold int_of_float. intros ->. reflexivity. Qed.

Lemma int_of_float_infinity (x : float) (s : bool) :
  Prim2SF x = S754_infinity s -> int_of_float x = Raise OverflowError.
Proof. unfold int_of_float. intros ->. reflexivity. Qed.

(** Dividing by ten keeps NaN and the infinities, and keeps a finite
    number finite. *)
Lemma div_10_cases (x : float) :
  match Prim2SF x with
  | S754_nan => Prim2SF (x / 10) = S754_nan
  | S754_infinity s => Prim2SF (x / 10) = S754_infinity s
  | _ => Obs.finite (Prim2SF (x / 10))
  end.
Proof.
  rewrite FloatAxioms.div_spec.
  replace (Prim2SF 10) with (S754_finite false 5629499534213120 (-49))
    by (vm_compute; reflexivity).
  destruct (Prim2SF x) as [s | s | | s m e] eqn:Hx.
  - destruct s; exact I.
  - destruct s; reflexivity.
  - reflexivity.
  - assert (He := valid_exponent x s m e Hx).
    assert (Hd := valid_digits x s m e Hx).
    assert (Hpos : below 1022 (SF64div (S754_finite false m e)
                                 (S754_finite false 5629499534213120 (-49)))).
    { apply (below_weaken (Z.max (1024 - 4 + 2) (-1073))); [| lia].
      apply (div_below _ _ 1024 4); [cbn [below]; lia | cbn; lia | lia]. }
    unfold SF64div, SFdiv in *.
    destruct (SFdiv_core_binary prec emax (Z.pos m) e (Z.pos 5629499534213120) (-49))
      as [[mz ez] lz].
    rewrite bra_sign. cbn [xorb] in Hpos.
    replace (xorb s false) with s by (destruct s; reflexivity).
    destruct (bra false mz ez lz) as [[] | [] | | [] mq eq]; try contradiction; exact I.
Qed.

(** One iteration of the frame loop returns, whatever the model holds. *)
Lemma process_frame_total (frame : Frame) (c : Counters.t) (w : World) :
  exists c' w',
    process_frame frame c w = (Ok c', w')
    /\ w'.(self).(fps) = w.(self).(fps).
Proof.
  destruct w as [m [stream k]]. unfold process_frame.
  destruct (frame_face_landmarks_run frame m stream k) as [found [Hrun Hfound]].
  unfold bind at 1. rewrite Hrun.
  assert (Hhands : forall c1 w1, exists c' w',
            process_hands c1 w1 = (Ok c', w') /\ w'.(self).(fps) = w1.(self).(fps)).
  { intros c1 w1. unfold process_hands, bind, get_self.
    destruct (hands_detector (self w1)); do 2 eexists; split; reflexivity. }
  destruct found as [lms |].
  - destruct Hfound as [left_iris [right_iris [H468 [H473 _]]]].
    destruct (process_face_run lms left_iris right_iris c
                (mkWorld m (mkRng stream (Spec.landmark_draws frame + k))) H468 H473)
      as [eye_contact [social [_ [_ Hface]]]].
    unfold bind. rewrite Hface.
    destruct (Hhands (Counters.make
        (if eye_contact then Counters.eye_contact_frames c + 1
         else Counters.eye_contact_frames c)
        (if match previous_gaze (self (mkWorld m (mkRng stream (Spec.landmark_draws frame + k)))) with
            | None => false
            | Some previous => Spec.shift_between previous (gaze_point left_iris right_iris)
            end
         then Counters.attention_shifts c + 1 else Counters.attention_shifts c)
        (Counters.gestures c)
        (if social then Counters.social_gaze_frames c + 1 else Counters.social_gaze_frames c))
      (Spec.remember (gaze_point left_iris right_iris)
         (mkWorld m (mkRng stream (Spec.landmark_draws frame + k)))))
      as [c' [w' [Hh Hf]]].
    exists c', w'. split; [exact Hh | rewrite Hf; reflexivity].
  - unfold bind, process_face, ret.
    destruct (Hhands c (mkWorld m (mkRng stream (Spec.landmark_draws frame + k))))
      as [c' [w' [Hh Hf]]].
    exists c', w'. split; [exact Hh | rewrite Hf; reflexivity].
Qed.

Lemma process_frames_total (frames : list Frame) :
  forall (c : Counters.t) (w : World),
  exists c' w',
    process_frames frames c w = (Ok c', w')
    /\ w'.(self).(fps) = w.(self).(fps).
Proof.
  induction frames as [| frame rest IH]; intros c w.
  - exists c, w. split; reflexivity.
  - destruct (process_frame_total frame c w) as [c1 [w1 [Hrun Hfps]]].
    destruct (IH c1 w1) as [c2 [w2 [Hrun2 Hfps2]]].
    exists c2, w2. cbn [process_frames]. unfold bind. rewrite Hrun, Hrun2.
    split; [reflexivity | congruence].
Qed.

(** The latency estimate returns whenever the window bound [int(fps * 5)]
    can be formed: the division [idx / fps] is reached only with a nonzero
    rate. *)
Lemma calculate_response_latency_total (frames : list Frame) (w : World) (bound : Z) :
  int_of_float (w.(self).(fps) * 5) = Ok bound ->
  exists latency w', calculate_response_latency frames w = (Ok latency, w').
Proof.
  intros Hbound. destruct w as [m [stream k]]. cbn [self] in Hbound.
  unfold calculate_response_latency, bind, get_self, lift. cbn [self].
  rewrite Hbound.
  destruct (m.(fps) =? 0)%float eqn:Hfps.
  - rewrite (int_of_float_mul5_zero _ Hfps) in Hbound. injection Hbound as <-.
    replace (slice_to frames 0) with (@nil Frame)
      by (unfold slice_to; cbn [Z.ltb Z.compare]; rewrite Z.min_l by lia; reflexivity).
    do 2 eexists. reflexivity.
  - rewrite first_eye_contact_run by exact Hfps.
    destruct (Spec.first_mock_contact stream k 0 _); do 2 eexists; reflexivity.
Qed.

(** The first frame of a capture is always sampled. *)
Lemma sample_frames_first (frame_skip : Z) (frame : Frame) (rest : list Frame) :
  1 <= frame_skip ->
  exists tail, sample_frames frame_skip 0 (frame :: rest) = frame :: tail.
Proof.
  intros Hk. cbn [sample_frames]. rewrite Z.mod_0_l by lia. cbn [Z.eqb]. eauto.
Qed.

(** Multiplying by five keeps NaN and the infinities, and never turns a
    finite number into NaN. *)
Lemma mul_5_cases (x : float) :
  match Prim2SF x with
  | S754_nan => Prim2SF (x * 5) = S754_nan
  | S754_infinity s => Prim2SF (x * 5) = S754_infinity s
  | _ => Prim2SF (x * 5) <> S754_nan
  end.
Proof.
  rewrite FloatAxioms.mul_spec.
  replace (Prim2SF 5) with (S754_finite false 5629499534213120 (-50))
    by (vm_compute; reflexivity).
  destruct (Prim2SF x) as [s | s | | s m e] eqn:Hx.
  - discriminate.
  - destruct s; reflexivity.
  - reflexivity.
  - unfold SF64mul, SFmul. rewrite bra_sign.
    assert (Hnn := bra_nonneg (Zpos (m * 5629499534213120)) (e + -50) loc_Exact ltac:(lia)).
    destruct (bra false _ _ _) as [[] | [] | | [] mq eq]; try contradiction; discriminate.
Qed.

Lemma preprocess_video_unfold (cap : VideoCapture) (w : World) :
  preprocess_video cap w =
  let w0 := snd (set_fps cap.(cap_fps) w) in
  match int_of_float (cap.(cap_fps) / 10) with
  | Ok k =>
      let frames := sample_frames (Z.max 1 k) 0 cap.(cap_frames) in
      (Ok frames, snd (set_frame_count (Z.of_nat (List.length frames)) w0))
  | Raise e => (Raise e, w0)
  end.
Proof.
  unfold preprocess_video, bind, set_fps, get_self, lift, set_frame_count, ret.
  cbn [self np_random fps hands_detector pose_detector frame_count previous_gaze snd].
  destruct (int_of_float (cap_fps cap / 10)); reflexivity.
Qed.

(** [process_video] returns metrics for every capture that has a frame and
    whose rate is a finite number small enough for [fps * 5] to be
    finite. *)
Lemma process_video_total (cap : VideoCapture) (w : World) :
  Z.of_nat (List.length cap.(cap_frames)) <= maxsize ->
  cap.(cap_frames) <> [] ->
  Obs.finite (Prim2SF (cap.(cap_fps) * 5)) ->
  exists metrics w', process_video cap w = (Ok metrics, w').
Proof.
  intros Hlen Hframes Hfin.
  assert (Hrate : Obs.finite (Prim2SF (cap_fps cap))).
  { assert (H5 := mul_5_cases (cap_fps cap)).
    destruct (Prim2SF (cap_fps cap)); try exact I; rewrite H5 in Hfin; contradiction. }
  assert (H10 : exists k, int_of_float (cap_fps cap / 10) = Ok k).
  { apply int_of_float_finite. assert (H := div_10_cases (cap_fps cap)).
    destruct (Prim2SF (cap_fps cap)); try contradiction; exact H. }
  destruct H10 as [k Hk].
  destruct (proj2 (int_of_float_finite _) Hfin) as [bound Hbound].
  assert (Hpre := preprocess_video_unfold cap w). rewrite Hk in Hpre. cbv zeta in Hpre.
  rewrite (process_video_after_sampling _ _ _ _ Hpre).
  set (frames := sample_frames (Z.max 1 k) 0 (cap_frames cap)) in *.
  set (w1 := snd (set_frame_count _ _)) in *.
  assert (Hfps1 : w1.(self).(fps) = cap_fps cap) by reflexivity.
  assert (Hn : 1 <= Z.of_nat (List.length frames) <= maxsize).
  { assert (Hshort := sample_frames_length (Z.max 1 k) (cap_frames cap) 0). fold frames in Hshort.
    destruct (cap_frames cap) as [| frame rest] eqn:Hcap; [contradiction |].
    destruct (sample_frames_first (Z.max 1 k) frame rest ltac:(lia)) as [tail Htail].
    unfold frames. rewrite Htail. cbn [List.length]. unfold frames in Hshort.
    rewrite Htail in Hshort. cbn [List.length] in *. lia. }
  destruct (Z.eqb_spec (Z.of_nat (List.length frames)) 0) as [Hz | _]; [lia |].
  destruct (video_duration_minutes_positive _ (cap_fps cap) Hn) as [d [Hd [Hdpos _]]].
  unfold bind at 1. unfold get_self at 1. rewrite Hfps1.
  unfold bind at 1. unfold lift at 1. rewrite Hd.
  destruct (process_frames_total frames Counters.zero w1) as [c [w2 [Hloop Hfps2]]].
  unfold bind at 1. rewrite Hloop.
  assert (Hnpos : is_positive (Prim2SF (float_of_int (Z.of_nat (List.length frames)))))
    by (apply float_of_int_sign; lia).
  assert (Hdp : is_positive (Prim2SF d)) by (apply ltb_zero_iff_positive; exact Hdpos).
  unfold bind at 1. unfold lift at 1, truediv at 1. rewrite (eqb_zero_positive _ Hnpos).
  unfold bind at 1. unfold lift at 1, truediv at 1. rewrite (eqb_zero_positive _ Hdp).
  unfold bind at 1. unfold lift at 1, truediv at 1. rewrite (eqb_zero_positive _ Hdp).
  unfold bind at 1. unfold lift at 1, truediv at 1. rewrite (eqb_zero_positive _ Hnpos).
  destruct (calculate_response_latency_total frames w2 bound) as [latency [w3 Hlat]].
  { rewrite Hfps2, Hfps1. exact Hbound. }
  unfold bind. rewrite Hlat. unfold ret. eauto.
Qed.

Lemma process_video_preprocess_fails (cap : VideoCapture) (w : World) (e : exn) :
  int_of_float (cap.(cap_fps) / 10) = Raise e ->
  fst (process_video cap w) = Raise e.
Proof.
  intros Hk. unfold process_video, bind. rewrite preprocess_video_unfold, Hk. reflexivity.
Qed.

Lemma process_video_latency_fails (cap : VideoCapture) (w : World) (s : bool) :
  Z.of_nat (List.length cap.(cap_frames)) <= maxsize ->
  cap.(cap_frames) <> [] ->
  Obs.finite (Prim2SF cap.(cap_fps)) ->
  Prim2SF (cap.(cap_fps) * 5) = S754_infinity s ->
  fst (process_video cap w) = Raise OverflowError.
Proof.
  intros Hlen Hframes Hrate Hinf.
  assert (H10 : exists k, int_of_float (cap_fps cap / 10) = Ok k).
  { apply int_of_float_finite. assert (H := div_10_cases (cap_fps cap)).
    destruct (Prim2SF (cap_fps cap)); try contradiction; exact H. }
  destruct H10 as [k Hk].
  assert (Hpre := preprocess_video_unfold cap w). rewrite Hk in Hpre. cbv zeta in Hpre.
  rewrite (process_video_after_sampling _ _ _ _ Hpre).
  set (frames := sample_frames (Z.max 1 k) 0 (cap_frames cap)) in *.
  set (w1 := snd (set_frame_count _ _)) in *.
  assert (Hfps1 : w1.(self).(fps) = cap_fps cap) by reflexivity.
  assert (Hn : 1 <= Z.of_nat (List.length frames) <= maxsize).
  { assert (Hshort := sample_frames_length (Z.max 1 k) (cap_frames cap) 0). fold frames in Hshort.
    destruct (cap_frames cap) as [| frame rest] eqn:Hcap; [contradiction |].
    destruct (sample_frames_first (Z.max 1 k) frame rest ltac:(lia)) as [tail Htail].
    unfold frames. rewrite Htail. cbn [List.length]. unfold frames in Hshort.
    rewrite Htail in Hshort. cbn [List.length] in *. lia. }
  destruct (Z.eqb_spec (Z.of_nat (List.length frames)) 0) as [Hz | _]; [lia |].
  destruct (video_duration_minutes_positive _ (cap_fps cap) Hn) as [d [Hd [Hdpos _]]].
  unfold bind at 1. unfold get_self at 1. rewrite Hfps1.
  unfold bind at 1. unfold lift at 1. rewrite Hd.
  destruct (process_frames_total frames Counters.zero w1) as [c [w2 [Hloop Hfps2]]].
  unfold bind at 1. rewrite Hloop.
  assert (Hnpos : is_positive (Prim2SF (float_of_int (Z.of_nat (List.length frames)))))
    by (apply float_of_int_sign; lia).
  assert (Hdp : is_positive (Prim2SF d)) by (apply ltb_zero_iff_positive; exact Hdpos).
  unfold bind at 1. unfold lift at 1, truediv at 1. rewrite (eqb_zero_positive _ Hnpos).
  unfold bind at 1. unfold lift at 1, truediv at 1. rewrite (eqb_zero_positive _ Hdp).
  unfold bind at 1. unfold lift at 1, truediv at 1. rewrite (eqb_zero_positive _ Hdp).
  unfold bind at 1. unfold lift at 1, truediv at 1. rewrite (eqb_zero_positive _ Hnpos).
  unfold bind at 1. unfold calculate_response_latency. unfold bind at 1.
  unfold get_self at 1. unfold bind at 1. unfold lift at 1.
  rewrite Hfps2, Hfps1, (int_of_float_infinity _ s Hinf). reflexivity.
Qed.

(** The outcome of [process_video], case by case. *)
Lemma process_video_cases (cap : VideoCapture) (w : World)
    (Hlen : Z.of_nat (List.length cap.(cap_frames)) <= maxsize) :
  let rate := cap.(cap_fps) in
  let outcome := fst (process_video cap w) in
  (is_nan rate = true ->
     outcome = Raise (ValueError "cannot convert float NaN to integer"))
  /\ (is_infinity rate = true -> outcome = Raise OverflowError)
  /\ (is_finite rate = true -> cap.(cap_frames) = [] ->
      outcome = Raise Spec.no_frames)
  /\ (is_finite rate = true -> cap.(cap_frames) <> [] ->
      is_finite (rate * 5) = false -> outcome = Raise OverflowError)
  /\ (cap.(cap_frames) <> [] -> is_finite (rate * 5) = true ->
      exists metrics, outcome = Ok metrics)
  /\ (forall e, outcome = Raise e -> e <> ZeroDivisionError /\ e <> IndexError).
Proof.
  intros rate outcome.
  assert (Hnan : is_nan rate = true ->
            outcome = Raise (ValueError "cannot convert float NaN to integer")).
  { intros H. apply is_nan_spec in H. apply process_video_preprocess_fails.
    apply int_of_float_nan. assert (H10 := div_10_cases rate). rewrite H in H10. exact H10. }
  assert (Hinf : is_infinity rate = true -> outcome = Raise OverflowError).
  { intros H. apply is_infinity_spec in H. destruct H as [s Hs].
    apply process_video_preprocess_fails.
    apply (int_of_float_infinity _ s). assert (H10 := div_10_cases rate).
    rewrite Hs in H10. exact H10. }
  assert (Hempty : is_finite rate = true -> cap.(cap_frames) = [] ->
            outcome = Raise Spec.no_frames).
  { intros H Hcap. apply is_finite_spec in H.
    assert (H10 : exists k, int_of_float (rate / 10) = Ok k).
    { apply int_of_float_finite. assert (H' := div_10_cases rate).
      destruct (Prim2SF rate); try contradiction; exact H'. }
    destruct H10 as [k Hk].
    assert (Hpre := preprocess_video_unfold cap w). fold rate in Hpre.
    rewrite Hk, Hcap in Hpre. cbv zeta in Hpre.
    unfold outcome. rewrite (process_video_after_sampling _ _ _ _ Hpre). reflexivity. }
  assert (Hover : is_finite rate = true -> cap.(cap_frames) <> [] ->
            is_finite (rate * 5) = false -> outcome = Raise OverflowError).
  { intros H Hcap H5. apply is_finite_spec in H.
    assert (Hcases := mul_5_cases rate).
    destruct (Prim2SF (rate * 5)) as [s | s | | s m e] eqn:Hprod.
    - assert (is_finite (rate * 5) = true) by (apply is_finite_spec; rewrite Hprod; exact I).
      congruence.
    - apply (process_video_latency_fails cap w s); assumption.
    - destruct (Prim2SF rate); try contradiction; congruence.
    - assert (is_finite (rate * 5) = true) by (apply is_finite_spec; rewrite Hprod; exact I).
      congruence. }
  assert (Hok : cap.(cap_frames) <> [] -> is_finite (rate * 5) = true ->
            exists metrics, outcome = Ok metrics).
  { intros Hcap H5. apply is_finite_spec in H5.
    destruct (process_video_total cap w Hlen Hcap H5) as [metrics [w' Hrun]].
    exists metrics. unfold outcome. rewrite Hrun. reflexivity. }
  repeat (split; [assumption |]).
  intros e He.
  destruct (is_nan rate) eqn:Enan.
  { rewrite (Hnan eq_refl) in He. injection He as <-. split; discriminate. }
  destruct (is_infinity rate) eqn:Einf.
  { rewrite (Hinf eq_refl) in He. injection He as <-. split; discriminate. }
  assert (Efin : is_finite rate = true) by (unfold is_finite; rewrite Enan, Einf; reflexivity).
  destruct (cap_frames cap) as [| frame rest] eqn:Ecap.
  { rewrite (Hempty Efin eq_refl) in He. injection He as <-. split; discriminate. }
  destruct (is_finite (rate * 5)) eqn:E5.
  - destruct (Hok ltac:(discriminate) eq_refl) as [metrics Hm]. congruence.
  - rewrite (Hover Efin ltac:(discriminate) eq_refl) in He. injection He as <-.
    split; discriminate.
Qed.

(** [process_video] fails in four ways only: a rate that is NaN
    ([ValueError]) or infinite ([OverflowError]) cannot be turned into a
    sampling step; a capture without frames gives the no-frames
    [ValueError]; and a finite rate so large that [fps * 5] overflows gives
    an [OverflowError], after the whole frame loop has run.  In every other
    case metrics are returned: no division by zero and no index error can
    occur. *)
Theorem process_video_outcome (cap : VideoCapture) (w : World)
    (Hlen : Z.of_nat (List.length cap.(cap_frames)) <= maxsize) :
  let rate := cap.(cap_fps) in
  let outcome := fst (process_video cap w) in
  (is_nan rate = true ->
     outcome = Raise (ValueError "cannot convert float NaN to integer"))
  /\ (is_infinity rate = true -> outcome = Raise OverflowError)
  /\ (is_finite rate = true -> cap.(cap_frames) = [] ->
      outcome = Raise Spec.no_frames)
  /\ (is_finite rate = true -> cap.(cap_frames) <> [] ->
      is_finite (rate * 5) = false -> outcome = Raise OverflowError)
  /\ (cap.(cap_frames) <> [] -> is_finite (rate * 5) = true ->
      exists metrics, outcome = Ok metrics)
  /\ (forall e, outcome = Raise e -> e <> ZeroDivisionError /\ e <> IndexError).
Proof. exact (process_video_cases cap w Hlen). Qed.

Lemma process_video_outcome_witness :
  fst (process_video (mkCapture 1e308 [Fixtures.empty]) (Fixtures.fresh 0.5))
  = Raise OverflowError
  /\ exists metrics,
       fst (process_video (mkCapture 30 [Fixtures.centered]) (Fixtures.fresh 0.5))
       = Ok metrics.
Proof.
  split.
  - apply (process_video_outcome (mkCapture 1e308 [Fixtures.empty]) (Fixtures.fresh 0.5));
      [cbn; unfold maxsize; lia | reflexivity | discriminate | reflexivity].
  - apply (process_video_outcome (mkCapture 30 [Fixtures.centered]) (Fixtures.fresh 0.5));
      [cbn; unfold maxsize; lia | discriminate | reflexivity].
Defined.

(** The steps of a successful run of [process_video], for any model. *)
Lemma process_video_steps (cap : VideoCapture) (w : World)
    (metrics : BehavioralMetrics) (w' : World) :
  Z.of_nat (List.length cap.(cap_frames)) <= maxsize ->
  process_video cap w = (Ok metrics, w') ->
  exists (k : Z) (c : Counters.t) (d latency : float) (w2 : World),
    let frames := sample_frames (Z.max 1 k) 0 cap.(cap_frames) in
    let n := Z.of_nat (List.length frames) in
    let w1 := snd (set_frame_count n (snd (set_fps cap.(cap_fps) w))) in
    int_of_float (cap.(cap_fps) / 10) = Ok k
    /\ 1 <= n <= maxsize
    /\ video_duration_minutes n cap.(cap_fps) = Ok d
    /\ is_positive (Prim2SF d)
    /\ process_frames frames Counters.zero w1 = (Ok c, w2)
    /\ w2.(self).(fps) = cap.(cap_fps)
    /\ calculate_response_latency frames w2 = (Ok latency, w')
    /\ metrics = BehavioralMetrics_init
                   (round1 (float_of_int (Counters.eye_contact_frames c)
                              / float_of_int n * 100))
                   (round1 (float_of_int (Counters.attention_shifts c) / d))
                   (round1 (float_of_int (Counters.gestures c) / d))
                   (round1 (float_of_int (Counters.social_gaze_frames c)
                              / float_of_int n * 100))
                   (round1 latency).
Proof.
  intros Hlen Hrun.
  assert (Hpre := preprocess_video_unfold cap w). cbv zeta in Hpre.
  destruct (int_of_float (cap_fps cap / 10)) as [k | e] eqn:Hk;
    [| unfold process_video, bind in Hrun; rewrite Hpre in Hrun; discriminate].
  rewrite (process_video_after_sampling _ _ _ _ Hpre) in Hrun.
  exists k. cbv zeta.
  set (frames := sample_frames (Z.max 1 k) 0 (cap_frames cap)) in *.
  set (w1 := snd (set_frame_count _ _)) in *.
  assert (Hfps1 : w1.(self).(fps) = cap_fps cap) by reflexivity.
  destruct (Z.eqb_spec (Z.of_nat (List.length frames)) 0) as [Hz | Hnz]; [discriminate |].
  assert (Hn : 1 <= Z.of_nat (List.length frames) <= maxsize).
  { assert (Hshort := sample_frames_length (Z.max 1 k) (cap_frames cap) 0).
    fold frames in Hshort. lia. }
  destruct (video_duration_minutes_positive _ (cap_fps cap) Hn) as [d [Hd [Hdpos _]]].
  unfold bind at 1 in Hrun. unfold get_self at 1 in Hrun. rewrite Hfps1 in Hrun.
  unfold bind at 1 in Hrun. unfold lift at 1 in Hrun. rewrite Hd in Hrun.
  destruct (process_frames_total frames Counters.zero w1) as [c [w2 [Hloop Hfps2]]].
  unfold bind at 1 in Hrun. rewrite Hloop in Hrun.
  assert (Hnpos : is_positive (Prim2SF (float_of_int (Z.of_nat (List.length frames)))))
    by (apply float_of_int_sign; lia).
  assert (Hdp : is_positive (Prim2SF d)) by (apply ltb_zero_iff_positive; exact Hdpos).
  unfold bind at 1 in Hrun. unfold lift at 1, truediv at 1 in Hrun.
  rewrite (eqb_zero_positive _ Hnpos) in Hrun.
  unfold bind at 1 in Hrun. unfold lift at 1, truediv at 1 in Hrun.
  rewrite (eqb_zero_positive _ Hdp) in Hrun.
  unfold bind at 1 in Hrun. unfold lift at 1, truediv at 1 in Hrun.
  rewrite (eqb_zero_positive _ Hdp) in Hrun.
  unfold bind at 1 in Hrun. unfold lift at 1, truediv at 1 in Hrun.
  rewrite (eqb_zero_positive _ Hnpos) in Hrun.
  apply bind_ok in Hrun. destruct Hrun as [latency [w3 [Hlat Hret]]].
  unfold ret in Hret. injection Hret as <- <-.
  exists c, d, latency, w2.
  split; [reflexivity |]. split; [exact Hn |]. split; [exact Hd |].
  split; [exact Hdp |]. split; [exact Hloop |].
  split; [congruence |]. split; [exact Hlat | reflexivity].
Qed.

(** ** Where the frames come from *)

(** X-sampling. *)
Theorem preprocess_video_sampling (cap : VideoCapture) (w w' : World)
    (frames : list Frame)
    (Hrun : preprocess_video cap w = (Ok frames, w')) :
  exists k,
    int_of_float (cap.(cap_fps) / 10) = Ok k
    /\ let frame_skip := Z.max 1 k in
       (forall i, nth_error frames i
                  = nth_error cap.(cap_frames) (i * Z.to_nat frame_skip))
       /\ Z.of_nat (List.length frames)
          = (Z.of_nat (List.length cap.(cap_frames)) + frame_skip - 1) / frame_skip
       /\ (cap.(cap_frames) <> [] -> frames <> [])
       /\ w'.(self).(fps) = cap.(cap_fps)
       /\ w'.(self).(frame_count) = Z.of_nat (List.length frames)
       /\ w'.(self).(previous_gaze) = w.(self).(previous_gaze)
       /\ w'.(np_random) = w.(np_random).
Proof.
  rewrite preprocess_video_unfold in Hrun. cbv zeta in Hrun.
  destruct (int_of_float (cap_fps cap / 10)) as [k | e]; [| discriminate].
  injection Hrun as <- <-. exists k. split; [reflexivity |]. cbv zeta.
  assert (Hk : 1 <= Z.max 1 k) by lia.
  assert (H0 : 0 mod Z.max 1 k = 0) by (apply Z.mod_0_l; lia).
  split; [intros i; apply sample_frames_nth; assumption |].
  split.
  { apply (sample_frames_count _ (List.length (cap_frames cap))); auto. }
  split; [| repeat split; reflexivity].
  intros Hcap. destruct (cap_frames cap) as [| frame rest]; [contradiction |].
  destruct (sample_frames_first _ frame rest Hk) as [tail ->]. discriminate.
Qed.

Lemma preprocess_video_sampling_witness :
  let numbered := map (fun i => mkFrame [mkRect i 0 1 1] [] None) [0; 1; 2; 3; 4; 5; 6] in
  exists frames w',
    preprocess_video (mkCapture 30 numbered) (Fixtures.fresh 0.5) = (Ok frames, w')
    /\ map faces frames = [[mkRect 0 0 1 1]; [mkRect 3 0 1 1]; [mkRect 6 0 1 1]]
    /\ nth_error frames 2 = nth_error numbered (2 * Z.to_nat (Z.max 1 3))
    /\ w'.(self).(frame_count) = 3.
Proof.
  intros numbered.
  pose (frames := map (fun i => mkFrame [mkRect i 0 1 1] [] None) [0; 3; 6]).
  pose (w' := mkWorld (mkModel None None 3 30 None) (mkRng (fun _ => 0.5%float) 0)).
  assert (Hrun : preprocess_video (mkCapture 30 numbered) (Fixtures.fresh 0.5)
                 = (Ok frames, w')) by (vm_compute; reflexivity).
  destruct (preprocess_video_sampling _ _ _ _ Hrun) as [k [Hk [Hnth [_ [_ [_ [Hcount _]]]]]]].
  exists frames, w'. split; [exact Hrun |]. split; [reflexivity |].
  vm_compute in Hk. injection Hk as <-.
  split; [exact (Hnth 2%nat) | exact Hcount].
Defined.

(** ** The order of binary64 numbers *)

Lemma compare_cont_antisym (m1 m2 : positive) :
  Pos.compare_cont Eq m2 m1 = CompOpp (Pos.compare_cont Eq m1 m2).
Proof. apply Pos.compare_antisym. Qed.

Lemma SFcompare_antisym (x y : spec_float) :
  SFcompare y x = option_map CompOpp (SFcompare x y).
Proof.
  destruct x as [[] | [] | | [] m1 e1], y as [[] | [] | | [] m2 e2]; try reflexivity;
    cbn [SFcompare option_map];
    rewrite (Z.compare_antisym e1 e2), (compare_cont_antisym m1 m2);
    destruct (e1 ?= e2); cbn [CompOpp]; try reflexivity;
    destruct (Pos.compare_cont Eq m1 m2); reflexivity.
Qed.

(** On numbers, [x >= y] is the negation of [x < y]. *)
Lemma leb_negb_ltb (x y : float) :
  is_nan x = false -> is_nan y = false ->
  (y <=? x)%float = negb (x <? y)%float.
Proof.
  intros Hx Hy.
  rewrite FloatAxioms.leb_spec, FloatAxioms.ltb_spec.
  unfold SFleb, SFltb. rewrite (SFcompare_antisym (Prim2SF x) (Prim2SF y)).
  assert (Hnx : Prim2SF x <> S754_nan)
    by (intros H; apply is_nan_spec in H; congruence).
  assert (Hny : Prim2SF y <> S754_nan)
    by (intros H; apply is_nan_spec in H; congruence).
  destruct (SFcompare (Prim2SF x) (Prim2SF y)) as [[] |] eqn:Hc; try reflexivity.
  destruct (Prim2SF x) as [[] | [] | | [] ? ?], (Prim2SF y) as [[] | [] | | [] ? ?];
    try discriminate; congruence.
Qed.

(** A comparison that holds has numbers on both sides. *)
Lemma leb_true_numbers (x y : float) :
  (x <=? y)%float = true -> is_nan x = false /\ is_nan y = false.
Proof.
  rewrite FloatAxioms.leb_spec. unfold SFleb. intros H.
  split; destruct (is_nan _) eqn:Hn; try reflexivity;
    apply is_nan_spec in Hn; rewrite Hn in H;
    destruct (Prim2SF _); discriminate.
Qed.

Lemma SFcompare_trans_le_lt (x y z : spec_float) :
  SFleb x y = true -> SFltb y z = true -> SFltb x z = true.
Proof.
  unfold SFleb, SFltb.
  destruct x as [[] | [] | | [] m1 e1], y as [[] | [] | | [] m2 e2],
           z as [[] | [] | | [] m3 e3];
    cbn [SFcompare]; try reflexivity; try discriminate;
    rewrite ?Pos.compare_cont_spec; cbn [Pos.switch_Eq];
    destruct (Z.compare_spec e1 e2), (Z.compare_spec e2 e3), (Z.compare_spec e1 e3);
    try discriminate; try reflexivity; try lia;
    destruct (Pos.compare_spec m1 m2), (Pos.compare_spec m2 m3), (Pos.compare_spec m1 m3);
    cbn [CompOpp]; try discriminate; try reflexivity; try lia.
Qed.

Lemma leb_ltb_trans (x y z : float) :
  (x <=? y)%float = true -> (y <? z)%float = true -> (x <? z)%float = true.
Proof.
  rewrite FloatAxioms.leb_spec, !FloatAxioms.ltb_spec. apply SFcompare_trans_le_lt.
Qed.

Lemma SFcompare_trans_lt_le (x y z : spec_float) :
  SFltb x y = true -> SFleb y z = true -> SFltb x z = true.
Proof.
  unfold SFleb, SFltb.
  destruct x as [[] | [] | | [] m1 e1], y as [[] | [] | | [] m2 e2],
           z as [[] | [] | | [] m3 e3];
    cbn [SFcompare]; try reflexivity; try discriminate;
    rewrite ?Pos.compare_cont_spec; cbn [Pos.switch_Eq];
    destruct (Z.compare_spec e1 e2), (Z.compare_spec e2 e3), (Z.compare_spec e1 e3);
    try discriminate; try reflexivity; try lia;
    destruct (Pos.compare_spec m1 m2), (Pos.compare_spec m2 m3), (Pos.compare_spec m1 m3);
    cbn [CompOpp]; try discriminate; try reflexivity; try lia.
Qed.

Lemma ltb_leb_trans (x y z : float) :
  (x <? y)%float = true -> (y <=? z)%float = true -> (x <? z)%float = true.
Proof.
  rewrite FloatAxioms.leb_spec, !FloatAxioms.ltb_spec. apply SFcompare_trans_lt_le.
Qed.

(** ** The risk score is monotone *)

Lemma classify_rank (bs : list bool) :
  List.length bs = 5%nat ->
  Obs.risk_rank (fst (Spec.classify (Spec.risk_percentage (Spec.count_true bs)))) =
  if Spec.count_true bs <=? 1 then 0
  else if Spec.count_true bs =? 2 then 1 else 2.
Proof.
  intros Hlen.
  destruct bs as [| [] [| [] [| [] [| [] [| [] [| ? ?]]]]]]; try discriminate;
    vm_compute; reflexivity.
Qed.

(** An improvement of the metrics (more eye contact, gestures and social
    gaze, fewer attention shifts, a shorter latency, the baselines being
    the same) never raises the risk level. *)
Theorem calculate_risk_score_monotone (better worse : BehavioralMetrics)
    (Hgood : Obs.at_least_as_good better worse) :
  Obs.risk_rank (fst (calculate_risk_score better))
  <= Obs.risk_rank (fst (calculate_risk_score worse)).
Proof.
  destruct Hgood as (Be & Ba & Bg & Bs & Bl & He & Ha & Hg & Hs & Hl).
  rewrite !calculate_risk_score_factors, !classify_rank by reflexivity.
  rewrite Be, Ba, Bg, Bs, Bl.
  assert (Ie : (better.(eye_contact_duration) <? worse.(eye_contact_baseline))%float = true ->
               (worse.(eye_contact_duration) <? worse.(eye_contact_baseline))%float = true)
    by (apply leb_ltb_trans; exact He).
  assert (Ia : (better.(attention_shifts) >? worse.(attention_shifts_baseline) * 1.3)%float = true ->
               (worse.(attention_shifts) >? worse.(attention_shifts_baseline) * 1.3)%float = true)
    by (intros H; exact (ltb_leb_trans _ _ _ H Ha)).
  assert (Ig : (better.(gesture_frequency) <? worse.(gesture_frequency_baseline) * 0.7)%float = true ->
               (worse.(gesture_frequency) <? worse.(gesture_frequency_baseline) * 0.7)%float = true)
    by (apply leb_ltb_trans; exact Hg).
  assert (Is : (better.(social_gaze) <? worse.(social_gaze_baseline))%float = true ->
               (worse.(social_gaze) <? worse.(social_gaze_baseline))%float = true)
    by (apply leb_ltb_trans; exact Hs).
  assert (Il : (better.(response_latency) >? worse.(response_latency_baseline) * 1.5)%float = true ->
               (worse.(response_latency) >? worse.(response_latency_baseline) * 1.5)%float = true)
    by (intros H; exact (ltb_leb_trans _ _ _ H Hl)).
  destruct (better.(eye_contact_duration) <? worse.(eye_contact_baseline))%float;
    [rewrite (Ie eq_refl) | destruct (worse.(eye_contact_duration) <? worse.(eye_contact_baseline))%float];
  (destruct (better.(attention_shifts) >? worse.(attention_shifts_baseline) * 1.3)%float;
    [rewrite (Ia eq_refl) | destruct (worse.(attention_shifts) >? worse.(attention_shifts_baseline) * 1.3)%float]);
  (destruct (better.(gesture_frequency) <? worse.(gesture_frequency_baseline) * 0.7)%float;
    [rewrite (Ig eq_refl) | destruct (worse.(gesture_frequency) <? worse.(gesture_frequency_baseline) * 0.7)%float]);
  (destruct (better.(social_gaze) <? worse.(social_gaze_baseline))%float;
    [rewrite (Is eq_refl) | destruct (worse.(social_gaze) <? worse.(social_gaze_baseline))%float]);
  (destruct (better.(response_latency) >? worse.(response_latency_baseline) * 1.5)%float;
    [rewrite (Il eq_refl) | destruct (worse.(response_latency) >? worse.(response_latency_baseline) * 1.5)%float]);
  vm_compute; discriminate.
Qed.

Lemma calculate_risk_score_monotone_witness :
  Obs.risk_rank (fst (calculate_risk_score (BehavioralMetrics_init 80.0 5.0 7.0 70.0 1.0)))
  <= Obs.risk_rank (fst (calculate_risk_score (BehavioralMetrics_init 68.0 12.0 4.0 45.0 2.3))).
Proof.
  apply calculate_risk_score_monotone.
  repeat split; reflexivity.
Defined.

(** ** The console summary and the report agree *)

Lemma get_status_higher (value baseline : float) :
  is_nan value = false -> is_nan baseline = false ->
  get_status value baseline true =
  if (value <? baseline)%float
  then ("⚠️  Below baseline"%string, "yellow"%string)
  else ("✅ Normal"%string, "green"%string).
Proof.
  intros Hv Hb. unfold get_status. rewrite (leb_negb_ltb value baseline Hv Hb).
  destruct (value <? baseline)%float; reflexivity.
Qed.

Lemma get_status_lower (value baseline : float) :
  is_nan value = false -> is_nan baseline = false ->
  get_status value baseline false =
  if (value >? baseline)%float
  then ("⚠️  Above baseline"%string, "yellow"%string)
  else ("✅ Normal"%string, "green"%string).
Proof.
  intros Hv Hb. unfold get_status. rewrite (leb_negb_ltb baseline value Hb Hv).
  destruct (baseline <? value)%float; reflexivity.
Qed.

(** On metrics without NaN the status [analyze_video] prints for a metric
    is "Normal" exactly when the report tags the metric on the good side of
    its baseline: above for eye contact, gestures and social gaze, below for
    attention shifts and latency. *)
Theorem get_status_agrees_with_report (m : BehavioralMetrics)
    (Hnum : Obs.numbers m) :
  let normal := Some "✅ Normal"%string in
  (Obs.printed_status m "EYE CONTACT DURATION" = normal
     <-> Spec.status (to_dict m) "eye_contact_duration" = Spec.above)
  /\ (Obs.printed_status m "ATTENTION SHIFTS" = normal
     <-> Spec.status (to_dict m) "attention_shifts" = Spec.below)
  /\ (Obs.printed_status m "GESTURE FREQUENCY" = normal
     <-> Spec.status (to_dict m) "gesture_frequency" = Spec.above)
  /\ (Obs.printed_status m "SOCIAL GAZE" = normal
     <-> Spec.status (to_dict m) "social_gaze" = Spec.above)
  /\ (Obs.printed_status m "RESPONSE LATENCY" = normal
     <-> Spec.status (to_dict m) "response_latency" = Spec.below).
Proof.
  unfold Obs.numbers in Hnum. cbn [forallb] in Hnum.
  repeat match type of Hnum with
         | (_ && _)%bool = true => apply andb_prop in Hnum; destruct Hnum as [? Hnum]
         end.
  repeat match goal with
         | H : negb (is_nan _) = true |- _ => apply negb_true_iff in H
         end.
  cbv zeta. unfold Obs.printed_status, analyze_video_statuses.
  cbn [find fst snd String.eqb Ascii.eqb Bool.eqb option_map].
  rewrite !get_status_higher, !get_status_lower by assumption.
  unfold Spec.status, to_dict.
  cbn [getitem assoc String.eqb Ascii.eqb Bool.eqb].
  destruct (m.(eye_contact_duration) <? m.(eye_contact_baseline))%float,
           (m.(gesture_frequency) <? m.(gesture_frequency_baseline))%float,
           (m.(social_gaze) <? m.(social_gaze_baseline))%float,
           (m.(attention_shifts) >? m.(attention_shifts_baseline))%float,
           (m.(response_latency) >? m.(response_latency_baseline))%float;
    cbn [fst]; repeat split; intros; try reflexivity; discriminate.
Qed.

Lemma get_status_agrees_with_report_witness :
  Obs.printed_status (BehavioralMetrics_init 75.0 12.0 4.0 45.0 2.3)
    "EYE CONTACT DURATION" = Some "✅ Normal"%string
  /\ Obs.printed_status (BehavioralMetrics_init 75.0 12.0 4.0 45.0 2.3)
       "RESPONSE LATENCY" <> Some "✅ Normal"%string.
Proof.
  destruct (get_status_agrees_with_report (BehavioralMetrics_init 75.0 12.0 4.0 45.0 2.3)
              eq_refl) as (He & _ & _ & _ & Hl).
  split; [apply He; reflexivity |].
  intros H. apply Hl in H. discriminate.
Defined.

(** ** The report *)


(** ** The detectors on short landmark lists *)

Lemma index_ok {A : Type} (xs : list A) (i : nat) :
  (i < List.length xs)%nat -> exists a, index xs i = Ok a /\ nth_error xs i = Some a.
Proof.
  intros Hi. unfold index.
  destruct (nth_error xs i) as [a |] eqn:Hn; [eauto |].
  apply nth_error_None in Hn. lia.
Qed.

Lemma index_error {A : Type} (xs : list A) (i : nat) :
  (List.length xs <= i)%nat -> index xs i = Raise IndexError.
Proof.
  intros Hi. unfold index. apply nth_error_None in Hi. rewrite Hi. reflexivity.
Qed.

(** [detect_gestures]: no hand gives false; a hand of fewer than nine
    landmarks raises [IndexError], which the [except TypeError] clause does
    not catch; otherwise the signal says whether the index fingertip is
    more than 0.1 above the wrist. *)
Theorem detect_gestures_cases (hand_landmarks : list MockLandmark.t) :
  detect_gestures None = Ok false
  /\ detect_gestures (Some []) = Ok false
  /\ (detect_gestures (Some hand_landmarks) = Raise IndexError
      <-> (1 <= List.length hand_landmarks <= 8)%nat)
  /\ (forall e, detect_gestures (Some hand_landmarks) = Raise e -> e = IndexError)
  /\ (forall index_finger_tip wrist,
        nth_error hand_landmarks 8 = Some index_finger_tip ->
        nth_error hand_landmarks 0 = Some wrist ->
        detect_gestures (Some hand_landmarks)
        = Ok (MockLandmark.y index_finger_tip <? MockLandmark.y wrist - 0.1)%float).
Proof.
  split; [reflexivity |]. split; [reflexivity |].
  assert (Hraise : forall e, detect_gestures (Some hand_landmarks) = Raise e -> e = IndexError).
  { intros e. unfold detect_gestures. destruct hand_landmarks as [| l0 tl]; [discriminate |].
    destruct (index (l0 :: tl) 8) eqn:H8, (index (l0 :: tl) 0) eqn:H0;
      try discriminate; intros H; injection H as <-; eauto using index_raises. }
  split; [| split; [exact Hraise |]].
  - split.
    + intros H. destruct hand_landmarks as [| l0 tl]; [discriminate |].
      split; [cbn; lia |].
      destruct (Nat.le_gt_cases (List.length (l0 :: tl)) 8) as [Hle | Hgt]; [exact Hle |].
      unfold detect_gestures in H.
      destruct (index_ok (l0 :: tl) 8 Hgt) as [a [Ha _]].
      rewrite Ha in H. cbn [index nth_error] in H. discriminate.
    + intros [Hlo Hhi]. destruct hand_landmarks as [| l0 tl]; [cbn in Hlo; lia |].
      unfold detect_gestures. rewrite (index_error (l0 :: tl) 8 Hhi). reflexivity.
  - intros tip wrist H8 H0. destruct hand_landmarks as [| l0 tl]; [discriminate |].
    unfold detect_gestures, index. rewrite H8, H0. reflexivity.
Qed.

(** [calculate_social_gaze]: no face gives false; a landmark list without
    the entries 468 and 473 raises [IndexError]; otherwise the signal says
    whether the mean of the two iris heights is below 0.55. *)
Theorem calculate_social_gaze_cases (face_landmarks : list MockLandmark.t) :
  calculate_social_gaze None = Ok false
  /\ calculate_social_gaze (Some []) = Ok false
  /\ (calculate_social_gaze (Some face_landmarks) = Raise IndexError
      <-> (1 <= List.length face_landmarks <= 473)%nat)
  /\ (forall e, calculate_social_gaze (Some face_landmarks) = Raise e -> e = IndexError)
  /\ (forall left_iris right_iris,
        nth_error face_landmarks 468 = Some left_iris ->
        nth_error face_landmarks 473 = Some right_iris ->
        calculate_social_gaze (Some face_landmarks)
        = Ok (snd (gaze_point left_iris right_iris) <? 0.55)%float).
Proof.
  split; [reflexivity |]. split; [reflexivity |].
  split; [| split; [intros e; apply calculate_social_gaze_raises |]].
  - split.
    + intros H. destruct face_landmarks as [| l0 tl]; [discriminate |].
      split; [cbn; lia |].
      destruct (Nat.le_gt_cases (List.length (l0 :: tl)) 473) as [Hle | Hgt]; [exact Hle |].
      unfold calculate_social_gaze in H.
      destruct (index_ok (l0 :: tl) 468 ltac:(lia)) as [a [Ha _]].
      destruct (index_ok (l0 :: tl) 473 Hgt) as [b [Hb _]].
      rewrite Ha, Hb in H. discriminate.
    + intros [Hlo Hhi]. destruct face_landmarks as [| l0 tl]; [cbn in Hlo; lia |].
      unfold calculate_social_gaze. rewrite (index_error (l0 :: tl) 473 Hhi).
      destruct (index (l0 :: tl) 468) as [a | e] eqn:H468; [reflexivity |].
      apply index_raises in H468. subst e. reflexivity.
  - intros left_iris right_iris H468 H473.
    destruct face_landmarks as [| l0 tl]; [discriminate |].
    unfold calculate_social_gaze, index. rewrite H468, H473. reflexivity.
Qed.

(** [detect_eye_contact] raises exactly on the non-empty landmark lists
    that lack the entry 473, and then raises [IndexError]. *)
Theorem detect_eye_contact_index_error (face_landmarks : list MockLandmark.t) :
  (detect_eye_contact (Some face_landmarks) = Raise IndexError
   <-> (1 <= List.length face_landmarks <= 473)%nat)
  /\ (forall e, detect_eye_contact (Some face_landmarks) = Raise e -> e = IndexError)
  /\ ((474 <= List.length face_landmarks)%nat ->
      exists signal, detect_eye_contact (Some face_landmarks) = Ok signal).
Proof.
  split; [| split; [intros e; apply detect_eye_contact_raises |]].
  - split.
    + intros H. destruct face_landmarks as [| l0 tl]; [discriminate |].
      split; [cbn; lia |].
      destruct (Nat.le_gt_cases (List.length (l0 :: tl)) 473) as [Hle | Hgt]; [exact Hle |].
      unfold detect_eye_contact in H.
      destruct (index_ok (l0 :: tl) 468 ltac:(lia)) as [a [Ha _]].
      destruct (index_ok (l0 :: tl) 473 Hgt) as [b [Hb _]].
      rewrite Ha, Hb in H. discriminate.
    + intros [Hlo Hhi]. destruct face_landmarks as [| l0 tl]; [cbn in Hlo; lia |].
      unfold detect_eye_contact. rewrite (index_error (l0 :: tl) 473 Hhi).
      destruct (index (l0 :: tl) 468) as [a | e] eqn:H468; [reflexivity |].
      apply index_raises in H468. subst e. reflexivity.
  - intros Hlen. destruct face_landmarks as [| l0 tl]; [cbn in Hlen; lia |].
    unfold detect_eye_contact.
    destruct (index_ok (l0 :: tl) 468 ltac:(lia)) as [a [Ha _]].
    destruct (index_ok (l0 :: tl) 473 ltac:(lia)) as [b [Hb _]].
    rewrite Ha, Hb. eauto.
Qed.

(** ** Frames with and without a face *)

(** The hand part of an iteration touches the gesture counter only and
    leaves the model as it is. *)
Lemma process_hands_effect (c : Counters.t) (w : World) :
  exists c' w',
    process_hands c w = (Ok c', w')
    /\ w'.(self) = w.(self)
    /\ Counters.eye_contact_frames c' = Counters.eye_contact_frames c
    /\ Counters.attention_shifts c' = Counters.attention_shifts c
    /\ Counters.social_gaze_frames c' = Counters.social_gaze_frames c
    /\ Counters.gestures c <= Counters.gestures c' <= Counters.gestures c + 1.
Proof.
  unfold process_hands, bind, get_self, random, ret.
  destruct (hands_detector (self w)).
  - exists c, w. repeat split; lia.
  - cbn [self np_random draws cursor].
    destruct (0.7 <? _)%float; do 2 eexists; (split; [reflexivity |]);
      cbn; repeat split; lia.
Qed.

(** One iteration of the frame loop, seen from the face counters. *)
Lemma process_frame_effect (frame : Frame) (c : Counters.t) (w : World) :
  exists c' w',
    process_frame frame c w = (Ok c', w')
    /\ w'.(self).(hands_detector) = w.(self).(hands_detector)
    /\ (let seen := if Obs.has_face frame then 1 else 0 in
        Counters.eye_contact_frames c <= Counters.eye_contact_frames c'
          <= Counters.eye_contact_frames c + seen
        /\ Counters.social_gaze_frames c <= Counters.social_gaze_frames c'
          <= Counters.social_gaze_frames c + seen
        /\ Counters.attention_shifts c <= Counters.attention_shifts c'
          <= Counters.attention_shifts c + seen)
    /\ (Obs.has_face frame = false ->
        w'.(self).(previous_gaze) = w.(self).(previous_gaze))
    /\ (Obs.has_face frame = true ->
        w'.(self).(previous_gaze) <> None
        /\ (w.(self).(previous_gaze) = None ->
            Counters.attention_shifts c' = Counters.attention_shifts c)).
Proof.
  destruct w as [m [stream k]]. unfold process_frame.
  destruct (frame_face_landmarks_run frame m stream k) as [found [Hrun Hfound]].
  unfold bind at 1. rewrite Hrun.
  destruct found as [lms |].
  - destruct Hfound as [left_iris [right_iris [H468 [H473 _]]]].
    destruct (process_face_run lms left_iris right_iris c
                (mkWorld m (mkRng stream (Spec.landmark_draws frame + k))) H468 H473)
      as [eye_contact [social [_ [_ Hface]]]].
    unfold bind. rewrite Hface.
    match goal with
    | |- context [process_hands ?c1 ?w1] =>
        destruct (process_hands_effect c1 w1)
          as [c' [w' [Hh [Hself [He [Ha [Hs _]]]]]]]
    end.
    exists c', w'. rewrite Hh. split; [reflexivity |].
    rewrite Hself, He, Ha, Hs.
    assert (Hface1 : Obs.has_face frame = true).
    { unfold Obs.has_face. unfold frame_face_landmarks in Hrun.
      destruct (faces frame); [discriminate | reflexivity]. }
    rewrite Hface1.
    cbn [Counters.eye_contact_frames Counters.social_gaze_frames Counters.attention_shifts
         self previous_gaze hands_detector Spec.remember set_previous_gaze snd].
    split; [reflexivity |].
    split; [| split; [discriminate |]].
    + cbv zeta. destruct eye_contact, social,
        (match previous_gaze m with None => false | Some _ => _ end); repeat split; lia.
    + intros _. unfold Spec.remember, set_previous_gaze. cbn [snd self previous_gaze].
      split; [discriminate |]. intros ->. reflexivity.
  - unfold bind, process_face, ret.
    destruct (process_hands_effect c (mkWorld m (mkRng stream (Spec.landmark_draws frame + k))))
      as [c' [w' [Hh [Hself [He [Ha [Hs _]]]]]]].
    exists c', w'. rewrite Hh. split; [reflexivity |].
    rewrite Hself, He, Ha, Hs.
    assert (Hface0 : Obs.has_face frame = false)
      by (unfold Obs.has_face; rewrite Hfound; reflexivity).
    rewrite Hface0. cbn [self]. split; [reflexivity |].
    split; [cbv zeta; lia |]. split; [reflexivity | discriminate].
Qed.

Lemma face_frames_cons (frame : Frame) (rest : list Frame) :
  Obs.face_frames (frame :: rest)
  = (if Obs.has_face frame then 1 else 0) + Obs.face_frames rest.
Proof.
  unfold Obs.face_frames. cbn [filter]. destruct (Obs.has_face frame); cbn [List.length]; lia.
Qed.

Lemma face_frames_nonneg (frames : list Frame) : 0 <= Obs.face_frames frames.
Proof. unfold Obs.face_frames. lia. Qed.

(** The face counters of the frame loop against the number of frames that
    show a face. *)
Lemma process_frames_face_counts (frames : list Frame) :
  forall (c : Counters.t) (w : World),
  exists c' w',
    process_frames frames c w = (Ok c', w')
    /\ Counters.eye_contact_frames c <= Counters.eye_contact_frames c'
         <= Counters.eye_contact_frames c + Obs.face_frames frames
    /\ Counters.social_gaze_frames c <= Counters.social_gaze_frames c'
         <= Counters.social_gaze_frames c + Obs.face_frames frames
    /\ Counters.attention_shifts c <= Counters.attention_shifts c'
         <= Counters.attention_shifts c + Obs.face_frames frames
    /\ (w.(self).(previous_gaze) = None ->
        Counters.attention_shifts c'
        <= Counters.attention_shifts c + Z.max 0 (Obs.face_frames frames - 1))
    /\ (Obs.face_frames frames = 0 ->
        w'.(self).(previous_gaze) = w.(self).(previous_gaze)).
Proof.
  induction frames as [| frame rest IH]; intros c w.
  - exists c, w. cbn. repeat split; lia.
  - destruct (process_frame_effect frame c w)
      as [c1 [w1 [Hrun [_ [Hcount [Hnoface Hface]]]]]].
    destruct (IH c1 w1) as [c2 [w2 [Hrun2 [He [Hs [Ha [Hfirst Hkeep]]]]]]].
    exists c2, w2. cbn [process_frames]. unfold bind. rewrite Hrun, Hrun2.
    split; [reflexivity |].
    rewrite face_frames_cons. assert (Hnn := face_frames_nonneg rest).
    cbv zeta in Hcount. destruct (Obs.has_face frame).
    + destruct (Hface eq_refl) as [Hsome Hnoshift].
      repeat split; try lia.
      * intros Hnone. specialize (Hnoshift Hnone). lia.
    + specialize (Hnoface eq_refl).
      repeat split; try lia.
      * intros Hnone. rewrite <- Hnoface in Hnone. specialize (Hfirst Hnone). lia.
      * intros Hzero. rewrite (Hkeep ltac:(lia)). exact Hnoface.
Qed.

(** The frame loop counts eye contact, social gaze and attention shifts on
    frames with a face only; frames without a face leave the remembered
    gaze alone; and with nothing remembered at the start, the first face
    seen is never a shift. *)
Theorem process_frames_counts_faces (frames : list Frame) (c : Counters.t) (w : World) :
  exists c' w',
    process_frames frames c w = (Ok c', w')
    /\ Counters.eye_contact_frames c <= Counters.eye_contact_frames c'
         <= Counters.eye_contact_frames c + Obs.face_frames frames
    /\ Counters.social_gaze_frames c <= Counters.social_gaze_frames c'
         <= Counters.social_gaze_frames c + Obs.face_frames frames
    /\ Counters.attention_shifts c <= Counters.attention_shifts c'
         <= Counters.attention_shifts c + Obs.face_frames frames
    /\ (w.(self).(previous_gaze) = None ->
        Counters.attention_shifts c'
        <= Counters.attention_shifts c + Z.max 0 (Obs.face_frames frames - 1))
    /\ (Obs.face_frames frames = 0 ->
        w'.(self).(previous_gaze) = w.(self).(previous_gaze)).
Proof. apply process_frames_face_counts. Qed.

(** ** A video without a face *)

Lemma sample_frames_Forall (P : Frame -> Prop) (frame_skip : Z) (fs : list Frame) :
  Forall P fs -> forall frame_idx, Forall P (sample_frames frame_skip frame_idx fs).
Proof.
  induction 1 as [| frame rest Hframe Hrest IH]; intros frame_idx; cbn [sample_frames].
  - constructor.
  - destruct (frame_idx mod frame_skip =? 0); [constructor; [exact Hframe |] |]; apply IH.
Qed.

Lemma face_frames_none (frames : list Frame) :
  Forall (fun frame => frame.(faces) = []) frames -> Obs.face_frames frames = 0.
Proof.
  induction 1 as [| frame rest Hframe Hrest IH]; [reflexivity |].
  rewrite face_frames_cons, IH. unfold Obs.has_face. rewrite Hframe. reflexivity.
Qed.

(** Zero divided by a positive number is zero. *)
Lemma zero_div_positive (x : float) :
  is_positive (Prim2SF x) -> (0 / x)%float = 0%float.
Proof.
  intros Hx. rewrite <- (SF2Prim_Prim2SF (0 / x)), FloatAxioms.div_spec.
  replace (Prim2SF 0) with (S754_zero false) by reflexivity.
  destruct (Prim2SF x) as [[] | [] | | [] m e]; try contradiction; reflexivity.
Qed.

(** The latency estimate reads random numbers and nothing else: the model
    is as before. *)
Lemma calculate_response_latency_self (frames : list Frame) (w w' : World)
    (latency : float) :
  calculate_response_latency frames w = (Ok latency, w') -> w'.(self) = w.(self).
Proof.
  destruct w as [m [stream k]].
  unfold calculate_response_latency, bind, get_self, lift. cbn [self].
  destruct (int_of_float (fps m * 5)) as [bound | e] eqn:Hbound; [| discriminate].
  destruct (m.(fps) =? 0)%float eqn:Hfps.
  - rewrite (int_of_float_mul5_zero _ Hfps) in Hbound. injection Hbound as <-.
    replace (slice_to frames 0) with (@nil Frame)
      by (unfold slice_to; cbn [Z.ltb Z.compare]; rewrite Z.min_l by lia; reflexivity).
    cbn. intros H. injection H as _ <-. reflexivity.
  - rewrite first_eye_contact_run by exact Hfps.
    destruct (Spec.first_mock_contact stream k 0 _); cbn; intros H; injection H as _ <-;
      reflexivity.
Qed.

(** Two risk factors among the five exclude the lowest level. *)
Lemma two_factors_not_low (attention gesture latency : float)
    (eye_contact gaze : float) :
  (eye_contact <? 75.0)%float = true -> (gaze <? 60.0)%float = true ->
  fst (calculate_risk_score
         (BehavioralMetrics_init eye_contact attention gesture gaze latency))
  <> "Low Risk"%string.
Proof.
  intros He Hs. rewrite calculate_risk_score_factors.
  cbn [eye_contact_duration eye_contact_baseline attention_shifts attention_shifts_baseline
       gesture_frequency gesture_frequency_baseline social_gaze social_gaze_baseline
       response_latency response_latency_baseline BehavioralMetrics_init].
  rewrite He, Hs.
  destruct (_ <? attention)%float, (gesture <? _)%float, (_ <? latency)%float;
    vm_compute; discriminate.
Qed.

(** A video in which no frame shows a face gets 0 for eye contact, social
    gaze and attention shifts; two of the five risk factors hold, so the
    risk level is never the lowest; and the gaze the model remembers is the
    one it remembered before. *)
Theorem faceless_video_metrics (cap : VideoCapture) (w w' : World)
    (metrics : BehavioralMetrics)
    (Hlen : Z.of_nat (List.length cap.(cap_frames)) <= maxsize)
    (Hfaces : Forall (fun frame => frame.(faces) = []) cap.(cap_frames))
    (Hrun : process_video cap w = (Ok metrics, w')) :
  metrics.(eye_contact_duration) = 0%float
  /\ metrics.(social_gaze) = 0%float
  /\ metrics.(attention_shifts) = 0%float
  /\ fst (calculate_risk_score metrics) <> "Low Risk"%string
  /\ w'.(self).(previous_gaze) = w.(self).(previous_gaze).
Proof.
  destruct (process_video_steps cap w metrics w' Hlen Hrun)
    as (k & c & d & latency & w2 & Hk & Hn & Hd & Hdpos & Hloop & Hfps & Hlat & ->).
  cbv zeta in *.
  set (frames := sample_frames (Z.max 1 k) 0 (cap_frames cap)) in *.
  assert (Hnone : Obs.face_frames frames = 0)
    by (apply face_frames_none, sample_frames_Forall; exact Hfaces).
  destruct (process_frames_face_counts frames Counters.zero
              (snd (set_frame_count (Z.of_nat (List.length frames))
                      (snd (set_fps (cap_fps cap) w)))))
    as [c' [w2' [Hloop' [He [Hs [Ha [_ Hkeep]]]]]]].
  rewrite Hloop in Hloop'. injection Hloop' as <- <-.
  rewrite Hnone in He, Hs, Ha. cbn [Counters.zero Counters.eye_contact_frames
    Counters.social_gaze_frames Counters.attention_shifts] in He, Hs, Ha.
  assert (He0 : Counters.eye_contact_frames c = 0) by lia.
  assert (Hs0 : Counters.social_gaze_frames c = 0) by lia.
  assert (Ha0 : Counters.attention_shifts c = 0) by lia.
  rewrite He0, Hs0, Ha0.
  assert (Hnpos : is_positive (Prim2SF (float_of_int (Z.of_nat (List.length frames)))))
    by (apply float_of_int_sign; lia).
  change (float_of_int 0) with 0%float.
  rewrite (zero_div_positive _ Hnpos), (zero_div_positive _ Hdpos).
  change (round1 (0 * 100)) with 0%float. change (round1 0) with 0%float.
  cbn [eye_contact_duration social_gaze attention_shifts BehavioralMetrics_init].
  repeat (split; [reflexivity |]).
  split; [apply two_factors_not_low; reflexivity |].
  rewrite (calculate_response_latency_self _ _ _ _ Hlat).
  rewrite (Hkeep Hnone). reflexivity.
Qed.

Lemma faceless_video_metrics_witness :
  exists metrics w',
    process_video (mkCapture 30 (repeat Fixtures.empty 5)) (Fixtures.fresh 0.9)
    = (Ok metrics, w')
    /\ metrics.(eye_contact_duration) = 0%float
    /\ fst (calculate_risk_score metrics) <> "Low Risk"%string.
Proof.
  destruct (process_video (mkCapture 30 (repeat Fixtures.empty 5)) (Fixtures.fresh 0.9))
    as [[metrics | e] w'] eqn:Hrun; [| vm_compute in Hrun; discriminate].
  exists metrics, w'. split; [reflexivity |].
  destruct (faceless_video_metrics (mkCapture 30 (repeat Fixtures.empty 5))
              (Fixtures.fresh 0.9) w' metrics) as (He & _ & _ & Hrisk & _).
  - cbn. unfold maxsize. lia.
  - repeat constructor.
  - exact Hrun.
  - split; assumption.
Defined.

(** ** What the random numbers decide *)

(** With a detected eye the landmarks of a frame are built without a
    random draw. *)
Lemma frame_face_landmarks_detected (frame : Frame) (w : World) :
  frame.(eyes) <> [] ->
  exists found,
    frame_face_landmarks frame w = (Ok found, w)
    /\ forall w2, frame_face_landmarks frame w2 = (Ok found, w2).
Proof.
  intros Heyes. unfold frame_face_landmarks.
  destruct (faces frame) as [| face others].
  - exists None. split; [reflexivity | intros w2; reflexivity].
  - destruct (eyes frame) as [| e1 rest]; [contradiction |].
    eexists. split; [reflexivity | intros w2; reflexivity].
Qed.

(** The face part of an iteration depends on the world through the model
    only. *)
Lemma process_face_model (found : option (list MockLandmark.t))
    (ca cb : Counters.t) (wa wb : World) :
  wa.(self) = wb.(self) ->
  Counters.eye_contact_frames ca = Counters.eye_contact_frames cb ->
  Counters.attention_shifts ca = Counters.attention_shifts cb ->
  Counters.social_gaze_frames ca = Counters.social_gaze_frames cb ->
  match process_face found ca wa, process_face found cb wb with
  | (Ok ca', wa'), (Ok cb', wb') =>
      wa'.(self) = wb'.(self)
      /\ wa'.(np_random) = wa.(np_random) /\ wb'.(np_random) = wb.(np_random)
      /\ Counters.eye_contact_frames ca' = Counters.eye_contact_frames cb'
      /\ Counters.attention_shifts ca' = Counters.attention_shifts cb'
      /\ Counters.social_gaze_frames ca' = Counters.social_gaze_frames cb'
  | (Raise ea, _), (Raise eb, _) => ea = eb
  | _, _ => False
  end.
Proof.
  intros Hself He Ha Hs. destruct wa as [ma ra], wb as [mb rb]. cbn [self] in Hself. subst mb.
  unfold process_face.
  destruct found as [[| l0 tl] |]; try (cbn; repeat split; assumption).
  unfold bind, lift, ret.
  destruct (detect_eye_contact (Some (l0 :: tl))) as [eye_contact | e];
    cbv beta iota; [| reflexivity].
  destruct (index (l0 :: tl) 468) as [left_iris | e]; cbv beta iota; [| reflexivity].
  destruct (index (l0 :: tl) 473) as [right_iris | e]; cbv beta iota; [| reflexivity].
  rewrite !detect_attention_shift_run.
  destruct (calculate_social_gaze (Some (l0 :: tl))) as [social | e];
    cbv beta iota; [| reflexivity].
  unfold Spec.remember, set_previous_gaze.
  cbn [snd self np_random previous_gaze Counters.eye_contact_frames
       Counters.attention_shifts Counters.social_gaze_frames].
  rewrite He, Ha, Hs. repeat split; reflexivity.
Qed.

(** On frames whose gaze is read off the detections, the face counters
    and the model after the frame loop do not depend on the random
    numbers. *)
Lemma process_frames_detected (frames : list Frame) :
  Forall Obs.gaze_detected frames ->
  forall (ca cb : Counters.t) (wa wb : World),
  wa.(self) = wb.(self) ->
  Counters.eye_contact_frames ca = Counters.eye_contact_frames cb ->
  Counters.attention_shifts ca = Counters.attention_shifts cb ->
  Counters.social_gaze_frames ca = Counters.social_gaze_frames cb ->
  forall ca' wa' cb' wb',
  process_frames frames ca wa = (Ok ca', wa') ->
  process_frames frames cb wb = (Ok cb', wb') ->
  wa'.(self) = wb'.(self)
  /\ Counters.eye_contact_frames ca' = Counters.eye_contact_frames cb'
  /\ Counters.attention_shifts ca' = Counters.attention_shifts cb'
  /\ Counters.social_gaze_frames ca' = Counters.social_gaze_frames cb'.
Proof.
  induction 1 as [| frame rest Hframe Hrest IH];
    intros ca cb wa wb Hself He Ha Hs ca' wa' cb' wb' Hra Hrb.
  - cbn in Hra, Hrb. injection Hra as <- <-. injection Hrb as <- <-. auto.
  - cbn [process_frames] in Hra, Hrb.
    apply bind_ok in Hra. destruct Hra as [ca1 [wa1 [Hfa Hra]]].
    apply bind_ok in Hrb. destruct Hrb as [cb1 [wb1 [Hfb Hrb]]].
    refine (IH ca1 cb1 wa1 wb1 _ _ _ _ ca' wa' cb' wb' Hra Hrb);
      unfold process_frame in Hfa, Hfb;
      apply bind_ok in Hfa; destruct Hfa as [fa [wa0 [Hla Hfa]]];
      apply bind_ok in Hfb; destruct Hfb as [fb [wb0 [Hlb Hfb]]];
      apply bind_ok in Hfa; destruct Hfa as [ca0 [wa2 [Hpa Hha]]];
      apply bind_ok in Hfb; destruct Hfb as [cb0 [wb2 [Hpb Hhb]]];
      (assert (Hsame : fa = fb /\ wa0.(self) = wb0.(self));
       [ destruct Hframe as [Hno | Heyes];
         [ unfold frame_face_landmarks in Hla, Hlb; rewrite Hno in Hla, Hlb;
           injection Hla as <- <-; injection Hlb as <- <-; split; [reflexivity | exact Hself]
         | destruct (frame_face_landmarks_detected frame wa Heyes) as [found [Hfa' Hall]];
           rewrite Hfa' in Hla; rewrite (Hall wb) in Hlb;
           injection Hla as <- <-; injection Hlb as <- <-; split; [reflexivity | exact Hself] ]
       | ]);
      destruct Hsame as [<- Hself0];
      assert (Hface := process_face_model fa ca cb wa0 wb0 Hself0 He Ha Hs);
      rewrite Hpa, Hpb in Hface;
      destruct Hface as (Hself2 & _ & _ & He2 & Ha2 & Hs2);
      destruct (process_hands_effect ca0 wa2) as [xa [ya [Hxa [Hsa [Hea [Haa [Hsa' _]]]]]]];
      destruct (process_hands_effect cb0 wb2) as [xb [yb [Hxb [Hsb [Heb [Hab [Hsb' _]]]]]]];
      rewrite Hxa in Hha; injection Hha as <- <-;
      rewrite Hxb in Hhb; injection Hhb as <- <-;
      congruence.
Qed.

(** When every frame with a face also has a detected eye, the random
    numbers decide the gesture frequency and the response latency only:
    two runs on the same model that read different random numbers report
    the same eye contact, attention shifts and social gaze, and leave the
    same model behind. *)
Theorem detected_metrics_ignore_random (cap : VideoCapture)
    (m : AutismScreeningModel) (rng_a rng_b : Rng)
    (metrics_a metrics_b : BehavioralMetrics) (wa wb : World)
    (Hlen : Z.of_nat (List.length cap.(cap_frames)) <= maxsize)
    (Hdetected : Forall Obs.gaze_detected cap.(cap_frames))
    (Hrun_a : process_video cap (mkWorld m rng_a) = (Ok metrics_a, wa))
    (Hrun_b : process_video cap (mkWorld m rng_b) = (Ok metrics_b, wb)) :
  metrics_a.(eye_contact_duration) = metrics_b.(eye_contact_duration)
  /\ metrics_a.(attention_shifts) = metrics_b.(attention_shifts)
  /\ metrics_a.(social_gaze) = metrics_b.(social_gaze)
  /\ wa.(self) = wb.(self).
Proof.
  destruct (process_video_steps cap _ metrics_a wa Hlen Hrun_a)
    as (k & ca & d & la & wa2 & Hk & Hn & Hd & _ & Hloop_a & _ & Hlat_a & ->).
  destruct (process_video_steps cap _ metrics_b wb Hlen Hrun_b)
    as (k' & cb & d' & lb & wb2 & Hk' & _ & Hd' & _ & Hloop_b & _ & Hlat_b & ->).
  cbv zeta in *.
  assert (k' = k) by congruence. subst k'.
  assert (d' = d) by congruence. subst d'.
  assert (Hrel := fun Hmodel =>
            process_frames_detected _ (sample_frames_Forall _ _ _ Hdetected 0)
              Counters.zero Counters.zero _ _ Hmodel eq_refl eq_refl eq_refl
              ca wa2 cb wb2 Hloop_a Hloop_b).
  destruct (Hrel eq_refl) as (Hself & He & Ha & Hs).
  cbn [eye_contact_duration attention_shifts social_gaze BehavioralMetrics_init].
  rewrite He, Ha, Hs.
  repeat (split; [reflexivity |]).
  rewrite (calculate_response_latency_self _ _ _ _ Hlat_a),
          (calculate_response_latency_self _ _ _ _ Hlat_b).
  exact Hself.
Qed.

Lemma detected_metrics_ignore_random_witness :
  exists metrics_a metrics_b,
    fst (process_video (mkCapture 30 [Fixtures.centered; Fixtures.empty])
           (Fixtures.fresh 0.1)) = Ok metrics_a
    /\ fst (process_video (mkCapture 30 [Fixtures.centered; Fixtures.empty])
              (Fixtures.fresh 0.9)) = Ok metrics_b
    /\ metrics_a.(eye_contact_duration) = metrics_b.(eye_contact_duration)
    /\ metrics_a.(gesture_frequency) <> metrics_b.(gesture_frequency).
Proof.
  destruct (process_video (mkCapture 30 [Fixtures.centered; Fixtures.empty])
              (Fixtures.fresh 0.1)) as [[metrics_a | e] wa] eqn:Hrun_a;
    [| vm_compute in Hrun_a; discriminate].
  destruct (process_video (mkCapture 30 [Fixtures.centered; Fixtures.empty])
              (Fixtures.fresh 0.9)) as [[metrics_b | e] wb] eqn:Hrun_b;
    [| vm_compute in Hrun_b; discriminate].
  exists metrics_a, metrics_b. split; [reflexivity |]. split; [reflexivity |].
  split.
  - apply (detected_metrics_ignore_random
             (mkCapture 30 [Fixtures.centered; Fixtures.empty])
             AutismScreeningModel_init (mkRng (fun _ => 0.1%float) 0)
             (mkRng (fun _ => 0.9%float) 0) metrics_a metrics_b wa wb).
    + cbn. unfold maxsize. lia.
    + constructor; [right; discriminate |]. constructor; [left; reflexivity | constructor].
    + exact Hrun_a.
    + exact Hrun_b.
  - vm_compute in Hrun_a, Hrun_b. injection Hrun_a as <- _. injection Hrun_b as <- _.
    cbn. discriminate.
Defined.

(** ** A model that has seen a video before *)

(** The rate and the frame count a model recorded for an earlier video are
    overwritten before they are read: the outcome for the next video, and
    the model left behind by a successful run, are the same whatever these
    two fields held.  Of the model's state only the detectors and the
    remembered gaze can reach the next video. *)
Theorem process_video_ignores_recorded_rate (cap : VideoCapture)
    (m : AutismScreeningModel) (rng : Rng) (rate : float) (count : Z) :
  fst (process_video cap (mkWorld (Obs.with_rate m rate count) rng))
  = fst (process_video cap (mkWorld m rng))
  /\ (forall metrics w',
        process_video cap (mkWorld m rng) = (Ok metrics, w') ->
        process_video cap (mkWorld (Obs.with_rate m rate count) rng) = (Ok metrics, w')).
Proof.
  unfold process_video, bind. rewrite !preprocess_video_unfold. cbv zeta.
  destruct (int_of_float (cap_fps cap / 10)) as [k | e].
  - split; [reflexivity | intros metrics w' H; exact H].
  - split; [reflexivity | intros metrics w' H; discriminate].
Qed.

(** ** The landmarks of a detected eye *)

Lemma with_sign_number (s : bool) (r : spec_float) :
  r <> S754_nan -> Obs.with_sign s r <> S754_nan.
Proof. destruct r; cbn; congruence. Qed.

Lemma bra_number (s : bool) (m e : Z) (l : location) :
  0 <= m -> bra s m e l <> S754_nan.
Proof.
  intros Hm. rewrite bra_sign. apply with_sign_number.
  assert (H := bra_nonneg m e l Hm).
  destruct (bra false m e l) as [[] | [] | | [] ? ?]; try contradiction; discriminate.
Qed.

Lemma binary_round_number (s : bool) (m : positive) (e : Z) :
  binary_round prec emax s m e <> S754_nan.
Proof.
  unfold binary_round.
  destruct (shl_align m e _) as [mz ez]. apply bra_number. lia.
Qed.

Lemma binary_normalize_number (m e : Z) (szero : bool) :
  binary_normalize prec emax m e szero <> S754_nan.
Proof.
  destruct m; cbn [binary_normalize]; [discriminate | |]; apply binary_round_number.
Qed.

(** A sum with a finite term is a number when the other term is. *)
Lemma add_number (x y : spec_float) :
  Obs.finite x -> y <> S754_nan -> SF64add x y <> S754_nan.
Proof.
  intros Hx Hy. unfold SF64add, SFadd.
  destruct x as [sx | sx | | sx mx ex]; try contradiction;
    destruct y as [sy | sy | | sy my ey]; try congruence; try discriminate.
  - destruct sx, sy; discriminate.
  - apply binary_normalize_number.
Qed.

(** A number divided by a positive finite number is a number. *)
Lemma div_number (x y : spec_float) (my : positive) (ey : Z) :
  x <> S754_nan -> y = S754_finite false my ey -> SF64div x y <> S754_nan.
Proof.
  intros Hx ->. unfold SF64div, SFdiv.
  destruct x as [sx | sx | | sx mx ex]; try congruence; try discriminate.
  destruct (div_core_digits mx my ex ey) as (q & e' & l & Hcore & _ & Hq & _).
  rewrite Hcore. apply bra_number. exact Hq.
Qed.

(** An integer converts to a finite float. *)
Lemma float_of_int_finite (z : Z) : Obs.finite (Prim2SF (float_of_int z)).
Proof.
  assert (Hpos : forall i, Obs.finite (Prim2SF (of_uint63 i))).
  { intros i. rewrite of_uint63_spec.
    assert (Hi := Uint63.to_Z_bounded i).
    destruct (to_Z i) as [| p | p]; [exact I | | lia].
    cbn [binary_normalize].
    destruct (binary_round_int p) as [Hfin _]; [change wB with (2 ^ 63) in Hi; lia |].
    destruct (binary_round prec emax false p 0) as [[] | [] | | [] ? ?];
      try contradiction; exact I. }
  unfold float_of_int. destruct (z <? 0); [| apply Hpos].
  rewrite FloatAxioms.opp_spec. specialize (Hpos (of_Z (- z))).
  destruct (Prim2SF (of_uint63 (of_Z (- z)))); try contradiction; exact I.
Qed.

Lemma finite_number (s : spec_float) : Obs.finite s -> s <> S754_nan.
Proof. destruct s; try contradiction; discriminate. Qed.

(** [np.clip] with the bounds of the model returns a value inside the
    bounds whenever the value is a number. *)
Lemma clip_bounds (v : float) :
  Prim2SF v <> S754_nan ->
  (0.2 <=? clip v 0.2 0.8)%float = true /\ (clip v 0.2 0.8 <=? 0.8)%float = true.
Proof.
  intros Hv.
  assert (Hnum : is_nan v = false).
  { destruct (is_nan v) eqn:H; [| reflexivity]. apply is_nan_spec in H. contradiction. }
  unfold clip.
  destruct (v <? 0.2)%float eqn:Hlo; [split; reflexivity |].
  destruct (0.8 <? v)%float eqn:Hhi; [split; reflexivity |].
  split.
  - rewrite (leb_negb_ltb v 0.2 Hnum eq_refl), Hlo. reflexivity.
  - rewrite (leb_negb_ltb 0.8 v eq_refl Hnum), Hhi. reflexivity.
Qed.

(** The iris landmark built from a detected eye lies in the square
    [0.2, 0.8] x [0.2, 0.8], whatever rectangles the cascades report: the
    eye centre is always a number, and [np.clip] brings it into the
    bounds. *)
Theorem eye_landmark_clipped (face eye : Rect) :
  let landmark := eye_landmark face eye in
  (0.2 <=? MockLandmark.x landmark)%float = true
  /\ (MockLandmark.x landmark <=? 0.8)%float = true
  /\ (0.2 <=? MockLandmark.y landmark)%float = true
  /\ (MockLandmark.y landmark <=? 0.8)%float = true
  /\ MockLandmark.z landmark = 0%float.
Proof.
  assert (Hcentre : forall a b (size : float) ms es,
            Prim2SF size = S754_finite false ms es ->
            Prim2SF ((float_of_int a + float_of_int b / 2) / size) <> S754_nan).
  { intros a b size ms es Hsize.
    rewrite FloatAxioms.div_spec. apply (div_number _ _ ms es); [| exact Hsize].
    rewrite FloatAxioms.add_spec. apply add_number; [apply float_of_int_finite |].
    rewrite FloatAxioms.div_spec.
    apply (div_number _ _ 4503599627370496 (-51));
      [apply finite_number, float_of_int_finite | vm_compute; reflexivity]. }
  unfold eye_landmark. cbv zeta. cbn [MockLandmark.x MockLandmark.y MockLandmark.z].
  destruct (clip_bounds _ (Hcentre (rx face + rx eye) (rw eye)
                             (float_of_int (snd frame_shape)) _ _ eq_refl)) as [Hx1 Hx2].
  destruct (clip_bounds _ (Hcentre (ry face + ry eye) (rh eye)
                             (float_of_int (fst frame_shape)) _ _ eq_refl)) as [Hy1 Hy2].
  repeat split; assumption.
Qed.

(** ** The HTTP endpoints *)

(** Metrics that [process_video] returns are built by the constructor
    with the default baselines. *)
Lemma process_video_init (cap : VideoCapture) (w w' : World)
    (metrics : BehavioralMetrics) :
  process_video cap w = (Ok metrics, w') ->
  exists eye_contact attention gesture gaze latency,
    metrics = BehavioralMetrics_init eye_contact attention gesture gaze latency.
Proof.
  unfold process_video. intros H.
  apply bind_ok in H. destruct H as (frames & w1 & _ & H).
  destruct (Z.of_nat (List.length frames) =? 0); [discriminate |].
  do 8 (apply bind_ok in H; destruct H as (? & ? & _ & H)).
  unfold ret in H. injection H as <- _. eauto 6.
Qed.











(** The baselines [/api/baselines] publishes are the baselines of every
    metrics object [process_video] returns, and the ones its report
    shows. *)
Theorem get_baselines_match (cap : VideoCapture) (w w' : World)
    (metrics : BehavioralMetrics)
    (Hrun : process_video cap w = (Ok metrics, w')) :
  let published metric :=
    match getitem Api.get_baselines metric with
    | Some entry => getitem entry "baseline"
    | None => None
    end in
  let reported metric :=
    match getitem (to_dict metrics) "objective_signals" with
    | Some signals =>
        match getitem signals metric with
        | Some entry => getitem entry "baseline"
        | None => None
        end
    | None => None
    end in
  published "eye_contact_duration"%string = Some (PyFloat metrics.(eye_contact_baseline))
  /\ published "attention_shifts"%string = Some (PyFloat metrics.(attention_shifts_baseline))
  /\ published "gesture_frequency"%string = Some (PyFloat metrics.(gesture_frequency_baseline))
  /\ published "social_gaze"%string = Some (PyFloat metrics.(social_gaze_baseline))
  /\ published "response_latency"%string = Some (PyFloat metrics.(response_latency_baseline))
  /\ reported "eye_contact_duration"%string = Some (PyFmt 75.0 "%")
  /\ reported "attention_shifts"%string = Some (PyFmt 8.0 "/min")
  /\ reported "gesture_frequency"%string = Some (PyFmt 6.0 "/min")
  /\ reported "social_gaze"%string = Some (PyFmt 60.0 "%")
  /\ reported "response_latency"%string = Some (PyFmt 1.5 "s").
Proof.
  destruct (process_video_init cap w w' metrics Hrun)
    as (eye_contact & attention & gesture & gaze & latency & ->).
  cbv zeta. repeat split; reflexivity.
Qed.

Lemma get_baselines_match_witness :
  exists metrics,
    fst (process_video (mkCapture 30 [Fixtures.centered]) (Fixtures.fresh 0.5)) = Ok metrics
    /\ match getitem Api.get_baselines "social_gaze" with
       | Some entry => getitem entry "baseline"
       | None => None
       end = Some (PyFloat metrics.(social_gaze_baseline)).
Proof.
  destruct (process_video (mkCapture 30 [Fixtures.centered]) (Fixtures.fresh 0.5))
    as [[metrics | e] w'] eqn:Hrun; [| vm_compute in Hrun; discriminate].
  exists metrics. split; [reflexivity |].
  apply (get_baselines_match _ _ _ _ Hrun).
Defined.

(** ** The latency estimate is safe *)

(** [calculate_response_latency] returns, leaving the model as it was,
    whenever [fps * 5] is finite; it raises only on forming the window
    bound [int(fps * 5)], a [ValueError] when the product is NaN and an
    [OverflowError] when it is infinite.  The division [idx / fps] never
    divides by zero: a zero rate makes the window empty. *)
Theorem calculate_response_latency_safe (frames : list Frame) (w : World) :
  let product := (w.(self).(fps) * 5)%float in
  (is_finite product = true ->
     exists latency w',
       calculate_response_latency frames w = (Ok latency, w')
       /\ w'.(self) = w.(self))
  /\ (is_nan product = true ->
      calculate_response_latency frames w
      = (Raise (ValueError "cannot convert float NaN to integer"), w))
  /\ (is_infinity product = true ->
      calculate_response_latency frames w = (Raise OverflowError, w))
  /\ (forall e w', calculate_response_latency frames w = (Raise e, w') ->
      e <> ZeroDivisionError /\ e <> IndexError).
Proof.
  cbv zeta.
  assert (Hfin : is_finite (fps (self w) * 5) = true ->
     exists latency w',
       calculate_response_latency frames w = (Ok latency, w')
       /\ w'.(self) = w.(self)).
  { intros H. apply is_finite_spec, int_of_float_finite in H. destruct H as [bound Hbound].
    destruct (calculate_response_latency_total frames w bound Hbound) as [latency [w' Hrun]].
    exists latency, w'. split; [exact Hrun |].
    exact (calculate_response_latency_self _ _ _ _ Hrun). }
  assert (Hnan : is_nan (fps (self w) * 5) = true ->
      calculate_response_latency frames w
      = (Raise (ValueError "cannot convert float NaN to integer"), w)).
  { intros H. apply is_nan_spec in H.
    unfold calculate_response_latency, bind, get_self, lift.
    rewrite (int_of_float_nan _ H). reflexivity. }
  assert (Hinf : is_infinity (fps (self w) * 5) = true ->
      calculate_response_latency frames w = (Raise OverflowError, w)).
  { intros H. apply is_infinity_spec in H. destruct H as [s Hs].
    unfold calculate_response_latency, bind, get_self, lift.
    rewrite (int_of_float_infinity _ s Hs). reflexivity. }
  repeat (split; [assumption |]).
  intros e w' Hrun.
  destruct (is_nan (fps (self w) * 5)) eqn:Enan.
  { rewrite (Hnan eq_refl) in Hrun. injection Hrun as <- _. split; discriminate. }
  destruct (is_infinity (fps (self w) * 5)) eqn:Einf.
  { rewrite (Hinf eq_refl) in Hrun. injection Hrun as <- _. split; discriminate. }
  destruct Hfin as (latency & w2 & Hok & _);
    [unfold is_finite; rewrite Enan, Einf; reflexivity | congruence].
Qed.

(** ** A model with a hands detector *)

Lemma process_hands_detector (c : Counters.t) (w : World) :
  w.(self).(hands_detector) <> None -> process_hands c w = (Ok c, w).
Proof.
  intros Hsome. unfold process_hands, bind, get_self.
  destruct (hands_detector (self w)); [reflexivity | contradiction].
Qed.

Lemma process_frames_detector (frames : list Frame) :
  forall (c c' : Counters.t) (w w' : World),
  w.(self).(hands_detector) <> None ->
  process_frames frames c w = (Ok c', w') ->
  Counters.gestures c' = Counters.gestures c.
Proof.
  induction frames as [| frame rest IH]; intros c c' w w' Hsome Hrun.
  - cbn in Hrun. injection Hrun as <- _. reflexivity.
  - cbn [process_frames] in Hrun.
    apply bind_ok in Hrun. destruct Hrun as (c1 & w1 & Hframe & Hrest).
    destruct (process_frame_effect frame c w) as (c1' & w1' & Hrun1 & Hhands & _).
    rewrite Hframe in Hrun1. injection Hrun1 as <- <-.
    rewrite (IH c1 c' w1 w' ltac:(rewrite Hhands; exact Hsome) Hrest).
    unfold process_frame in Hframe.
    apply bind_ok in Hframe. destruct Hframe as (found & wf & Hland & Hframe).
    apply bind_ok in Hframe. destruct Hframe as (cf & wh & Hface & Hhand).
    assert (Hkeep : wh.(self).(hands_detector) = w.(self).(hands_detector)
                    /\ Counters.gestures cf = Counters.gestures c).
    { destruct w as [m [stream k]].
      destruct (frame_face_landmarks_run frame m stream k) as [found' [Hrun' Hfound]].
      rewrite Hland in Hrun'. injection Hrun' as <- ->.
      destruct found as [lms |].
      - destruct Hfound as [left_iris [right_iris [H468 [H473 _]]]].
        match type of Hface with
        | process_face _ _ ?w0 = _ =>
            destruct (process_face_run lms left_iris right_iris c w0 H468 H473)
              as [eye_contact [social [_ [_ Hface']]]]
        end.
        rewrite Hface in Hface'. injection Hface' as -> ->. split; reflexivity.
      - cbn in Hface. injection Hface as <- <-. split; reflexivity. }
    destruct Hkeep as [Hd Hg].
    rewrite process_hands_detector in Hhand by (rewrite Hd; exact Hsome).
    injection Hhand as <- _. exact Hg.
Qed.

(** When the model holds a hands detector the frame loop never counts a
    gesture: [detect_gestures] is not called, so the gesture frequency is
    0.0, which counts as a risk factor against the default baseline. *)
Theorem hands_detector_never_consulted (cap : VideoCapture) (w w' : World)
    (metrics : BehavioralMetrics)
    (Hlen : Z.of_nat (List.length cap.(cap_frames)) <= maxsize)
    (Hdetector : w.(self).(hands_detector) <> None)
    (Hrun : process_video cap w = (Ok metrics, w')) :
  metrics.(gesture_frequency) = 0%float
  /\ (metrics.(gesture_frequency) <? metrics.(gesture_frequency_baseline) * 0.7)%float
     = true.
Proof.
  destruct (process_video_steps cap w metrics w' Hlen Hrun)
    as (k & c & d & latency & w2 & Hk & Hn & Hd & Hdpos & Hloop & Hfps & Hlat & ->).
  cbv zeta in *.
  assert (Hg : Counters.gestures c = 0).
  { refine (process_frames_detector _ Counters.zero c _ w2 _ Hloop). exact Hdetector. }
  cbn [gesture_frequency gesture_frequency_baseline BehavioralMetrics_init].
  rewrite Hg. change (float_of_int 0) with 0%float.
  rewrite (zero_div_positive _ Hdpos).
  split; reflexivity.
Qed.

Lemma hands_detector_never_consulted_witness :
  exists metrics,
    fst (process_video
           (mkCapture 30 [mkFrame [] [] (Some Fixtures.pointing_hand)])
           (mkWorld (mkModel (Some tt) None 0 30 None) (mkRng (fun _ => 0.9%float) 0)))
    = Ok metrics
    /\ metrics.(gesture_frequency) = 0%float.
Proof.
  destruct (process_video
              (mkCapture 30 [mkFrame [] [] (Some Fixtures.pointing_hand)])
              (mkWorld (mkModel (Some tt) None 0 30 None) (mkRng (fun _ => 0.9%float) 0)))
    as [[metrics | e] w'] eqn:Hrun; [| vm_compute in Hrun; discriminate].
  exists metrics. split; [reflexivity |].
  refine (proj1 (hands_detector_never_consulted _ _ w' metrics _ _ Hrun));
    [cbn; unfold maxsize; lia | discriminate].
Defined.

(** ** The ranges of the metrics *)

(** The face part of an iteration leaves the gesture counter alone. *)
Lemma process_face_gestures (found : option (list MockLandmark.t))
    (c c' : Counters.t) (w w' : World) :
  process_face found c w = (Ok c', w') ->
  Counters.gestures c' = Counters.gestures c.
Proof.
  unfold process_face. destruct found as [[| l0 tl] |];
    try (cbn; intros H; injection H as <- _; reflexivity).
  intros H.
  do 5 (apply bind_ok in H; destruct H as (? & ? & _ & H)).
  unfold ret in H. injection H as <- _. reflexivity.
Qed.

Lemma process_frames_gestures (frames : list Frame) :
  forall (c c' : Counters.t) (w w' : World),
  process_frames frames c w = (Ok c', w') ->
  Counters.gestures c <= Counters.gestures c'
    <= Counters.gestures c + Z.of_nat (List.length frames).
Proof.
  induction frames as [| frame rest IH]; intros c c' w w' Hrun.
  - cbn in Hrun. injection Hrun as <- _. cbn. lia.
  - cbn [process_frames] in Hrun.
    apply bind_ok in Hrun. destruct Hrun as (c1 & w1 & Hframe & Hrest).
    specialize (IH _ _ _ _ Hrest).
    unfold process_frame in Hframe.
    apply bind_ok in Hframe. destruct Hframe as (found & wf & _ & Hframe).
    apply bind_ok in Hframe. destruct Hframe as (cf & wh & Hface & Hhand).
    apply process_face_gestures in Hface.
    destruct (process_hands_effect cf wh) as (c1' & w1' & Hh & _ & _ & _ & _ & Hg).
    rewrite Hhand in Hh. injection Hh as <- <-.
    cbn [List.length]. lia.
Qed.

Lemma face_frames_length (frames : list Frame) :
  Obs.face_frames frames <= Z.of_nat (List.length frames).
Proof.
  unfold Obs.face_frames. assert (H := filter_length_le Obs.has_face frames). lia.
Qed.

(** For every video of fewer than [2^53] sampled frames whose rate is not
    negative, the metrics of a successful run are in range: the two
    percentages lie between 0 and 100, and the two rates and the latency
    are not negative. *)
Theorem process_video_metric_ranges (cap : VideoCapture) (w w' : World)
    (metrics : BehavioralMetrics)
    (Hlen : Z.of_nat (List.length cap.(cap_frames)) < 2 ^ 53)
    (Hrate : (cap.(cap_fps) <? 0)%float = false)
    (Hrun : process_video cap w = (Ok metrics, w')) :
  (0 <=? metrics.(eye_contact_duration))%float = true
  /\ (metrics.(eye_contact_duration) <=? 100)%float = true
  /\ (0 <=? metrics.(social_gaze))%float = true
  /\ (metrics.(social_gaze) <=? 100)%float = true
  /\ (0 <=? metrics.(attention_shifts))%float = true
  /\ (0 <=? metrics.(gesture_frequency))%float = true
  /\ (0 <=? metrics.(response_latency))%float = true.
Proof.
  assert (Hlen' : Z.of_nat (List.length cap.(cap_frames)) <= maxsize)
    by (unfold maxsize; lia).
  destruct (process_video_steps cap w metrics w' Hlen' Hrun)
    as (k & c & d & latency & w2 & Hk & Hn & Hd & Hdpos & Hloop & Hfps & Hlat & ->).
  cbv zeta in *.
  set (frames := sample_frames (Z.max 1 k) 0 (cap_frames cap)) in *.
  assert (Hshort := sample_frames_length (Z.max 1 k) (cap_frames cap) 0). fold frames in Hshort.
  destruct (process_frames_face_counts frames Counters.zero
              (snd (set_frame_count (Z.of_nat (List.length frames))
                      (snd (set_fps (cap_fps cap) w)))))
    as [c0 [w0 [Hloop' [He [Hs [Ha _]]]]]].
  rewrite Hloop in Hloop'. injection Hloop' as <- <-.
  assert (Hg := process_frames_gestures _ _ _ _ _ Hloop).
  assert (Hfaces := face_frames_length frames).
  cbn [Counters.zero Counters.eye_contact_frames Counters.social_gaze_frames
       Counters.attention_shifts Counters.gestures] in He, Hs, Ha, Hg.
  cbn [eye_contact_duration social_gaze attention_shifts gesture_frequency
       response_latency BehavioralMetrics_init].
  destruct (percentage_bounds (Counters.eye_contact_frames c)
              (Z.of_nat (List.length frames)) ltac:(lia) ltac:(lia)) as [He1 He2].
  destruct (percentage_bounds (Counters.social_gaze_frames c)
              (Z.of_nat (List.length frames)) ltac:(lia) ltac:(lia)) as [Hs1 Hs2].
  assert (Hquot : forall count, 0 <= count <= maxsize ->
            (0 <=? round1 (float_of_int count / d))%float = true).
  { intros count Hcount. apply leb_zero_nonneg, round1_nonneg.
    rewrite FloatAxioms.div_spec. apply div_nonneg; [| exact Hdpos].
    apply float_of_int_sign. exact Hcount. }
  repeat (split; [assumption |]).
  split; [apply Hquot; lia |]. split; [apply Hquot; lia |].
  destruct w2 as [m2 [stream2 k2]]. cbn [self] in Hfps.
  apply (latency_nonneg frames m2 stream2 k2 latency w');
    [rewrite Hfps; exact Hrate | lia | exact Hlat].
Qed.

Lemma process_video_metric_ranges_witness :
  exists metrics,
    fst (process_video (mkCapture 30 [Fixtures.centered; Fixtures.empty])
           (Fixtures.fresh 0.9)) = Ok metrics
    /\ (metrics.(eye_contact_duration) <=? 100)%float = true
    /\ (0 <=? metrics.(response_latency))%float = true.
Proof.
  destruct (process_video (mkCapture 30 [Fixtures.centered; Fixtures.empty])
              (Fixtures.fresh 0.9)) as [[metrics | e] w'] eqn:Hrun;
    [| vm_compute in Hrun; discriminate].
  exists metrics. split; [reflexivity |].
  destruct (process_video_metric_ranges
              (mkCapture 30 [Fixtures.centered; Fixtures.empty]) (Fixtures.fresh 0.9)
              w' metrics) as (_ & He & _ & _ & _ & _ & Hl);
    [cbn; lia | reflexivity | exact Hrun |].
  split; assumption.
Defined.
